(** * OSHA Monitor: a shallow embedding of [app.py] and [email_digest.py]

    The web aggregator ([app.py]) and the e-mail digest ([email_digest.py])
    are translated function by function.  Python dictionaries are finite
    maps from field names to dynamically typed values, the wall clock and
    the network are explicit arguments, [print] appends to a log, and an
    exception is a value of a sum type. *)

From stdpp Require Import base gmap strings list pretty sorting.
From Stdlib Require Import ZArith Lia.

Local Open Scope string_scope.
Local Open Scope Z_scope.

(** ** Python values *)

(** A naive [datetime.datetime]: the seven fields CPython stores. *)
Record naive := mkNaive {
  year : Z; month : Z; day : Z;
  hour : Z; minute : Z; second : Z; microsecond : Z
}.

(** A [datetime.datetime] as [dateutil] returns it: the naive fields and an
    optional [tzinfo] (the UTC offset in minutes). *)
Record datetime := mkDatetime {
  dt_naive : naive;
  tzinfo : option Z
}.

(** [pub_date.replace(tzinfo=None)]: the fields are kept as they are. *)
Definition replace_tzinfo_None (d : datetime) : naive := dt_naive d.

(** The values a document dictionary or a decoded JSON object holds. *)
Inductive pyval :=
| PNone
| PBool (b : bool)
| PInt (z : Z)
| PStr (s : string)
| PDate (d : datetime).

(** Python truthiness, as used by [if doc.get(...)] and [if year]. *)
Definition truthy (v : pyval) : bool :=
  match v with
  | PNone => false
  | PBool b => b
  | PInt z => negb (z =? 0)
  | PStr s => negb (String.eqb s "")
  | PDate _ => true
  end.

(** A document (and a raw Federal Register record) is a [dict] with string
    keys. *)
Abbreviation document := (gmap string pyval).

(** [d.get(k)]: [None] when the key is missing. *)
Definition dict_get (d : document) (k : string) : pyval :=
  default PNone (d !! k).

(** [d.get(k, dflt)]. *)
Definition dict_get_default (d : document) (k : string) (dflt : pyval) : pyval :=
  default dflt (d !! k).

(** ** Calendar arithmetic of the [datetime] module *)

Definition is_leap (y : Z) : bool :=
  (y mod 4 =? 0) && (negb (y mod 100 =? 0) || (y mod 400 =? 0)).

Definition days_before_year (y : Z) : Z :=
  let y1 := y - 1 in y1 * 365 + y1 / 4 - y1 / 100 + y1 / 400.

Definition DAYS_BEFORE_MONTH (m : Z) : Z :=
  match m with
  | 1 => 0 | 2 => 31 | 3 => 59 | 4 => 90 | 5 => 120 | 6 => 151
  | 7 => 181 | 8 => 212 | 9 => 243 | 10 => 273 | 11 => 304 | 12 => 334
  | _ => 0
  end.

Definition DAYS_IN_MONTH (m : Z) : Z :=
  match m with
  | 1 => 31 | 2 => 28 | 3 => 31 | 4 => 30 | 5 => 31 | 6 => 30
  | 7 => 31 | 8 => 31 | 9 => 30 | 10 => 31 | 11 => 30 | 12 => 31
  | _ => 0
  end.

Definition days_in_month (y m : Z) : Z :=
  if (m =? 2) && is_leap y then 29 else DAYS_IN_MONTH m.

Definition days_before_month (y m : Z) : Z :=
  DAYS_BEFORE_MONTH m + (if (2 <? m) && is_leap y then 1 else 0).

(** [date.toordinal()]: 1 for 0001-01-01. *)
Definition toordinal (d : naive) : Z :=
  days_before_year (year d) + days_before_month (year d) (month d) + day d.

Definition us_per_day : Z := 86400 * 1000000.

(** Microseconds since the start of day 0. *)
Definition total_us (d : naive) : Z :=
  ((toordinal d * 86400 + hour d * 3600 + minute d * 60 + second d) * 1000000)
  + microsecond d.

(** [(a - b).days] for two naive datetimes: [timedelta] normalises seconds
    and microseconds to be non-negative, so [days] is the floor. *)
Definition sub_days (a b : naive) : Z :=
  (total_us a - total_us b) / us_per_day.

(** The objects the constructor of [datetime] accepts. *)
Definition valid_naive (d : naive) : bool :=
  (1 <=? year d) && (year d <=? 9999) &&
  (1 <=? month d) && (month d <=? 12) &&
  (1 <=? day d) && (day d <=? days_in_month (year d) (month d)) &&
  (0 <=? hour d) && (hour d <=? 23) &&
  (0 <=? minute d) && (minute d <=? 59) &&
  (0 <=? second d) && (second d <=? 59) &&
  (0 <=? microsecond d) && (microsecond d <=? 999999).

(** [datetime.min]. *)
Definition datetime_min : naive := mkNaive 1 1 1 0 0 0 0.

(** Comparison of naive datetimes is the comparison of their field tuples. *)
Definition fields (d : naive) : list Z :=
  [year d; month d; day d; hour d; minute d; second d; microsecond d].

Fixpoint lex_compare (a b : list Z) : comparison :=
  match a, b with
  | [], [] => Eq
  | [], _ :: _ => Lt
  | _ :: _, [] => Gt
  | x :: a', y :: b' =>
      match x ?= y with
      | Eq => lex_compare a' b'
      | c => c
      end
  end.

Definition naive_compare (a b : naive) : comparison :=
  lex_compare (fields a) (fields b).

(** [a > b] and [a >= b] on naive datetimes. *)
Definition naive_gtb (a b : naive) : bool :=
  match naive_compare a b with Gt => true | _ => false end.

Definition naive_geb (a b : naive) : bool :=
  match naive_compare a b with Lt => false | _ => true end.

(** ** [strftime] *)

Definition month_name (m : Z) : string :=
  match m with
  | 1 => "January" | 2 => "February" | 3 => "March" | 4 => "April"
  | 5 => "May" | 6 => "June" | 7 => "July" | 8 => "August"
  | 9 => "September" | 10 => "October" | 11 => "November" | 12 => "December"
  | _ => ""
  end.

(** [%b]: the first three letters of the month name. *)
Definition month_abbr (m : Z) : string := String.substring 0 3 (month_name m).

(** [date.weekday()]: Monday is 0. *)
Definition weekday (d : naive) : Z := (toordinal d + 6) mod 7.

Definition day_name (w : Z) : string :=
  match w with
  | 0 => "Monday" | 1 => "Tuesday" | 2 => "Wednesday" | 3 => "Thursday"
  | 4 => "Friday" | 5 => "Saturday" | 6 => "Sunday"
  | _ => ""
  end.

(** Decimal digits of [z], padded with zeros on the left to [w] characters. *)
Fixpoint zeros (n : nat) : string :=
  match n with
  | O => ""
  | S n' => "0" ++ zeros n'
  end.

Definition zero_pad (w : nat) (z : Z) : string :=
  let s := pretty z in zeros (w - String.length s) ++ s.

(** [%Y] is the year with century, four digits as the library reference
    tabulates it; [%d] the day of the month in two digits. *)
Definition fmt_Y (d : naive) : string := zero_pad 4 (year d).
Definition fmt_d (d : naive) : string := zero_pad 2 (day d).

(** [strftime("%b %Y")] *)
Definition strftime_b_Y (d : naive) : string :=
  month_abbr (month d) ++ " " ++ fmt_Y d.

(** [strftime("%B %d, %Y")] *)
Definition strftime_B_d_Y (d : naive) : string :=
  month_name (month d) ++ " " ++ fmt_d d ++ ", " ++ fmt_Y d.

(** [strftime("%b %d, %Y")] *)
Definition strftime_b_d_Y (d : naive) : string :=
  month_abbr (month d) ++ " " ++ fmt_d d ++ ", " ++ fmt_Y d.

(** [strftime("%A, %B %d, %Y")] *)
Definition strftime_A_B_d_Y (d : naive) : string :=
  day_name (weekday d) ++ ", " ++ strftime_B_d_Y d.

(** [str(d)] of a datetime, as an f-string renders it. *)
Definition str_datetime (d : datetime) : string :=
  let n := dt_naive d in
  zero_pad 4 (year n) ++ "-" ++ zero_pad 2 (month n) ++ "-" ++ zero_pad 2 (day n)
  ++ " " ++ zero_pad 2 (hour n) ++ ":" ++ zero_pad 2 (minute n) ++ ":"
  ++ zero_pad 2 (second n)
  ++ (if microsecond n =? 0 then "" else "." ++ zero_pad 6 (microsecond n))
  ++ match tzinfo d with
     | None => ""
     | Some off =>
         (if off <? 0 then "-" else "+") ++ zero_pad 2 (Z.abs off / 60)
         ++ ":" ++ zero_pad 2 (Z.abs off mod 60)
     end.

(** [str(v)], the conversion an f-string applies to a field. *)
Definition py_str (v : pyval) : string :=
  match v with
  | PNone => "None"
  | PBool true => "True"
  | PBool false => "False"
  | PInt z => pretty z
  | PStr s => s
  | PDate d => str_datetime d
  end.

(** [v == s] for a string literal [s]. *)
Definition py_eq_str (v : pyval) (s : string) : bool :=
  match v with
  | PStr t => String.eqb t s
  | _ => false
  end.

(** [s.strip()]: whitespace is removed at both ends. *)
Definition isspace (c : Ascii.ascii) : bool :=
  let n := Ascii.nat_of_ascii c in
  ((9 <=? n) && (n <=? 13) || (28 <=? n) && (n <=? 32)
   || (n =? 133) || (n =? 160))%nat.

Fixpoint lstrip (s : string) : string :=
  match s with
  | String c s' => if isspace c then lstrip s' else s
  | EmptyString => EmptyString
  end.

Fixpoint rstrip (s : string) : string :=
  match s with
  | String c s' =>
      match rstrip s' with
      | EmptyString => if isspace c then EmptyString else String c EmptyString
      | r => String c r
      end
  | EmptyString => EmptyString
  end.

Definition strip (s : string) : string := rstrip (lstrip s).

(** ** Exceptions, output and the outside world *)

Inductive exn_class :=
| ConnectionError | Timeout | HTTPError | JSONDecodeError
| ParseError | AttributeError | TypeError | OverflowError | OtherError.

Record exn := mkExn { exn_cls : exn_class; exn_msg : string }.

(** [isinstance(e, requests.RequestException)]: the classes of the
    [requests] library, including the [JSONDecodeError] its [json()] raises. *)
Definition is_RequestException (e : exn) : bool :=
  match exn_cls e with
  | ConnectionError | Timeout | HTTPError | JSONDecodeError => true
  | _ => false
  end.

(** What a call does: it returns a value or raises. *)
Inductive outcome (A : Type) :=
| Returns (a : A)
| Raises (e : exn).
Arguments Returns {A} a.
Arguments Raises {A} e.

(** The message handed to [resend.Emails.send]. *)
Record email := mkEmail {
  email_from : string;
  email_to : list string;
  email_subject : string;
  email_html : string;
  email_text : string
}.

(** What a run leaves behind: the lines printed and the messages handed to
    the e-mail transport. *)
Record state := mkState {
  stdout : list string;
  outbox : list email
}.

(** A computation that may print, send and raise. *)
Definition M (A : Type) : Type := state -> outcome A * state.

Definition ret {A} (a : A) : M A := fun s => (Returns a, s).

Definition raise {A} (e : exn) : M A := fun s => (Raises e, s).

Definition bind {A B} (m : M A) (k : A -> M B) : M B :=
  fun s =>
    match m s with
    | (Returns a, s') => k a s'
    | (Raises e, s') => (Raises e, s')
    end.

#[global] Instance M_ret : MRet M := @ret.
#[global] Instance M_bind : MBind M := fun A B k m => bind m k.

(** [print(line)] *)
Definition print (line : string) : M unit :=
  fun s => (Returns tt, mkState (stdout s ++ [line]) (outbox s)).

(** [try: body except <classes>: handler(e)] *)
Definition try_except {A} (body : M A) (catches : exn -> bool)
    (handler : exn -> M A) : M A :=
  fun s =>
    match body s with
    | (Raises e, s') => if catches e then handler e s' else (Raises e, s')
    | r => r
    end.

(** [except Exception] *)
Definition any_Exception (e : exn) : bool := true.

(** Lift a pure result into a computation. *)
Definition of_outcome {A} (o : outcome A) : M A := fun s => (o, s).

(** An HTTP response as [requests] presents it. *)
Record response (B : Type) := mkResponse {
  status_code : Z;
  reason : string;
  url : string;
  content : B
}.
Arguments mkResponse {B}.
Arguments status_code {B}.
Arguments reason {B}.
Arguments url {B}.
Arguments content {B}.

(** [response.raise_for_status()] *)
Definition raise_for_status {B} (r : response B) : outcome unit :=
  if (400 <=? status_code r) && (status_code r <? 500) then
    Raises (mkExn HTTPError
      (pretty (status_code r) ++ " Client Error: " ++ reason r
       ++ " for url: " ++ url r))
  else if (500 <=? status_code r) && (status_code r <? 600) then
    Raises (mkExn HTTPError
      (pretty (status_code r) ++ " Server Error: " ++ reason r
       ++ " for url: " ++ url r))
  else Returns tt.

(** The body of a Federal Register response: text that is not JSON, or the
    value [response.json()] returns.  The clients call [.get] on that
    value, loop over its [results] member, call [.get] on every element the
    loop visits, and [index] adds its [count] member to an integer; the
    types keep the kinds of value these operations tell apart. *)

(** An element a loop visits: an object, whose members the loop body reads
    as a record, or a value without [.get] (null, a number, a string, an
    array). *)
Inductive json_element :=
| JRecord (doc : document)
| JNotObject.

(** A member of the response object: a scalar (null, true or false, a
    number, which is an integer as in [pyval], a string), an array, or an
    object, which a loop visits by its keys. *)
Inductive json_member :=
| JScalar (v : pyval)
| JArray (items : list json_element)
| JKeys (keys : list string).

(** The value itself: an object with its optional [results] and [count]
    members, or something else (an array, a string, a number, null). *)
Inductive json_value :=
| JObject (results : option json_member) (count : option json_member)
| JOther.

(** [for doc in v]: the elements a loop over [v] visits.  A string is
    visited by its characters and an object by its keys, which are strings
    and have no [.get]; null, a boolean and a number are not iterable. *)
Definition py_iter (v : json_member) : outcome (list json_element) :=
  match v with
  | JArray items => Returns items
  | JScalar (PStr s) =>
      Returns (map (fun _ => JNotObject) (String.list_ascii_of_string s))
  | JKeys keys => Returns (map (fun _ => JNotObject) keys)
  | JScalar _ => Raises (mkExn TypeError "object is not iterable")
  end.

(** A loop whose body reads every element with [.get] and appends to a
    list: what it has appended when it ends, or the [AttributeError] of the
    first element that is not an object. *)
Fixpoint for_records {B} (body : document -> list B)
    (items : list json_element) : outcome (list B) :=
  match items with
  | [] => Returns []
  | JRecord doc :: rest =>
      match for_records body rest with
      | Returns r => Returns (body doc ++ r)%list
      | Raises e => Raises e
      end
  | JNotObject :: _ =>
      Raises (mkExn AttributeError "object has no attribute 'get'")
  end.

(** [total_count += count] for an integer [total_count]: the number that
    is added.  [True] counts 1 and [False] 0; the other kinds of value
    cannot be added to an integer. *)
Definition added_count (count : json_member) : outcome Z :=
  match count with
  | JScalar (PInt n) => Returns n
  | JScalar (PBool b) => Returns (if b then 1 else 0)
  | _ => Raises (mkExn TypeError "unsupported operand type(s) for +=")
  end.

Inductive json_body :=
| InvalidJSON (msg : string)
| ValidJSON (v : json_value).

(** [response.json()] *)
Definition response_json (r : response json_body) : outcome json_value :=
  match content r with
  | InvalidJSON msg => Raises (mkExn JSONDecodeError msg)
  | ValidJSON v => Returns v
  end.

(** An [<item>] of a feed: the text of its children, where present. *)
Record rss_item := mkItem {
  item_title : option string;
  item_link : option string;
  item_description : option string;
  item_pubDate : option string
}.

(** [item.findtext(tag, "")] *)
Definition findtext (child : option string) : string := default "" child.

(** The body of a feed response: text that is not XML, or a tree with its
    [item] elements in document order. *)
Inductive xml_body :=
| InvalidXML (msg : string)
| XMLRoot (items : list rss_item).

(** [ET.fromstring(response.content)] followed by [findall(".//item")] *)
Definition ET_fromstring (r : response xml_body) : outcome (list rss_item) :=
  match content r with
  | InvalidXML msg => Raises (mkExn ParseError msg)
  | XMLRoot items => Returns items
  end.

(** The query sent to the Federal Register: the document types, the page
    size and the optional year condition (the other parameters are fixed). *)
Record fr_params := mkParams {
  conditions_type : list string;
  per_page : Z;
  conditions_year : option Z
}.

(** The environment of one run.  [now] is what [datetime.now()] returns
    (one run reads one instant); [requests.get] either raises or returns a
    response; [date_parse] is [dateutil.parser.parse] and [py_int] is the
    builtin [int] on a string, [None] standing for the exception each
    raises on text it does not accept. *)
Record world := mkWorld {
  now : naive;
  get_federal_register : fr_params -> outcome (response json_body);
  get_rss : string -> outcome (response xml_body);
  date_parse : string -> option datetime;
  py_int : string -> option Z;
  RESEND_API_KEY : option string;
  ALERT_EMAIL : string;
  FROM_EMAIL : string;
  resend_send : email -> outcome string
}.

(** [date_parser.parse(v)]: only text is parsed, other values raise. *)
Definition parse_value (w : world) (v : pyval) : option datetime :=
  match v with
  | PStr s => date_parse w s
  | _ => None
  end.

Definition OSHA_INTERPRETATIONS_RSS : string :=
  "https://www.osha.gov/laws-regs/standardinterpretations.xml".
Definition OSHA_DIRECTIVES_RSS : string :=
  "https://www.osha.gov/enforcement/directives.xml".

(** ** [app.py] *)

Module App.

(** [format_time_ago(pub_date)], with the value of [datetime.now()] as the
    argument [now].  The argument is a datetime here, so no operation of the
    body raises and the handler that returns the empty string is not
    reached. *)
Definition format_time_ago (now : naive) (pub_date : datetime) : string :=
  let pub_date :=
    match tzinfo pub_date with
    | Some _ => replace_tzinfo_None pub_date
    | None => dt_naive pub_date
    end in
  let days_ago := sub_days now pub_date in
  if days_ago <? 0 then "Upcoming"
  else if days_ago =? 0 then "Today"
  else if days_ago =? 1 then "Yesterday"
  else if days_ago <? 7 then pretty days_ago ++ " days ago"
  else if days_ago <? 30 then
    let weeks := days_ago / 7 in
    pretty weeks ++ " week" ++ (if 1 <? weeks then "s" else "") ++ " ago"
  else if days_ago <? 365 then
    let months := days_ago / 30 in
    pretty months ++ " month" ++ (if 1 <? months then "s" else "") ++ " ago"
  else strftime_b_Y pub_date.


(** The year condition [fetch_federal_register] adds to its query: none
    when [year] is empty, ["all"] or rejected by [int]. *)
Definition year_condition (w : world) (year : option string) : option Z :=
  match year with
  | Some y =>
      if negb (String.eqb y "") && negb (String.eqb y "all")
      then py_int w y
      else None
  | None => None
  end.

(** The effective-date branch of the loop body of [fetch_federal_register].
    A timezone-aware [eff_date] cannot be compared with [datetime.now()];
    the [TypeError] is caught like a parse failure. *)
Definition effective_status (w : world) (doc : document) : string :=
  if truthy (dict_get doc "effective_on") then
    match parse_value w (dict_get doc "effective_on") with
    | Some eff_date =>
        match tzinfo eff_date with
        | Some _ => ""
        | None =>
            let eff := dt_naive eff_date in
            if naive_gtb eff (now w) then
              let days_until := sub_days eff (now w) in
              if days_until =? 0 then "Effective today"
              else if days_until =? 1 then "Effective tomorrow"
              else if days_until <? 30 then
                "Effective in " ++ pretty days_until ++ " days"
              else "Effective " ++ strftime_b_d_Y eff
            else "Effective since " ++ strftime_b_d_Y eff
        end
    | None => ""
    end
  else "".

(** The publication-date branch of the same loop body: the three fields
    are added only when [publication_date] is truthy. *)
Definition add_publication_date (w : world) (doc processed : document)
    : document :=
  if truthy (dict_get doc "publication_date") then
    match parse_value w (dict_get doc "publication_date") with
    | Some pub_date =>
        <["time_ago" := PStr (format_time_ago (now w) pub_date)]>
        (<["pub_date_formatted" := PStr (strftime_B_d_Y (dt_naive pub_date))]>
        (<["pub_date" := PDate pub_date]> processed))
    | None =>
        <["time_ago" := PStr ""]>
        (<["pub_date_formatted" := dict_get doc "publication_date"]>
        (<["pub_date" := PNone]> processed))
    end
  else processed.

(** One iteration of the loop of [fetch_federal_register]. *)
Definition process_federal_register (w : world) (doc : document) : document :=
  let processed : document :=
    <["content_type" := dict_get_default doc "type" (PStr "")]>
    (<["source" := PStr "Federal Register"]>
    (<["pdf_url" := dict_get_default doc "pdf_url" (PStr "")]>
    (<["url" := dict_get_default doc "html_url" (PStr "")]>
    (<["abstract" := dict_get_default doc "abstract" (PStr "")]>
    (<["title" := dict_get_default doc "title" (PStr "")]> ∅))))) in
  let processed := add_publication_date w doc processed in
  <["effective_status" := PStr (effective_status w doc)]> processed.

(** [fetch_federal_register(year, doc_types, limit)].  Only
    [requests.RequestException] is handled.  The count is returned as the
    body has it, 0 when the member is missing. *)
Definition fetch_federal_register (w : world) (year : option string)
    (doc_types : option (list string)) (limit : Z)
    : M (list document * json_member) :=
  let doc_types := default ["RULE"; "PRORULE"; "NOTICE"] doc_types in
  let params := mkParams doc_types limit (year_condition w year) in
  try_except
    (response ← of_outcome (get_federal_register w params);
     of_outcome (raise_for_status response);;
     data ← of_outcome (response_json response);
     match data with
     | JObject results count =>
         items ← of_outcome (py_iter (default (JArray []) results));
         documents ← of_outcome
           (for_records (fun doc => [process_federal_register w doc]) items);
         mret (documents, default (JScalar (PInt 0)) count)
     | JOther =>
         raise (mkExn AttributeError "object has no attribute 'get'")
     end)
    is_RequestException
    (fun e =>
       print ("Error fetching Federal Register: " ++ exn_msg e);;
       mret ([], JScalar (PInt 0))).

(** One iteration of the loop of [fetch_osha_rss]. *)
Definition process_rss_item (w : world) (content_type source_name : string)
    (item : rss_item) : document :=
  let title := strip (findtext (item_title item)) in
  let link := strip (findtext (item_link item)) in
  let description := strip (findtext (item_description item)) in
  let pub_date_str := strip (findtext (item_pubDate item)) in
  let processed : document :=
    <["effective_status" := PStr ""]>
    (<["content_type" := PStr content_type]>
    (<["source" := PStr source_name]>
    (<["pdf_url" := PStr ""]>
    (<["url" := PStr link]>
    (<["abstract" := PStr description]>
    (<["title" := PStr title]> ∅)))))) in
  if negb (String.eqb pub_date_str "") then
    match date_parse w pub_date_str with
    | Some pub_date =>
        <["time_ago" := PStr (format_time_ago (now w) pub_date)]>
        (<["pub_date_formatted" := PStr (strftime_B_d_Y (dt_naive pub_date))]>
        (<["pub_date" := PDate pub_date]> processed))
    | None =>
        <["time_ago" := PStr ""]>
        (<["pub_date_formatted" := PStr ""]>
        (<["pub_date" := PNone]> processed))
    end
  else
    <["time_ago" := PStr ""]>
    (<["pub_date_formatted" := PStr ""]>
    (<["pub_date" := PNone]> processed)).

(** [fetch_osha_rss(url, content_type, source_name)].  Every exception is
    handled. *)
Definition fetch_osha_rss (w : world) (url content_type source_name : string)
    : M (list document) :=
  try_except
    (response ← of_outcome (get_rss w url);
     of_outcome (raise_for_status response);;
     items ← of_outcome (ET_fromstring response);
     mret (map (process_rss_item w content_type source_name) items))
    any_Exception
    (fun e =>
       print ("Error fetching " ++ source_name ++ ": " ++ exn_msg e);;
       mret []).

Definition fetch_interpretations (w : world) : M (list document) :=
  fetch_osha_rss w OSHA_INTERPRETATIONS_RSS "Interpretation"
    "OSHA Interpretations".

Definition fetch_directives (w : world) : M (list document) :=
  fetch_osha_rss w OSHA_DIRECTIVES_RSS "Directive" "OSHA Directives".

(** [x in [a, b]] on strings. *)
Definition str_in (x : string) (l : list string) : bool :=
  existsb (String.eqb x) l.

(** The condition of the comprehension that filters a feed by year:
    [d.get("pub_date") and d["pub_date"].year == year_int].  A truthy value
    that is not a datetime has no [year] attribute. *)
Definition year_test (year_int : Z) (d : document) : option bool :=
  let v := dict_get d "pub_date" in
  if truthy v then
    match v with
    | PDate pub_date => Some (year (dt_naive pub_date) =? year_int)
    | _ => None
    end
  else Some false.

(** A list comprehension whose condition may raise: [None] when it does. *)
Fixpoint comprehension {A} (cond : A -> option bool) (l : list A)
    : option (list A) :=
  match l with
  | [] => Some []
  | x :: l' =>
      match cond x with
      | Some b =>
          match comprehension cond l' with
          | Some r => Some (if b then x :: r else r)
          | None => None
          end
      | None => None
      end
  end.

(** The year filter that [index] applies to each feed: the bare [except]
    leaves the list as it was when [int(year)] or the comprehension
    raises. *)
Definition filter_by_year (w : world) (year : string) (docs : list document)
    : list document :=
  if negb (String.eqb year "") && negb (String.eqb year "all") then
    match py_int w year with
    | Some year_int => default docs (comprehension (year_test year_int) docs)
    | None => docs
    end
  else docs.

(** [sort_key(doc)] of [index]. *)
Definition sort_key (doc : document) : outcome naive :=
  match dict_get doc "pub_date" with
  | PNone => Returns datetime_min
  | PDate pub_date =>
      match tzinfo pub_date with
      | Some _ => Returns (replace_tzinfo_None pub_date)
      | None => Returns (dt_naive pub_date)
      end
  | _ => Raises (mkExn AttributeError "object has no attribute 'tzinfo'")
  end.

(** [list.sort(key=..., reverse=True)] computes every key first; an
    exception from the key function leaves the sort undone. *)
Fixpoint decorate (l : list document) : outcome (list (naive * document)) :=
  match l with
  | [] => Returns []
  | d :: l' =>
      match sort_key d with
      | Returns k =>
          match decorate l' with
          | Returns r => Returns ((k, d) :: r)
          | Raises e => Raises e
          end
      | Raises e => Raises e
      end
  end.

(** The sort is stable, also with [reverse=True]: an element goes before
    the first element whose key is not greater than its own, so elements
    with equal keys keep the order they had. *)
Fixpoint insert_desc (x : naive * document) (l : list (naive * document))
    : list (naive * document) :=
  match l with
  | [] => [x]
  | y :: l' =>
      if naive_gtb (fst y) (fst x) then y :: insert_desc x l'
      else x :: y :: l'
  end.

Definition sort_desc (l : list (naive * document)) : list (naive * document) :=
  foldr insert_desc [] l.

(** [all_documents.sort(key=sort_key, reverse=True)] *)
Definition sort_documents (l : list document) : outcome (list document) :=
  match decorate l with
  | Returns kl => Returns (map snd (sort_desc kl))
  | Raises e => Raises e
  end.

(** [[d for d in all_documents if d.get("content_type") == label]] *)
Definition of_content_type (label : string) (l : list document)
    : list document :=
  List.filter (fun d => py_eq_str (dict_get d "content_type") label) l.

(** The arguments [index] passes to the template. *)
Record page := mkPage {
  final_rules : list document;
  proposed_rules : list document;
  notices : list document;
  interpretations : list document;
  directives : list document;
  today : string;
  page_year : string;
  current_year : Z;
  content_filter : string;
  total_count : Z;
  error : bool
}.

(** The documents and the count one source adds in [index]. *)
Definition fetch_if (selected : bool) (fetch : M (list document * Z))
    : M (list document * Z) :=
  if selected then fetch else mret ([], 0).

(** A Federal Register fetch with its count as [index] uses it:
    [total_count += fr_count] follows the fetch at once and raises unless
    the count is a number. *)
Definition counted (fetch : M (list document * json_member))
    : M (list document * Z) :=
  '(docs, count) ← fetch;
  n ← of_outcome (added_count count);
  mret (docs, n).

(** A feed fetched and filtered by year, with the length of the filtered
    list as its count. *)
Definition fetch_feed (w : world) (year : string) (fetch : M (list document))
    : M (list document * Z) :=
  docs ← fetch;
  let docs := filter_by_year w year docs in
  mret (docs, Z.of_nat (length docs)).

(** [index()], with the two query parameters as arguments. *)
Definition index (w : world) (content_arg year_arg : option string) : M page :=
  let current_year := year (now w) in
  let content_filter := default "rules" content_arg in
  let year := default (pretty current_year) year_arg in
  '(fr_docs, fr_count) ←
     fetch_if (str_in content_filter ["all"; "rules"])
       (counted (fetch_federal_register w (Some year) (Some ["RULE"]) 30));
  '(prop_docs, prop_count) ←
     fetch_if (str_in content_filter ["all"; "proposed"])
       (counted (fetch_federal_register w (Some year) (Some ["PRORULE"]) 30));
  '(notice_docs, notice_count) ←
     fetch_if (str_in content_filter ["all"; "notices"])
       (counted (fetch_federal_register w (Some year) (Some ["NOTICE"]) 30));
  '(interp_docs, interp_count) ←
     fetch_if (str_in content_filter ["all"; "interpretations"])
       (fetch_feed w year (fetch_interpretations w));
  '(directive_docs, directive_count) ←
     fetch_if (str_in content_filter ["all"; "directives"])
       (fetch_feed w year (fetch_directives w));
  let all_documents :=
    ([] ++ fr_docs ++ prop_docs ++ notice_docs ++ interp_docs
     ++ directive_docs)%list in
  let total_count :=
    0 + fr_count + prop_count + notice_count + interp_count
    + directive_count in
  all_documents ← of_outcome (sort_documents all_documents);
  mret (mkPage
    (of_content_type "Rule" all_documents)
    (of_content_type "Proposed Rule" all_documents)
    (of_content_type "Notice" all_documents)
    (of_content_type "Interpretation" all_documents)
    (of_content_type "Directive" all_documents)
    (strftime_A_B_d_Y (now w))
    year
    current_year
    content_filter
    total_count
    false).

End App.

(** ** [email_digest.py] *)

Module EmailDigest.

(** The dictionary the digest builds for a document.  Every such dictionary
    is built with the same eight keys, so it is a record here; the values
    stay dynamically typed because fields of the raw record are copied. *)
Record digest_doc := mkDoc {
  d_title : pyval;
  d_type : pyval;
  d_abstract : pyval;
  d_url : pyval;
  d_pdf_url : pyval;
  d_pub_date : pyval;
  d_effective_on : pyval;
  d_source : pyval
}.

Definition us_min : Z := total_us datetime_min.
Definition us_max : Z := total_us (mkNaive 9999 12 31 23 59 59 999999).

(** [cutoff_date = datetime.now() - timedelta(days=days)], as microseconds
    since the start of day 0; the subtraction raises when the result leaves
    the range of [datetime]. *)
Definition cutoff_date (w : world) (days : Z) : outcome Z :=
  let c := total_us (now w) - days * us_per_day in
  if (us_min <=? c) && (c <=? us_max) then Returns c
  else Raises (mkExn OverflowError "date value out of range").

(** [pub_date.replace(tzinfo=None) >= cutoff_date] *)
Definition is_recent (cutoff : Z) (pub_date : datetime) : bool :=
  cutoff <=? total_us (replace_tzinfo_None pub_date).

(** One iteration of the loop of [fetch_recent_federal_register]: the
    document to append, if any. *)
Definition recent_federal_register_doc (w : world) (cutoff : Z)
    (doc : document) : option digest_doc :=
  if truthy (dict_get doc "publication_date") then
    match parse_value w (dict_get doc "publication_date") with
    | Some pub_date =>
        if is_recent cutoff pub_date then
          Some (mkDoc
            (dict_get_default doc "title" (PStr ""))
            (dict_get_default doc "type" (PStr ""))
            (dict_get_default doc "abstract" (PStr ""))
            (dict_get_default doc "html_url" (PStr ""))
            (dict_get_default doc "pdf_url" (PStr ""))
            (PStr (strftime_B_d_Y (dt_naive pub_date)))
            (dict_get_default doc "effective_on" (PStr ""))
            (PStr "Federal Register"))
        else None
    | None => None
    end
  else None.

(** [fetch_recent_federal_register(days)] *)
Definition fetch_recent_federal_register (w : world) (days : Z)
    : M (list digest_doc) :=
  cutoff ← of_outcome (cutoff_date w days);
  let params := mkParams ["RULE"; "PRORULE"; "NOTICE"] 50 None in
  try_except
    (response ← of_outcome (get_federal_register w params);
     of_outcome (raise_for_status response);;
     data ← of_outcome (response_json response);
     match data with
     | JObject results count =>
         items ← of_outcome (py_iter (default (JArray []) results));
         of_outcome
           (for_records
              (fun doc => option_list (recent_federal_register_doc w cutoff doc))
              items)
     | JOther =>
         raise (mkExn AttributeError "object has no attribute 'get'")
     end)
    any_Exception
    (fun e =>
       print ("Error fetching Federal Register: " ++ exn_msg e);;
       mret []).

(** One iteration of the loop of [fetch_recent_rss]. *)
Definition recent_rss_doc (w : world) (content_type : string) (cutoff : Z)
    (item : rss_item) : option digest_doc :=
  let pub_date_str := strip (findtext (item_pubDate item)) in
  if negb (String.eqb pub_date_str "") then
    match date_parse w pub_date_str with
    | Some pub_date =>
        if is_recent cutoff pub_date then
          Some (mkDoc
            (PStr (strip (findtext (item_title item))))
            (PStr content_type)
            (PStr (strip (findtext (item_description item))))
            (PStr (strip (findtext (item_link item))))
            (PStr "")
            (PStr (strftime_B_d_Y (dt_naive pub_date)))
            (PStr "")
            (PStr "OSHA.gov"))
        else None
    | None => None
    end
  else None.

(** [fetch_recent_rss(url, content_type, days)] *)
Definition fetch_recent_rss (w : world) (url content_type : string) (days : Z)
    : M (list digest_doc) :=
  cutoff ← of_outcome (cutoff_date w days);
  try_except
    (response ← of_outcome (get_rss w url);
     of_outcome (raise_for_status response);;
     items ← of_outcome (ET_fromstring response);
     mret (omap (recent_rss_doc w content_type cutoff) items))
    any_Exception
    (fun e =>
       print ("Error fetching RSS: " ++ exn_msg e);;
       mret []).

(** [get_all_recent_documents(days)] *)
Definition get_all_recent_documents (w : world) (days : Z)
    : M (list digest_doc) :=
  fr ← fetch_recent_federal_register w days;
  interp ← fetch_recent_rss w OSHA_INTERPRETATIONS_RSS "Interpretation" days;
  direc ← fetch_recent_rss w OSHA_DIRECTIVES_RSS "Directive" days;
  mret ([] ++ fr ++ interp ++ direc)%list.

(** [format_type_label(doc_type)]: [labels.get(doc_type, doc_type)] *)
Definition format_type_label (doc_type : pyval) : pyval :=
  if py_eq_str doc_type "Rule" then PStr "Final Rule"
  else if py_eq_str doc_type "Proposed Rule" then PStr "Proposed Rule"
  else if py_eq_str doc_type "Notice" then PStr "Notice"
  else if py_eq_str doc_type "Interpretation" then
    PStr "Letter of Interpretation"
  else if py_eq_str doc_type "Directive" then PStr "Directive"
  else doc_type.

(** [[d for d in documents if d["type"] == label]] *)
Definition of_type (label : string) (documents : list digest_doc)
    : list digest_doc :=
  List.filter (fun d => py_eq_str (d_type d) label) documents.

(** The double quote and the middle dot of the templates. *)
Definition dq : string := String (Ascii.ascii_of_nat 34) EmptyString.
Definition middot : string := String (Ascii.ascii_of_nat 183) EmptyString.

(** ['s' if n != 1 else ''] *)
Definition plural_s (n : nat) : string :=
  if negb (Nat.eqb n 1) then "s" else "".

(** [len(v)]: defined on text only. *)
Definition py_len (v : pyval) : outcome nat :=
  match v with
  | PStr s => Returns (String.length s)
  | _ => Raises (mkExn TypeError "object has no len()")
  end.

(** The first line of the loop body of [render_section]:
    [doc["abstract"][:300] + "..." if len(doc["abstract"]) > 300
     else doc["abstract"]], as the text the template shows. *)
Definition truncate_abstract (v : pyval) : outcome string :=
  match py_len v with
  | Returns n =>
      if (300 <? n)%nat then
        Returns (String.substring 0 300 (py_str v) ++ "...")
      else Returns (py_str v)
  | Raises e => Raises e
  end.

(** The text [render_section] adds for one document, given its abstract. *)
Definition render_item (doc : digest_doc) (abstract : string) : string :=
  "
            <div style=" ++ dq ++ "margin-bottom: 20px; padding-bottom: 20px; border-bottom: 1px solid #eee;" ++ dq ++ ">
                <a href=" ++ dq
  ++ py_str (d_url doc)
  ++ dq ++ " style=" ++ dq ++ "color: #2c5282; text-decoration: none; font-weight: 600; font-size: 16px;" ++ dq ++ ">
                    "
  ++ py_str (d_title doc)
  ++ "
                </a>
                <p style=" ++ dq ++ "color: #666; font-size: 14px; margin: 8px 0;" ++ dq ++ ">
                    "
  ++ abstract
  ++ "
                </p>
                <p style=" ++ dq ++ "font-size: 13px; color: #888; margin: 0;" ++ dq ++ ">
                    Published "
  ++ py_str (d_pub_date doc)
  ++ "
                    "
  ++ (if truthy (d_effective_on doc)
      then " " ++ middot ++ " Effective " ++ py_str (d_effective_on doc)
      else "")
  ++ "
                </p>
            </div>
            ".

(** The loop of [render_section]. *)
Fixpoint render_items (section : string) (items : list digest_doc)
    : outcome string :=
  match items with
  | [] => Returns section
  | doc :: items' =>
      match truncate_abstract (d_abstract doc) with
      | Returns abstract => render_items (section ++ render_item doc abstract) items'
      | Raises e => Raises e
      end
  end.

(** The heading of a section. *)
Definition section_heading (title : string) (n : nat) (color : string)
    : string :=
  "
        <h2 style=" ++ dq ++ "color: "
  ++ color
  ++ "; font-size: 18px; margin-top: 30px; margin-bottom: 15px; padding-bottom: 8px; border-bottom: 2px solid "
  ++ color
  ++ ";" ++ dq ++ ">
            "
  ++ title
  ++ " ("
  ++ pretty n
  ++ ")
        </h2>
        ".

(** [render_section(title, items, color)] *)
Definition render_section (title : string) (items : list digest_doc)
    (color : string) : outcome string :=
  match items with
  | [] => Returns ""
  | _ => render_items (section_heading title (length items) color) items
  end.

Definition html_header (today : string) (n : nat) : string :=
  "
    <!DOCTYPE html>
    <html>
    <head>
        <meta charset=" ++ dq ++ "utf-8" ++ dq ++ ">
        <meta name=" ++ dq ++ "viewport" ++ dq ++ " content=" ++ dq ++ "width=device-width, initial-scale=1.0" ++ dq ++ ">
    </head>
    <body style=" ++ dq ++ "font-family: -apple-system, BlinkMacSystemFont, 'Segoe UI', Roboto, sans-serif; line-height: 1.6; color: #333; max-width: 600px; margin: 0 auto; padding: 20px;" ++ dq ++ ">
        <h1 style=" ++ dq ++ "color: #1a365d; font-size: 24px; margin-bottom: 5px;" ++ dq ++ ">OSHA Monitor</h1>
        <p style=" ++ dq ++ "color: #666; margin-top: 0;" ++ dq ++ ">"
  ++ today
  ++ "</p>

        <p style=" ++ dq ++ "background: #f0f7ff; padding: 12px 16px; border-radius: 6px; border-left: 4px solid #3182ce;" ++ dq ++ ">
            <strong>"
  ++ pretty n
  ++ " new item"
  ++ plural_s n
  ++ "</strong> published since yesterday
        </p>
    ".

Definition html_footer : string :=
  "
        <hr style=" ++ dq ++ "border: none; border-top: 1px solid #eee; margin: 30px 0;" ++ dq ++ ">
        <p style=" ++ dq ++ "font-size: 13px; color: #888; text-align: center;" ++ dq ++ ">
            <a href=" ++ dq ++ "https://osha-monitor.onrender.com" ++ dq ++ " style=" ++ dq ++ "color: #3182ce;" ++ dq ++ ">View all updates</a> " ++ middot ++ "
            Sent by OSHA Monitor
        </p>
    </body>
    </html>
    ".

(** Sequencing of calls that may raise. *)
Definition and_then {A B} (o : outcome A) (k : A -> outcome B) : outcome B :=
  match o with
  | Returns a => k a
  | Raises e => Raises e
  end.

(** [build_email_html(documents)] *)
Definition build_email_html (w : world) (documents : list digest_doc)
    : outcome string :=
  let today := strftime_A_B_d_Y (now w) in
  let final_rules := of_type "Rule" documents in
  let proposed := of_type "Proposed Rule" documents in
  let notices := of_type "Notice" documents in
  let interpretations := of_type "Interpretation" documents in
  let directives := of_type "Directive" documents in
  let html := html_header today (length documents) in
  and_then (render_section "Final Rules" final_rules "#c53030") (fun s1 =>
  and_then (render_section "Proposed Rules" proposed "#dd6b20") (fun s2 =>
  and_then (render_section "Letters of Interpretation" interpretations "#2c7a7b") (fun s3 =>
  and_then (render_section "Directives" directives "#5a67d8") (fun s4 =>
  and_then (render_section "Notices" notices "#718096") (fun s5 =>
  Returns (html ++ s1 ++ s2 ++ s3 ++ s4 ++ s5 ++ html_footer)))))).

(** [c * n] for a one-character string. *)
Fixpoint repeat_str (c : string) (n : nat) : string :=
  match n with
  | O => ""
  | S n' => c ++ repeat_str c n'
  end.

Definition newline : string := String (Ascii.ascii_of_nat 10) EmptyString.

(** The three lines [build_email_text] adds for one document. *)
Definition text_item (doc : digest_doc) : string :=
  "[" ++ py_str (format_type_label (d_type doc)) ++ "] "
  ++ py_str (d_title doc) ++ newline
  ++ "Published: " ++ py_str (d_pub_date doc) ++ newline
  ++ "Link: " ++ py_str (d_url doc) ++ newline ++ newline.

(** The loop of [build_email_text]. *)
Fixpoint text_items (text : string) (documents : list digest_doc) : string :=
  match documents with
  | [] => text
  | doc :: rest => text_items (text ++ text_item doc) rest
  end.

Definition text_header (today : string) (n : nat) : string :=
  "OSHA Monitor - " ++ today ++ newline
  ++ repeat_str "=" 40 ++ newline ++ newline
  ++ pretty n ++ " new item" ++ plural_s n ++ " published since yesterday"
  ++ newline ++ newline.

Definition text_footer : string :=
  repeat_str "-" 40 ++ newline
  ++ "View all: https://osha-monitor.onrender.com" ++ newline.

(** [build_email_text(documents)] *)
Definition build_email_text (w : world) (documents : list digest_doc)
    : string :=
  let today := strftime_A_B_d_Y (now w) in
  let text := text_header today (length documents) in
  let text := text_items text documents in
  text ++ text_footer.

(** [resend.Emails.send(message)]: the call is recorded, then it returns
    or raises as the transport decides. *)
Definition Emails_send (w : world) (message : email) : M string :=
  fun s =>
    (resend_send w message, mkState (stdout s) (outbox s ++ [message])).

(** [not RESEND_API_KEY] *)
Definition key_missing (w : world) : bool :=
  match RESEND_API_KEY w with
  | Some k => String.eqb k ""
  | None => true
  end.

(** [send_digest(days)] *)
Definition send_digest (w : world) (days : Z) : M bool :=
  if key_missing w then
    print "Error: RESEND_API_KEY not set";;
    mret false
  else
    documents ← get_all_recent_documents w days;
    match documents with
    | [] =>
        print "No new documents to report";;
        mret true
    | _ =>
        html_content ← of_outcome (build_email_html w documents);
        let text_content := build_email_text w documents in
        let subject :=
          "OSHA Monitor: " ++ pretty (length documents) ++ " new update"
          ++ plural_s (length documents) in
        try_except
          (response ← Emails_send w
             (mkEmail (FROM_EMAIL w) [ALERT_EMAIL w] subject html_content
                text_content);
           print ("Email sent successfully: " ++ response);;
           mret true)
          any_Exception
          (fun e =>
             print ("Error sending email: " ++ exn_msg e);;
             mret false)
    end.

End EmailDigest.

(** ** Worlds for the examples *)

Module Examples.

Definition digit_of (c : Ascii.ascii) : option Z :=
  let n := Ascii.nat_of_ascii c in
  if ((48 <=? n) && (n <=? 57))%nat then Some (Z.of_nat n - 48) else None.

Fixpoint digits_acc (acc : Z) (s : string) : option Z :=
  match s with
  | EmptyString => Some acc
  | String c s' =>
      match digit_of c with
      | Some d => digits_acc (acc * 10 + d) s'
      | None => None
      end
  end.

(** A plain run of decimal digits, as [int] accepts it. *)
Definition digits (s : string) : option Z :=
  match s with
  | EmptyString => None
  | _ => digits_acc 0 s
  end.

(** Dates of the form [YYYY-MM-DD], as the Federal Register sends them. *)
Definition parse_iso (s : string) : option datetime :=
  if (String.length s =? 10)%nat
     && String.eqb (String.substring 4 1 s) "-"
     && String.eqb (String.substring 7 1 s) "-" then
    match digits (String.substring 0 4 s), digits (String.substring 5 2 s),
          digits (String.substring 8 2 s) with
    | Some y, Some m, Some d =>
        let n := mkNaive y m d 0 0 0 0 in
        if valid_naive n then Some (mkDatetime n None) else None
    | _, _, _ => None
    end
  else None.

(** Ten in the morning of 1 May 2024; every request times out. *)
Definition offline : world := {|
  now := mkNaive 2024 5 1 10 0 0 0;
  get_federal_register := fun _ => Raises (mkExn Timeout "timed out");
  get_rss := fun _ => Raises (mkExn Timeout "timed out");
  date_parse := parse_iso;
  py_int := digits;
  RESEND_API_KEY := Some "re_123";
  ALERT_EMAIL := "alerts@example.org";
  FROM_EMAIL := "OSHA Monitor <monitor@example.org>";
  resend_send := fun _ => Returns "sent"
|}.

End Examples.

(** ** Worlds with answering sources *)

Module Scenarios.

(** A world like [Examples.offline] with the given answers of the two
    kinds of source. *)
Definition serving (fr : fr_params -> outcome (response json_body))
    (rss : string -> outcome (response xml_body)) : world := {|
  now := mkNaive 2024 5 1 10 0 0 0;
  get_federal_register := fr;
  get_rss := rss;
  date_parse := Examples.parse_iso;
  py_int := Examples.digits;
  RESEND_API_KEY := Some "re_123";
  ALERT_EMAIL := "alerts@example.org";
  FROM_EMAIL := "OSHA Monitor <monitor@example.org>";
  resend_send := fun _ => Returns "id-1"
|}.

Definition ok {B} (body : B) : outcome (response B) :=
  Returns (mkResponse 200 "OK" "https://example.org/" body).

(** A rule published on 1 May 2024, effective eleven days later. *)
Definition raw_rule : document :=
  <["title" := PStr "Silica rule"]>
  (<["type" := PStr "Rule"]>
  (<["abstract" := PStr "Amends the standard."]>
  (<["publication_date" := PStr "2024-05-01"]>
  (<["effective_on" := PStr "2024-05-12"]> ∅)))).

(** A notice published a week before. *)
Definition raw_notice : document :=
  <["title" := PStr "Meeting notice"]>
  (<["type" := PStr "Notice"]>
  (<["abstract" := PStr "Announces a meeting."]>
  (<["publication_date" := PStr "2024-04-24"]> ∅))).

Definition two_records : json_body :=
  ValidJSON
    (JObject (Some (JArray [JRecord raw_notice; JRecord raw_rule]))
       (Some (JScalar (PInt 57)))).

Definition letters : xml_body :=
  XMLRoot
    [ mkItem (Some " Letter A ") (Some "https://example.org/a") None
        (Some "2024-05-01");
      mkItem (Some "Letter B") (Some "https://example.org/b") None
        (Some "2023-01-15");
      mkItem (Some "Letter C") None None (Some "  ") ].

(** The Federal Register answers every query with the two records, the
    feeds with the three letters. *)
Definition online : world :=
  serving (fun _ => ok two_records) (fun _ => ok letters).

(** The body [{"results": null, "count": 3}]. *)
Definition null_results : json_body :=
  ValidJSON (JObject (Some (JScalar PNone)) (Some (JScalar (PInt 3)))).

(** The body with the rule as its only record and [null] as its count. *)
Definition null_count : json_body :=
  ValidJSON (JObject (Some (JArray [JRecord raw_rule])) (Some (JScalar PNone))).

(** The Federal Register answers every query with the given body; the
    feeds answer with the three letters. *)
Definition answering (body : json_body) : world :=
  serving (fun _ => ok body) (fun _ => ok letters).

(** The Federal Register answers with a JSON array; the feeds are down. *)
Definition odd_json : world :=
  serving (fun _ => ok (ValidJSON JOther))
    (fun _ => Raises (mkExn Timeout "timed out")).

End Scenarios.

(** ** Vocabulary of the statements *)

(** The key [sort_key] returns, [datetime.min] where it raises. *)
Definition key_of (d : document) : naive :=
  match App.sort_key d with
  | Returns k => k
  | Raises _ => datetime_min
  end.

(** The [pub_date] of a document is missing, [None], or a datetime object
    (whose fields are then in range). *)
Definition wf_pub_date (d : document) : bool :=
  match d !! "pub_date" with
  | None | Some PNone => true
  | Some (PDate dt) => valid_naive (dt_naive dt)
  | Some _ => false
  end.

(** The parsed publication date of a document, if it has one. *)
Definition parsed_pub_date (d : document) : option datetime :=
  match d !! "pub_date" with
  | Some (PDate dt) => Some dt
  | _ => None
  end.

(** The five content types, in the order [index] builds its groups. *)
Definition content_types : list string :=
  ["Rule"; "Proposed Rule"; "Notice"; "Interpretation"; "Directive"].

(** The five groups [index] builds from the sorted list. *)
Definition groups (l : list document) : list (list document) :=
  map (fun label => App.of_content_type label l) content_types.

(** The [content_type] of a document is one of the five. *)
Definition has_content_type (d : document) : bool :=
  existsb (py_eq_str (dict_get d "content_type")) content_types.

(** Descending order on decorated documents. *)
Definition key_ge (p q : naive * document) : Prop :=
  naive_gtb (fst q) (fst p) = false.

(** The [pub_date] of a document is missing, [None] or a datetime object:
    what [sort_key] accepts. *)
Definition sortable (d : document) : bool :=
  match d !! "pub_date" with
  | None | Some PNone | Some (PDate _) => true
  | Some _ => false
  end.

(** The document has a parsed publication date in year [y]. *)
Definition year_matches (y : Z) (d : document) : bool :=
  match parsed_pub_date d with
  | Some dt => year (dt_naive dt) =? y
  | None => false
  end.

(** A status for which [raise_for_status] raises. *)
Definition bad_status {B} (r : response B) : bool :=
  (400 <=? status_code r) && (status_code r <? 600).

(** The failures of a Federal Register request: [requests.get] raises one
    of the exceptions of [requests], the status is a client or server error
    (400 to 599), or the body is not JSON. *)
Definition fr_failure (o : outcome (response json_body)) : bool :=
  match o with
  | Raises e => is_RequestException e
  | Returns r =>
      bad_status r
      || match content r with InvalidJSON _ => true | ValidJSON _ => false end
  end.

(** The failures of a feed request: [requests.get] raises, the status is a
    client or server error, or the body is not XML. *)
Definition rss_failure (o : outcome (response xml_body)) : bool :=
  match o with
  | Raises _ => true
  | Returns r =>
      bad_status r
      || match content r with InvalidXML _ => true | XMLRoot _ => false end
  end.

(** The records of an array all of whose elements are objects. *)
Fixpoint all_records (items : list json_element) : option (list document) :=
  match items with
  | [] => Some []
  | JRecord doc :: rest =>
      match all_records rest with
      | Some docs => Some (doc :: docs)
      | None => None
      end
  | JNotObject :: _ => None
  end.

(** The records of a [results] member the clients can read: those of an
    array of objects; none when the member is missing or is an empty
    string or an empty object, over which the loop does not run.  Any
    other value has no records. *)
Definition records_of (results : option json_member)
    : option (list document) :=
  match results with
  | None => Some []
  | Some (JArray items) => all_records items
  | Some (JScalar (PStr EmptyString)) => Some []
  | Some (JKeys []) => Some []
  | Some _ => None
  end.

(** The number a [count] member stands for: an integer, a boolean as 0 or
    1, and 0 when the member is missing.  Any other value is no number. *)
Definition count_of (count : option json_member) : option Z :=
  match count with
  | None => Some 0
  | Some (JScalar (PInt n)) => Some n
  | Some (JScalar (PBool b)) => Some (if b then 1 else 0)
  | Some _ => None
  end.

(** The body is an object whose [results] are records and whose [count] is
    a number. *)
Definition well_formed (v : json_value) : bool :=
  match v with
  | JObject results count =>
      match records_of results, count_of count with
      | Some _, Some _ => true
      | _, _ => false
      end
  | JOther => false
  end.

(** A Federal Register request that fails as above or is answered by such
    an object. *)
Definition fr_handled (o : outcome (response json_body)) : bool :=
  fr_failure o
  || match o with
     | Returns r =>
         match content r with
         | ValidJSON v => well_formed v
         | InvalidJSON _ => false
         end
     | Raises _ => false
     end.

(** What one Federal Register request contributes to the page: its
    normalised records and its count, nothing after a failure (and nothing
    for a body that is not well formed, on which the client raises). *)
Definition federal_register_result (w : world) (year doc_type : string)
    : list document * Z :=
  match get_federal_register w
          (mkParams [doc_type] 30 (App.year_condition w (Some year))) with
  | Returns r =>
      if bad_status r then ([], 0)
      else
        match content r with
        | ValidJSON (JObject results count) =>
            match records_of results, count_of count with
            | Some docs, Some n => (map (App.process_federal_register w) docs, n)
            | _, _ => ([], 0)
            end
        | _ => ([], 0)
        end
  | Raises _ => ([], 0)
  end.

(** The normalised items of a feed, none after a failure. *)
Definition feed_documents (w : world) (url content_type source_name : string)
    : list document :=
  match get_rss w url with
  | Returns r =>
      if bad_status r then []
      else
        match content r with
        | XMLRoot items =>
            map (App.process_rss_item w content_type source_name) items
        | InvalidXML _ => []
        end
  | Raises _ => []
  end.

(** What one feed contributes to the page: its documents filtered by year
    and their number. *)
Definition feed_result (w : world) (year url content_type source_name : string)
    : list document * Z :=
  let docs :=
    App.filter_by_year w year (feed_documents w url content_type source_name) in
  (docs, Z.of_nat (length docs)).

(** The contribution of a source that is not selected is empty. *)
Definition when (selected : bool) (r : list document * Z)
    : list document * Z :=
  if selected then r else ([], 0).

(** The five contributions to the page, in the order [index] fetches. *)
Definition contributions (w : world) (content_filter year : string)
    : list (list document * Z) :=
  [ when (App.str_in content_filter ["all"; "rules"])
      (federal_register_result w year "RULE");
    when (App.str_in content_filter ["all"; "proposed"])
      (federal_register_result w year "PRORULE");
    when (App.str_in content_filter ["all"; "notices"])
      (federal_register_result w year "NOTICE");
    when (App.str_in content_filter ["all"; "interpretations"])
      (feed_result w year OSHA_INTERPRETATIONS_RSS "Interpretation"
         "OSHA Interpretations");
    when (App.str_in content_filter ["all"; "directives"])
      (feed_result w year OSHA_DIRECTIVES_RSS "Directive" "OSHA Directives") ].

(** A computation returns [v]: it does not raise, it prints and it sends
    nothing. *)
Definition returns {A} (m : M A) (v : A) : Prop :=
  forall s, exists lines,
    m s = (Returns v, mkState (stdout s ++ lines) (outbox s)).

(** The total count [index] accumulates over the contributions. *)
Definition total_of (cs : list (list document * Z)) : Z :=
  foldl (fun acc c => acc + snd c) 0 cs.

(** The page [index] hands to the template, given the sorted documents. *)
Definition page_of (w : world) (content_arg year_arg : option string)
    (sorted : list document) : App.page :=
  let content_filter := default "rules" content_arg in
  let year_text := default (pretty (year (now w))) year_arg in
  App.mkPage
    (App.of_content_type "Rule" sorted)
    (App.of_content_type "Proposed Rule" sorted)
    (App.of_content_type "Notice" sorted)
    (App.of_content_type "Interpretation" sorted)
    (App.of_content_type "Directive" sorted)
    (strftime_A_B_d_Y (now w))
    year_text
    (year (now w))
    content_filter
    (total_of (contributions w content_filter year_text))
    false.

(** The value is text. *)
Definition is_text (v : pyval) : bool :=
  match v with
  | PStr _ => true
  | _ => false
  end.

(** The abstract as the HTML body shows it. *)
Definition shown_abstract (v : pyval) : string :=
  match EmailDigest.truncate_abstract v with
  | Returns a => a
  | Raises _ => ""
  end.

(** The concatenation of a list of strings. *)
Definition concat_str (l : list string) : string :=
  foldr String.append "" l.

(** The sections of the HTML body in display order: title, type, colour. *)
Definition display_order : list (string * string * string) :=
  [ ("Final Rules", "Rule", "#c53030");
    ("Proposed Rules", "Proposed Rule", "#dd6b20");
    ("Letters of Interpretation", "Interpretation", "#2c7a7b");
    ("Directives", "Directive", "#5a67d8");
    ("Notices", "Notice", "#718096") ].

(** The section of the HTML body for one type: nothing for an empty group,
    else the heading with the count and the items of the group in their
    order. *)
Definition html_section (documents : list EmailDigest.digest_doc)
    (sec : string * string * string) : string :=
  let '(title, doc_type, color) := sec in
  match EmailDigest.of_type doc_type documents with
  | [] => ""
  | items =>
      EmailDigest.section_heading title (length items) color
      ++ concat_str
           (map (fun d =>
                   EmailDigest.render_item d
                     (shown_abstract (EmailDigest.d_abstract d)))
              items)
  end.

(** The documents in the order the claim gives for both bodies: by group,
    in display order. *)
Definition in_display_order (documents : list EmailDigest.digest_doc)
    : list EmailDigest.digest_doc :=
  concat (map (fun sec : string * string * string =>
                 EmailDigest.of_type (snd (fst sec)) documents)
            display_order).

#[global] Instance naive_eq_dec : EqDecision naive.
Proof. solve_decision. Defined.

(** The documents of a list whose sort key is [k], in their order. *)
Definition with_key (k : naive) (l : list document) : list document :=
  List.filter (fun d => bool_decide (key_of d = k)) l.

(** Descending order of the sort keys. *)
Definition newest_first (l : list document) : Prop :=
  StronglySorted (fun x y => naive_geb (key_of x) (key_of y) = true) l.

(** The keys every normalised document has. *)
Definition base_keys : gset string :=
  {[ "title"; "abstract"; "url"; "pdf_url"; "source"; "content_type";
     "effective_status" ]}.

(** The keys of the publication date. *)
Definition date_keys : gset string :=
  {[ "pub_date"; "pub_date_formatted"; "time_ago" ]}.

(** The request [fetch_federal_register] sends. *)
Definition request_of (w : world) (year : option string)
    (doc_types : option (list string)) (limit : Z) : fr_params :=
  mkParams (default ["RULE"; "PRORULE"; "NOTICE"] doc_types) limit
    (App.year_condition w year).

(** The message [send_digest] composes for a list of documents. *)
Definition digest_message (w : world) (documents : list EmailDigest.digest_doc)
    (html : string) : email :=
  mkEmail (FROM_EMAIL w) [ALERT_EMAIL w]
    ("OSHA Monitor: " ++ pretty (length documents) ++ " new update"
     ++ EmailDigest.plural_s (length documents))
    html (EmailDigest.build_email_text w documents).

(** The documents the digest keeps from a Federal Register response:
    those of the window among its records, none after a failure or when
    the loop over [results] raises. *)
Definition recent_of_response (w : world) (cutoff : Z)
    (o : outcome (response json_body)) : list EmailDigest.digest_doc :=
  match o with
  | Returns r =>
      if bad_status r then []
      else
        match content r with
        | ValidJSON (JObject results _) =>
            match records_of results with
            | Some docs =>
                omap (EmailDigest.recent_federal_register_doc w cutoff) docs
            | None => []
            end
        | _ => []
        end
  | Raises _ => []
  end.

(** The documents the digest keeps from a feed response. *)
Definition recent_of_feed (w : world) (content_type : string) (cutoff : Z)
    (o : outcome (response xml_body)) : list EmailDigest.digest_doc :=
  match o with
  | Returns r =>
      if bad_status r then []
      else
        match content r with
        | XMLRoot items =>
            omap (EmailDigest.recent_rss_doc w content_type cutoff) items
        | InvalidXML _ => []
        end
  | Raises _ => []
  end.

(** All documents of the lookback window, in the order of the digest. *)
Definition recent_documents (w : world) (cutoff : Z)
    : list EmailDigest.digest_doc :=
  recent_of_response w cutoff
    (get_federal_register w (mkParams ["RULE"; "PRORULE"; "NOTICE"] 50 None))
  ++ recent_of_feed w "Interpretation" cutoff
       (get_rss w OSHA_INTERPRETATIONS_RSS)
  ++ recent_of_feed w "Directive" cutoff (get_rss w OSHA_DIRECTIVES_RSS).

(** The values of the content filter that select a source. *)
Definition content_filters : list string :=
  ["all"; "rules"; "proposed"; "notices"; "interpretations"; "directives"].

(** The Federal Register requests [index] makes under a content filter
    end in a failure the client handles or are answered by a well-formed
    body. *)
Definition selected_handled (w : world) (content_filter year : string) : Prop :=
  forall doc_type sel,
    (doc_type, sel) ∈ [("RULE", "rules"); ("PRORULE", "proposed");
                       ("NOTICE", "notices")] ->
    App.str_in content_filter ["all"; sel] = true ->
    fr_handled
      (get_federal_register w
         (mkParams [doc_type] 30 (App.year_condition w (Some year)))) = true.

(** The type is one of the five [build_email_html] has a section for. *)
Definition has_section (v : pyval) : bool :=
  existsb (fun sec : string * string * string => py_eq_str v (snd (fst sec)))
    display_order.

(** Microseconds since midnight. *)
Definition time_of_day_us (d : naive) : Z :=
  (hour d * 3600 + minute d * 60 + second d) * 1000000 + microsecond d.

(** The feeds of [index]: address, content type, source name, and the
    value of the content filter that selects the feed beside ["all"]. *)
Definition feeds : list (string * string * string * string) :=
  [ (OSHA_INTERPRETATIONS_RSS, "Interpretation", "OSHA Interpretations",
     "interpretations");
    (OSHA_DIRECTIVES_RSS, "Directive", "OSHA Directives", "directives") ].

(** The group of a page that is shown under a content type. *)
Definition page_group (content_type : string) (p : App.page)
    : list document :=
  if String.eqb content_type "Rule" then App.final_rules p
  else if String.eqb content_type "Proposed Rule" then App.proposed_rules p
  else if String.eqb content_type "Notice" then App.notices p
  else if String.eqb content_type "Interpretation" then App.interpretations p
  else if String.eqb content_type "Directive" then App.directives p
  else [].



(** * Properties *)

(** ** Arithmetic and string helpers *)

Ltac zcases :=
  repeat match goal with
  | |- context [Z.ltb ?a ?b] => destruct (Z.ltb_spec a b)
  | |- context [Z.eqb ?a ?b] => destruct (Z.eqb_spec a b)
  | |- context [Z.leb ?a ?b] => destruct (Z.leb_spec a b)
  end.

Lemma div_in_range (d k lo hi : Z) :
  0 < k -> lo * k <= d -> d < (hi + 1) * k -> lo <= d / k <= hi.
Proof.
  intros Hk Hlo Hhi. split.
  - apply Z.div_le_lower_bound; lia.
  - assert (d / k < hi + 1) by (apply Z.div_lt_upper_bound; lia). lia.
Qed.

(** ** The relative-time label *)

Section TimeAgo.

Variables (now : naive) (t : datetime).

Let d : Z := sub_days now (replace_tzinfo_None t).

Lemma format_time_ago_unfold :
  App.format_time_ago now t =
    if d <? 0 then "Upcoming"
    else if d =? 0 then "Today"
    else if d =? 1 then "Yesterday"
    else if d <? 7 then pretty d ++ " days ago"
    else if d <? 30 then
      pretty (d / 7) ++ " week" ++ (if 1 <? d / 7 then "s" else "") ++ " ago"
    else if d <? 365 then
      pretty (d / 30) ++ " month" ++ (if 1 <? d / 30 then "s" else "") ++ " ago"
    else strftime_b_Y (dt_naive t).
Proof.
  unfold App.format_time_ago, d, replace_tzinfo_None.
  destruct (tzinfo t); reflexivity.
Qed.

End TimeAgo.

(** C1 (as amended).  With [d] the whole-day difference between [now] and
    the publication timestamp stripped of its timezone, the label is
    "Upcoming" for [d < 0], "Today" for [d = 0], "Yesterday" for [d = 1],
    "N days ago" for [2 <= d <= 6], "1 week ago" for [7 <= d <= 13],
    "N weeks ago" with [N = d div 7] for [14 <= d <= 29], "1 month ago" for
    [30 <= d <= 59], "N months ago" with [N = d div 30] for
    [60 <= d <= 364], and the abbreviated month and the year for
    [d >= 365]; each boundary belongs to the later bucket. *)
Theorem format_time_ago_label (now : naive) (t : datetime) :
  let d := sub_days now (replace_tzinfo_None t) in
  (d < 0 -> App.format_time_ago now t = "Upcoming") /\
  (d = 0 -> App.format_time_ago now t = "Today") /\
  (d = 1 -> App.format_time_ago now t = "Yesterday") /\
  (2 <= d <= 6 -> App.format_time_ago now t = pretty d ++ " days ago") /\
  (7 <= d <= 13 -> App.format_time_ago now t = "1 week ago") /\
  (14 <= d <= 29 ->
     App.format_time_ago now t = pretty (d / 7) ++ " weeks ago") /\
  (30 <= d <= 59 -> App.format_time_ago now t = "1 month ago") /\
  (60 <= d <= 364 ->
     App.format_time_ago now t = pretty (d / 30) ++ " months ago") /\
  (365 <= d ->
     App.format_time_ago now t =
       month_abbr (month (dt_naive t)) ++ " " ++ fmt_Y (dt_naive t)).
Proof.
  intros d. rewrite format_time_ago_unfold. fold d.
  repeat split; intros H.
  - zcases; try lia; reflexivity.
  - zcases; try lia; reflexivity.
  - zcases; try lia; reflexivity.
  - zcases; try lia; reflexivity.
  - assert (Hw : d / 7 = 1)
      by (pose proof (div_in_range d 7 1 1); lia).
    rewrite Hw. zcases; try lia; reflexivity.
  - pose proof (div_in_range d 7 2 4).
    zcases; try lia; reflexivity.
  - assert (Hm : d / 30 = 1)
      by (pose proof (div_in_range d 30 1 1); lia).
    rewrite Hm. zcases; try lia; reflexivity.
  - pose proof (div_in_range d 30 2 12).
    zcases; try lia; reflexivity.
  - zcases; try lia; reflexivity.
Qed.

(** At seven days the label is the singular "1 week ago". *)
Lemma format_time_ago_label_witness :
  App.format_time_ago (mkNaive 2024 1 8 9 30 0 0)
    (mkDatetime (mkNaive 2024 1 1 9 30 0 0) (Some (-300))) = "1 week ago".
Proof.
  apply (format_time_ago_label (mkNaive 2024 1 8 9 30 0 0)
           (mkDatetime (mkNaive 2024 1 1 9 30 0 0) (Some (-300)))).
  vm_compute. split; discriminate.
Defined.

(** C1, as stated, fails: exactly 7 days does not give "1 weeks ago" and
    exactly 30 days does not give "1 months ago". *)
Lemma format_time_ago_boundary_not_plural :
  let now := mkNaive 2024 1 31 0 0 0 0 in
  let week := mkDatetime (mkNaive 2024 1 24 0 0 0 0) None in
  let month := mkDatetime (mkNaive 2024 1 1 0 0 0 0) None in
  sub_days now (replace_tzinfo_None week) = 7 /\
  App.format_time_ago now week = "1 week ago" /\
  App.format_time_ago now week <> "1 weeks ago" /\
  sub_days now (replace_tzinfo_None month) = 30 /\
  App.format_time_ago now month = "1 month ago" /\
  App.format_time_ago now month <> "1 months ago".
Proof.
  vm_compute. repeat split; discriminate.
Qed.

(** ** Sorting by publication date *)

Lemma lex_compare_antisym (a b : list Z) :
  lex_compare b a = CompOpp (lex_compare a b).
Proof.
  revert b. induction a as [|x a IH]; intros [|y b]; simpl; try reflexivity.
  rewrite (Z.compare_antisym x y).
  destruct (x ?= y); simpl; auto.
Qed.

Lemma lex_compare_le_trans (a b c : list Z) :
  lex_compare a b <> Gt -> lex_compare b c <> Gt -> lex_compare a c <> Gt.
Proof.
  revert b c. induction a as [|x a IH]; intros [|y b] [|z c]; simpl;
    try congruence.
  destruct (Z.compare_spec x y), (Z.compare_spec y z), (Z.compare_spec x z);
    try congruence; try lia.
  apply IH.
Qed.

Lemma naive_gtb_geb (a b : naive) :
  naive_gtb b a = false <-> naive_geb a b = true.
Proof.
  unfold naive_gtb, naive_geb, naive_compare.
  rewrite (lex_compare_antisym (fields a) (fields b)).
  destruct (lex_compare (fields a) (fields b)); simpl; split; congruence.
Qed.

Lemma naive_gtb_asym (a b : naive) :
  naive_gtb a b = true -> naive_gtb b a = false.
Proof.
  unfold naive_gtb, naive_compare.
  rewrite (lex_compare_antisym (fields a) (fields b)).
  destruct (lex_compare (fields a) (fields b)); simpl; congruence.
Qed.

Lemma naive_not_gtb_trans (a b c : naive) :
  naive_gtb a b = false -> naive_gtb b c = false -> naive_gtb a c = false.
Proof.
  unfold naive_gtb, naive_compare. intros Hab Hbc.
  pose proof (lex_compare_le_trans (fields a) (fields b) (fields c)) as Ht.
  destruct (lex_compare (fields a) (fields b)),
    (lex_compare (fields b) (fields c)),
    (lex_compare (fields a) (fields c)); try congruence;
    exfalso; apply Ht; congruence.
Qed.

(** No valid datetime lies below [datetime.min]. *)
Lemma valid_not_above_min (n : naive) :
  valid_naive n = true -> naive_gtb n datetime_min = false -> n = datetime_min.
Proof.
  destruct n as [y mo d h mi s us].
  unfold valid_naive, naive_gtb, naive_compare, datetime_min. simpl.
  rewrite !andb_true_iff, !Z.leb_le. intros Hv.
  destruct (Z.compare_spec y 1); try lia; try congruence.
  destruct (Z.compare_spec mo 1); try lia; try congruence.
  destruct (Z.compare_spec d 1); try lia; try congruence.
  destruct (Z.compare_spec h 0); try lia; try congruence.
  destruct (Z.compare_spec mi 0); try lia; try congruence.
  destruct (Z.compare_spec s 0); try lia; try congruence.
  destruct (Z.compare_spec us 0); try lia; try congruence.
Qed.

Lemma insert_desc_perm (x : naive * document) (l : list (naive * document)) :
  App.insert_desc x l ≡ₚ x :: l.
Proof.
  induction l as [|y l IH]; simpl; [reflexivity|].
  destruct (naive_gtb (fst y) (fst x)); [|reflexivity].
  rewrite IH. apply Permutation_swap.
Qed.

Lemma sort_desc_perm (l : list (naive * document)) : App.sort_desc l ≡ₚ l.
Proof.
  induction l as [|x l IH]; simpl; [reflexivity|].
  rewrite insert_desc_perm. by rewrite IH.
Qed.

Lemma insert_desc_sorted (x : naive * document) (l : list (naive * document)) :
  StronglySorted key_ge l -> StronglySorted key_ge (App.insert_desc x l).
Proof.
  induction 1 as [|y l Hs IH Hy]; simpl.
  - repeat constructor.
  - destruct (naive_gtb (fst y) (fst x)) eqn:Hgt.
    + constructor; [assumption|].
      rewrite insert_desc_perm. constructor; [|assumption].
      unfold key_ge. by apply naive_gtb_asym.
    + constructor; [by constructor|].
      constructor; [exact Hgt|].
      eapply Forall_impl; [exact Hy|].
      intros z Hz. unfold key_ge in *.
      eapply naive_not_gtb_trans; eassumption.
Qed.

Lemma sort_desc_sorted (l : list (naive * document)) :
  StronglySorted key_ge (App.sort_desc l).
Proof.
  induction l as [|x l IH]; simpl; [constructor|].
  by apply insert_desc_sorted.
Qed.

Lemma StronglySorted_lookup {A} (R : A -> A -> Prop) (l : list A)
    (i j : nat) (x y : A) :
  StronglySorted R l -> (i < j)%nat ->
  l !! i = Some x -> l !! j = Some y -> R x y.
Proof.
  intros Hs. revert i j. induction Hs as [|z l Hs IH Hz]; intros i j Hij Hi Hj.
  - by rewrite lookup_nil in Hi.
  - destruct j as [|j]; [lia|]. destruct i as [|i]; simpl in *.
    + injection Hi as ->. rewrite Forall_forall in Hz.
      apply Hz. by eapply list_elem_of_lookup_2.
    + eapply (IH i j); [lia|done..].
Qed.

Lemma wf_pub_date_sortable (d : document) :
  wf_pub_date d = true -> sortable d = true.
Proof.
  unfold wf_pub_date, sortable.
  destruct (d !! "pub_date") as [[]|]; congruence.
Qed.

Lemma sort_key_sortable (d : document) :
  sortable d = true -> App.sort_key d = Returns (key_of d).
Proof.
  unfold sortable, key_of, App.sort_key, dict_get.
  destruct (d !! "pub_date") as [[| | | |dt]|]; simpl; try discriminate;
    try reflexivity.
  destruct (tzinfo dt); reflexivity.
Qed.

Lemma decorate_sortable (l : list document) :
  Forall (fun d => sortable d = true) l ->
  App.decorate l = Returns (map (fun d => (key_of d, d)) l).
Proof.
  induction 1 as [|d l Hd Hl IH]; simpl; [reflexivity|].
  rewrite (sort_key_sortable d Hd), IH. reflexivity.
Qed.

Lemma sort_documents_sortable (l : list document) :
  Forall (fun d => sortable d = true) l ->
  App.sort_documents l =
    Returns (map snd (App.sort_desc (map (fun d => (key_of d, d)) l))).
Proof.
  intros Hl. unfold App.sort_documents. by rewrite (decorate_sortable l Hl).
Qed.

Lemma key_of_dateless (d : document) :
  dict_get d "pub_date" = PNone -> key_of d = datetime_min.
Proof. unfold key_of, App.sort_key. intros ->. reflexivity. Qed.

Lemma key_of_dated (d : document) (dt : datetime) :
  d !! "pub_date" = Some (PDate dt) -> key_of d = replace_tzinfo_None dt.
Proof.
  unfold key_of, App.sort_key, dict_get. intros ->. simpl.
  destruct (tzinfo dt); reflexivity.
Qed.

(** C2 (as amended).  For documents whose [pub_date] is missing, [None] or
    a datetime, the sort returns a permutation of its input in descending
    order of the timestamps with their timezone stripped, a missing date
    counting as [datetime.min]; so a document without a parsed date stands
    after every document whose stripped timestamp is later than
    [datetime.min], whatever the input order.  (A document dated exactly
    [datetime.min] ties with the dateless ones.) *)
Theorem sort_documents_dateless_last (l : list document) :
  Forall (fun d => wf_pub_date d = true) l ->
  exists l',
    App.sort_documents l = Returns l' /\
    l' ≡ₚ l /\
    (forall d dt, d !! "pub_date" = Some (PDate dt) ->
       key_of d = replace_tzinfo_None dt) /\
    (forall d, dict_get d "pub_date" = PNone -> key_of d = datetime_min) /\
    (forall i j x y, (i < j)%nat -> l' !! i = Some x -> l' !! j = Some y ->
       naive_geb (key_of x) (key_of y) = true) /\
    (forall i j x y dt, (i < j)%nat -> l' !! i = Some x -> l' !! j = Some y ->
       dict_get x "pub_date" = PNone ->
       y !! "pub_date" = Some (PDate dt) ->
       replace_tzinfo_None dt = datetime_min).
Proof.
  intros Hwf.
  set (kl := map (fun d => (key_of d, d)) l).
  exists (map snd (App.sort_desc kl)).
  assert (Hperm : map snd (App.sort_desc kl) ≡ₚ l).
  { rewrite (sort_desc_perm kl). unfold kl. rewrite map_map. simpl.
    by rewrite map_id. }
  assert (Hkeys : Forall (fun p => fst p = key_of (snd p)) (App.sort_desc kl)).
  { rewrite (sort_desc_perm kl). unfold kl. apply Forall_forall.
    intros p Hp. apply list_elem_of_fmap in Hp as (d & -> & _). reflexivity. }
  assert (Hsorted : forall i j x y, (i < j)%nat ->
            map snd (App.sort_desc kl) !! i = Some x ->
            map snd (App.sort_desc kl) !! j = Some y ->
            naive_geb (key_of x) (key_of y) = true).
  { intros i j x y Hij Hi Hj.
    apply list_lookup_fmap_Some in Hi as (p & -> & Hp).
    apply list_lookup_fmap_Some in Hj as (q & -> & Hq).
    pose proof (StronglySorted_lookup key_ge _ i j p q
                  (sort_desc_sorted kl) Hij Hp Hq) as Hpq.
    rewrite Forall_forall in Hkeys.
    rewrite <- (Hkeys p), <- (Hkeys q)
      by (eapply list_elem_of_lookup_2; eassumption).
    by apply naive_gtb_geb. }
  repeat split.
  - apply sort_documents_sortable.
    eapply Forall_impl; [exact Hwf | apply wf_pub_date_sortable].
  - exact Hperm.
  - apply key_of_dated.
  - apply key_of_dateless.
  - exact Hsorted.
  - intros i j x y dt Hij Hi Hj Hx Hy.
    pose proof (Hsorted i j x y Hij Hi Hj) as Hge.
    rewrite (key_of_dateless x Hx), (key_of_dated y dt Hy) in Hge.
    apply naive_gtb_geb in Hge.
    apply valid_not_above_min; [|exact Hge].
    assert (Hin : y ∈ l).
    { rewrite <- Hperm. by eapply list_elem_of_lookup_2. }
    rewrite Forall_forall in Hwf. specialize (Hwf y Hin).
    unfold wf_pub_date in Hwf. by rewrite Hy in Hwf.
Qed.

(** A dateless document, one from March and one from April sort to April,
    March, dateless. *)
Lemma sort_documents_dateless_last_witness :
  let undated : document := {[ "title" := PStr "undated" ]} in
  let march : document :=
    {[ "pub_date" := PDate (mkDatetime (mkNaive 2024 3 1 0 0 0 0) (Some 60)) ]} in
  let april : document :=
    {[ "pub_date" := PDate (mkDatetime (mkNaive 2024 4 1 0 0 0 0) None) ]} in
  exists l', App.sort_documents [undated; march; april] = Returns l' /\
             l' ≡ₚ [undated; march; april].
Proof.
  intros undated march april.
  destruct (sort_documents_dateless_last [undated; march; april])
    as (l' & Hret & Hperm & _).
  - repeat constructor.
  - exists l'. split; assumption.
Defined.

(** C2, as stated, fails: a document dated [datetime.min] has a parsed
    date, and the sort leaves a dateless document in front of it. *)
Lemma sort_documents_dateless_before_minimum :
  let undated : document := {[ "title" := PStr "undated" ]} in
  let first_day : document :=
    {[ "pub_date" := PDate (mkDatetime (mkNaive 1 1 1 0 0 0 0) None) ]} in
  parsed_pub_date undated = None /\
  parsed_pub_date first_day = Some (mkDatetime (mkNaive 1 1 1 0 0 0 0) None) /\
  App.sort_documents [undated; first_day] = Returns [undated; first_day].
Proof.
  vm_compute. repeat split; reflexivity.
Qed.

(** ** Grouping by content type *)

Section FilterPartition.

Context {A : Type}.

(** Filtering [x :: l] by each predicate of [ps] adds [x] once for every
    predicate it satisfies. *)
Lemma concat_filters_cons (ps : list (A -> bool)) (x : A) (l : list A) :
  concat (map (fun p => List.filter p (x :: l)) ps) ≡ₚ
  repeat x (length (List.filter (fun p => p x) ps))
    ++ concat (map (fun p => List.filter p l) ps).
Proof.
  induction ps as [|p ps IH]; simpl; [reflexivity|].
  rewrite IH. destruct (p x); simpl.
  - apply Permutation_skip.
    rewrite !(assoc_L (++)). apply Permutation_app_tail, Permutation_app_comm.
  - rewrite !(assoc_L (++)). apply Permutation_app_tail, Permutation_app_comm.
Qed.

(** Predicates of which every element satisfies exactly one split a list
    into parts that together are the list. *)
Lemma concat_filters_perm (ps : list (A -> bool)) (l : list A) :
  Forall (fun x => length (List.filter (fun p => p x) ps) = 1%nat) l ->
  concat (map (fun p => List.filter p l) ps) ≡ₚ l.
Proof.
  induction 1 as [|x l Hx Hl IH].
  - induction ps as [|p ps IHps]; simpl; [reflexivity | exact IHps].
  - rewrite concat_filters_cons, Hx, IH. reflexivity.
Qed.

Lemma filter_sublist (p : A -> bool) (l : list A) :
  sublist (List.filter p l) l.
Proof.
  induction l as [|x l IH]; simpl; [constructor|].
  destruct (p x); by constructor.
Qed.

End FilterPartition.

Lemma py_eq_str_inv (v : pyval) (s : string) :
  py_eq_str v s = true -> v = PStr s.
Proof.
  destruct v; simpl; try discriminate.
  intros H. apply String.eqb_eq in H. by subst.
Qed.

Lemma groups_as_filters (l : list document) :
  groups l =
  map (fun p => List.filter p l)
    (map (fun label d => py_eq_str (dict_get d "content_type") label)
       content_types).
Proof. reflexivity. Qed.

(** A document with one of the five content types passes exactly one of
    the five tests. *)
Lemma has_content_type_once (d : document) :
  has_content_type d = true ->
  length (List.filter (fun p : document -> bool => p d)
            (map (fun label d => py_eq_str (dict_get d "content_type") label)
               content_types)) = 1%nat.
Proof.
  unfold has_content_type, content_types. simpl.
  destruct (dict_get d "content_type") as [| | |s|]; simpl; try discriminate.
  rewrite !orb_true_iff, !String.eqb_eq.
  intros [->|[->|[->|[->|[->|?]]]]]; try discriminate; reflexivity.
Qed.

Lemma elem_of_of_content_type (label : string) (l : list document)
    (d : document) :
  d ∈ App.of_content_type label l <->
  d ∈ l /\ dict_get d "content_type" = PStr label.
Proof.
  unfold App.of_content_type.
  rewrite !list_elem_of_In, filter_In. split.
  - intros [Hin Heq]. split; [exact Hin | by apply py_eq_str_inv].
  - intros [Hin Heq]. split; [exact Hin|]. rewrite Heq. simpl.
    apply String.eqb_refl.
Qed.

Lemma content_types_NoDup : NoDup content_types.
Proof. apply (bool_decide_unpack _). vm_compute. reflexivity. Qed.

Lemma groups_lookup (l : list document) (i : nat) (g : list document) :
  groups l !! i = Some g <->
  exists label, content_types !! i = Some label /\
                g = App.of_content_type label l.
Proof.
  unfold groups. rewrite list_lookup_fmap_Some. split.
  - intros (label & -> & H). eauto.
  - intros (label & H & ->). eauto.
Qed.

Ltac unfold_M :=
  unfold try_except, mbind, M_bind, bind, of_outcome, mret, M_ret, ret,
    raise, print, any_Exception in *.

(** What [fetch_osha_rss] returns: it never raises, and its documents are
    the normalised items of the feed, or none after a failure. *)
Lemma fetch_osha_rss_returns (w : world) (url content_type source_name : string)
    (s : state) :
  exists docs s',
    App.fetch_osha_rss w url content_type source_name s = (Returns docs, s') /\
    outbox s' = outbox s /\
    (docs = [] \/
     exists items,
       docs = map (App.process_rss_item w content_type source_name) items).
Proof.
  unfold App.fetch_osha_rss. unfold_M.
  destruct (get_rss w url) as [r|e]; simpl; [|eauto 6].
  destruct (raise_for_status r) as [[]|e]; simpl; [|eauto 6].
  destruct (ET_fromstring r) as [items|e]; simpl; eauto 8.
Qed.

Lemma process_rss_item_content_type (w : world)
    (content_type source_name : string) (item : rss_item) :
  dict_get (App.process_rss_item w content_type source_name item)
    "content_type" = PStr content_type.
Proof.
  unfold App.process_rss_item, dict_get.
  repeat case_match; by simplify_map_eq.
Qed.

Lemma process_federal_register_content_type (w : world) (doc : document) :
  dict_get (App.process_federal_register w doc) "content_type" =
  dict_get_default doc "type" (PStr "").
Proof.
  unfold App.process_federal_register, App.add_publication_date, dict_get.
  repeat case_match; by simplify_map_eq.
Qed.

Lemma has_content_type_label (d : document) :
  has_content_type d = true <->
  exists label, label ∈ content_types /\
                dict_get d "content_type" = PStr label.
Proof.
  unfold has_content_type. rewrite existsb_exists. split.
  - intros (label & Hin & Heq). exists label.
    split; [by apply list_elem_of_In | by apply py_eq_str_inv].
  - intros (label & Hin & Heq). exists label.
    split; [by apply list_elem_of_In|]. rewrite Heq. apply String.eqb_refl.
Qed.

Lemma fetched_feed_has_content_type (w : world)
    (url content_type source_name : string) (s s' : state)
    (docs : list document) :
  content_type ∈ content_types ->
  App.fetch_osha_rss w url content_type source_name s = (Returns docs, s') ->
  Forall (fun d => has_content_type d = true) docs.
Proof.
  intros Hin Hfetch.
  destruct (fetch_osha_rss_returns w url content_type source_name s)
    as (docs' & s'' & Heq & _ & Hdocs).
  rewrite Hfetch in Heq. injection Heq as <- <-.
  destruct Hdocs as [->|(items & ->)]; [constructor|].
  apply Forall_forall. intros d Hd.
  apply list_elem_of_fmap in Hd as (item & -> & _).
  apply has_content_type_label. exists content_type.
  split; [exact Hin | apply process_rss_item_content_type].
Qed.

(** C3 (as amended).  For every document list whose [content_type]s are
    among the five, the five groups are a partition: together they are a
    rearrangement of the list, each is a subsequence of it (the sort order
    is kept), and every document of the list lies in exactly one group.
    Every document the two feed clients return has one of the five types.
    A Federal Register document carries the raw [type] (the empty string
    when there is none), so it has one of the five types exactly when the
    raw type is one of them; a document with another type is in no
    group. *)
Theorem grouping_partition :
  (forall l : list document,
     Forall (fun d => has_content_type d = true) l ->
     concat (groups l) ≡ₚ l /\
     (forall g, g ∈ groups l -> sublist g l) /\
     (forall d, d ∈ l ->
        exists i g, groups l !! i = Some g /\ d ∈ g /\
          forall j g', groups l !! j = Some g' -> d ∈ g' -> j = i)) /\
  (forall w s s' docs,
     App.fetch_interpretations w s = (Returns docs, s') ->
     Forall (fun d => has_content_type d = true) docs) /\
  (forall w s s' docs,
     App.fetch_directives w s = (Returns docs, s') ->
     Forall (fun d => has_content_type d = true) docs) /\
  (forall w doc,
     has_content_type (App.process_federal_register w doc) =
     existsb (py_eq_str (dict_get_default doc "type" (PStr "")))
       content_types) /\
  (forall (l : list document) d g,
     has_content_type d = false -> g ∈ groups l -> d ∉ g).
Proof.
  split; [|split; [|split; [|split]]].
  - intros l Hl. split; [|split].
    + rewrite groups_as_filters. apply concat_filters_perm.
      eapply Forall_impl; [exact Hl|]. apply has_content_type_once.
    + intros g Hg. unfold groups in Hg.
      apply list_elem_of_fmap in Hg as (label & -> & _).
      apply filter_sublist.
    + intros d Hd.
      rewrite Forall_forall in Hl.
      destruct (proj1 (has_content_type_label d) (Hl d Hd))
        as (label & Hlabel & Hty).
      apply list_elem_of_lookup in Hlabel as (i & Hi).
      exists i, (App.of_content_type label l). split; [|split].
      * apply groups_lookup. eauto.
      * apply elem_of_of_content_type. auto.
      * intros j g' Hj Hdg'.
        apply groups_lookup in Hj as (label' & Hj & ->).
        apply elem_of_of_content_type in Hdg' as [_ Hty'].
        rewrite Hty in Hty'. injection Hty' as <-.
        eapply NoDup_lookup; [apply content_types_NoDup|exact Hj|exact Hi].
  - intros w s s' docs. apply fetched_feed_has_content_type.
    unfold content_types. set_solver.
  - intros w s s' docs. apply fetched_feed_has_content_type.
    unfold content_types. set_solver.
  - intros w doc. unfold has_content_type.
    by rewrite process_federal_register_content_type.
  - intros l d g Hd Hg Hin. unfold groups in Hg.
    apply list_elem_of_fmap in Hg as (label & -> & Hlabel).
    apply elem_of_of_content_type in Hin as [_ Hty].
    assert (has_content_type d = true); [|congruence].
    apply has_content_type_label. eauto.
Qed.

(** A rule and a directive fall into the first and the last group. *)
Lemma grouping_partition_witness :
  let rule : document := {[ "content_type" := PStr "Rule" ]} in
  let directive : document := {[ "content_type" := PStr "Directive" ]} in
  concat (groups [directive; rule]) ≡ₚ [directive; rule].
Proof.
  intros rule directive.
  apply (proj1 grouping_partition [directive; rule]).
  repeat constructor.
Defined.

(** C3, as stated, fails for the documents of the Federal Register
    normaliser: a raw record without a [type] becomes a document whose
    [content_type] is the empty string, which is in none of the five
    groups. *)
Lemma grouping_drops_untyped_record :
  let raw : document := {[ "title" := PStr "Hazard Communication" ]} in
  let doc := App.process_federal_register Examples.offline raw in
  dict_get doc "content_type" = PStr "" /\
  has_content_type doc = false /\
  groups [doc] = [[]; []; []; []; []] /\
  concat (groups [doc]) <> [doc].
Proof.
  intros raw doc.
  assert (Hct : dict_get doc "content_type" = PStr "").
  { unfold doc. rewrite process_federal_register_content_type. reflexivity. }
  assert (Hg : groups [doc] = [[]; []; []; []; []]).
  { unfold groups, App.of_content_type, content_types. simpl.
    rewrite Hct. reflexivity. }
  split; [exact Hct|]. split; [|split; [exact Hg|]].
  - unfold has_content_type. rewrite Hct. reflexivity.
  - rewrite Hg. discriminate.
Qed.

(** ** The effective-status label *)

Lemma truthy_PStr (s : string) : s <> "" -> truthy (PStr s) = true.
Proof.
  intros Hs. simpl. apply negb_true_iff, String.eqb_neq. exact Hs.
Qed.

Lemma effective_status_unfold (w : world) (doc : document) (s : string)
    (e : naive) :
  doc !! "effective_on" = Some (PStr s) -> s <> "" ->
  date_parse w s = Some (mkDatetime e None) ->
  App.effective_status w doc =
    if naive_gtb e (now w) then
      let d := sub_days e (now w) in
      if d =? 0 then "Effective today"
      else if d =? 1 then "Effective tomorrow"
      else if d <? 30 then "Effective in " ++ pretty d ++ " days"
      else "Effective " ++ strftime_b_d_Y e
    else "Effective since " ++ strftime_b_d_Y e.
Proof.
  intros Hdoc Hs Hparse. unfold App.effective_status, dict_get.
  rewrite Hdoc. simpl default. rewrite (truthy_PStr s Hs).
  simpl parse_value. rewrite Hparse. reflexivity.
Qed.

(** The labels by day difference, and the empty label for an absent,
    unparseable or timezone-aware effective date. *)
Lemma effective_status_buckets (w : world) (doc : document) :
  (truthy (dict_get doc "effective_on") = false ->
   App.effective_status w doc = "") /\
  (parse_value w (dict_get doc "effective_on") = None ->
   App.effective_status w doc = "") /\
  (forall e off,
     parse_value w (dict_get doc "effective_on")
       = Some (mkDatetime e (Some off)) ->
     App.effective_status w doc = "") /\
  (forall s e,
     doc !! "effective_on" = Some (PStr s) -> s <> "" ->
     date_parse w s = Some (mkDatetime e None) ->
     let d := sub_days e (now w) in
     (naive_gtb e (now w) = false ->
      App.effective_status w doc = "Effective since " ++ strftime_b_d_Y e) /\
     (naive_gtb e (now w) = true -> d = 0 ->
      App.effective_status w doc = "Effective today") /\
     (naive_gtb e (now w) = true -> d = 1 ->
      App.effective_status w doc = "Effective tomorrow") /\
     (naive_gtb e (now w) = true -> 2 <= d <= 29 ->
      App.effective_status w doc = "Effective in " ++ pretty d ++ " days") /\
     (naive_gtb e (now w) = true -> 30 <= d ->
      App.effective_status w doc = "Effective " ++ strftime_b_d_Y e)).
Proof.
  repeat split.
  - unfold App.effective_status. by intros ->.
  - unfold App.effective_status. intros ->. by destruct (truthy _).
  - unfold App.effective_status. intros e off ->. by destruct (truthy _).
  - intros Hgt. rewrite (effective_status_unfold w doc s e) by assumption.
    by rewrite Hgt.
  - intros Hgt Hd. rewrite (effective_status_unfold w doc s e) by assumption.
    rewrite Hgt. simpl. by rewrite Hd.
  - intros Hgt Hd. rewrite (effective_status_unfold w doc s e) by assumption.
    rewrite Hgt. simpl. by rewrite Hd.
  - intros Hgt Hd. rewrite (effective_status_unfold w doc s e) by assumption.
    rewrite Hgt. simpl. zcases; try lia; reflexivity.
  - intros Hgt Hd. rewrite (effective_status_unfold w doc s e) by assumption.
    rewrite Hgt. simpl. zcases; try lia; reflexivity.
Qed.

(** Midnight of a day is not after any instant of that day. *)
Lemma midnight_not_after (n : naive) :
  valid_naive n = true ->
  naive_gtb (mkNaive (year n) (month n) (day n) 0 0 0 0) n = false.
Proof.
  destruct n as [y mo d h mi s us].
  unfold valid_naive, naive_gtb, naive_compare. simpl.
  rewrite !andb_true_iff, !Z.leb_le. intros Hv.
  rewrite !Z.compare_refl.
  destruct h; try lia; try reflexivity.
  destruct mi; try lia; try reflexivity.
  destruct s; try lia; try reflexivity.
  destruct us; try lia; reflexivity.
Qed.

(** C4 (what the code does where the claim fails).  An effective date that
    is today's date, parsed as the Federal Register sends it (a date
    without a time, hence midnight), is never labelled "Effective today":
    it is not later than [now], and the label is "Effective since" with the
    date. *)
Theorem effective_status_on_the_day (w : world) (doc : document)
    (s : string) :
  valid_naive (now w) = true ->
  doc !! "effective_on" = Some (PStr s) -> s <> "" ->
  date_parse w s =
    Some (mkDatetime
            (mkNaive (year (now w)) (month (now w)) (day (now w)) 0 0 0 0)
            None) ->
  App.effective_status w doc =
    "Effective since "
    ++ strftime_b_d_Y
         (mkNaive (year (now w)) (month (now w)) (day (now w)) 0 0 0 0) /\
  App.effective_status w doc <> "Effective today".
Proof.
  intros Hv Hdoc Hs Hparse.
  rewrite (effective_status_unfold w doc s _ Hdoc Hs Hparse).
  rewrite (midnight_not_after (now w) Hv).
  split; [reflexivity | discriminate].
Qed.

(** At ten in the morning of 1 May 2024, a rule effective on 2024-05-01
    reads "Effective since May 01, 2024". *)
Lemma effective_status_on_the_day_witness :
  App.effective_status Examples.offline
    {[ "effective_on" := PStr "2024-05-01" ]}
  = "Effective since May 01, 2024".
Proof.
  apply (effective_status_on_the_day Examples.offline
           {[ "effective_on" := PStr "2024-05-01" ]} "2024-05-01");
    [reflexivity | reflexivity | discriminate | reflexivity].
Defined.

(** The labels are a day late: the day after [now] reads "Effective
    today" and the day after that "Effective tomorrow". *)
Lemma effective_status_day_late :
  App.effective_status Examples.offline
    {[ "effective_on" := PStr "2024-05-02" ]} = "Effective today" /\
  App.effective_status Examples.offline
    {[ "effective_on" := PStr "2024-05-03" ]} = "Effective tomorrow".
Proof. split; vm_compute; reflexivity. Qed.

(** ** Failures of the sources *)

Lemma returns_ret {A} (v : A) : returns (mret v) v.
Proof. intros s. exists []. unfold_M. by rewrite app_nil_r; destruct s. Qed.

Lemma returns_print (line : string) : returns (print line) tt.
Proof. intros s. exists [line]. reflexivity. Qed.

Lemma returns_bind {A B} (m : M A) (k : A -> M B) (v : A) (u : B) :
  returns m v -> returns (k v) u -> returns (m ≫= k) u.
Proof.
  intros Hm Hk s. destruct (Hm s) as (l1 & H1).
  destruct (Hk (mkState (stdout s ++ l1) (outbox s))) as (l2 & H2).
  exists (l1 ++ l2)%list. unfold_M. rewrite H1, H2. simpl.
  by rewrite <- app_assoc.
Qed.

Lemma raise_for_status_good {B} (r : response B) :
  bad_status r = false -> raise_for_status r = Returns tt.
Proof.
  unfold bad_status, raise_for_status. intros H.
  destruct ((400 <=? status_code r) && (status_code r <? 500)) eqn:H4;
    [|destruct ((500 <=? status_code r) && (status_code r <? 600)) eqn:H5;
      [|reflexivity]];
    exfalso; revert H; try revert H4; try revert H5;
    rewrite ?andb_true_iff, ?andb_false_iff, ?Z.leb_le, ?Z.ltb_lt,
      ?Z.leb_gt, ?Z.ltb_ge; lia.
Qed.

Lemma raise_for_status_bad {B} (r : response B) :
  bad_status r = true ->
  exists msg, raise_for_status r = Raises (mkExn HTTPError msg).
Proof.
  unfold bad_status, raise_for_status. intros H.
  destruct ((400 <=? status_code r) && (status_code r <? 500)) eqn:H4;
    [eauto|].
  destruct ((500 <=? status_code r) && (status_code r <? 600)) eqn:H5;
    [eauto|].
  exfalso; revert H H4 H5.
  rewrite ?andb_true_iff, ?andb_false_iff, ?Z.leb_le, ?Z.ltb_lt,
    ?Z.leb_gt, ?Z.ltb_ge; lia.
Qed.

Lemma for_records_map {B} (f : document -> B) (items : list json_element)
    (docs : list document) :
  all_records items = Some docs ->
  for_records (fun doc => [f doc]) items = Returns (map f docs).
Proof.
  revert docs. induction items as [|[doc|] items IH]; simpl; intros docs H.
  - by injection H as <-.
  - destruct (all_records items) as [docs'|]; [|discriminate].
    injection H as <-. by rewrite (IH docs' eq_refl).
  - discriminate.
Qed.

Lemma for_records_omap {B} (f : document -> option B)
    (items : list json_element) (docs : list document) :
  all_records items = Some docs ->
  for_records (fun doc => option_list (f doc)) items = Returns (omap f docs).
Proof.
  revert docs. induction items as [|[doc|] items IH]; simpl; intros docs H.
  - by injection H as <-.
  - destruct (all_records items) as [docs'|]; [|discriminate].
    injection H as <-. rewrite (IH docs' eq_refl). simpl.
    by destruct (f doc).
  - discriminate.
Qed.

Lemma for_records_raises {B} (body : document -> list B)
    (items : list json_element) :
  all_records items = None ->
  exists e, for_records body items = Raises e /\ exn_cls e = AttributeError.
Proof.
  induction items as [|[doc|] items IH]; simpl; intros H.
  - discriminate.
  - destruct (all_records items) as [docs'|]; [discriminate|].
    destruct (IH eq_refl) as (e & -> & He). eauto.
  - eauto.
Qed.

(** The loop over [results] runs over the records of [records_of]. *)
Lemma py_iter_records (results : option json_member) (docs : list document) :
  records_of results = Some docs ->
  exists items,
    py_iter (default (JArray []) results) = Returns items /\
    all_records items = Some docs.
Proof.
  destruct results as [[v|items|keys]|]; simpl.
  - destruct v as [| | |s|]; try discriminate.
    destruct s; [|discriminate]. intros [= <-]. by exists [].
  - intros H. by exists items.
  - destruct keys; [|discriminate]. intros [= <-]. by exists [].
  - intros [= <-]. by exists [].
Qed.

(** Where [records_of] finds none the loop raises: a [TypeError] when
    [results] is not iterable, an [AttributeError] at the first element
    that is not an object. *)
Lemma py_iter_no_records {B} (body : document -> list B)
    (results : option json_member) :
  records_of results = None ->
  exists e,
    match py_iter (default (JArray []) results) with
    | Returns items => for_records body items
    | Raises e => Raises e
    end = Raises e /\
    (exn_cls e = TypeError \/ exn_cls e = AttributeError).
Proof.
  destruct results as [[v|items|keys]|]; simpl.
  - destruct v as [| | |s|]; try (intros _; eauto; fail).
    destruct s; [discriminate|]. intros _. simpl. eauto.
  - intros H. destruct (for_records_raises body items H) as (e & -> & He).
    eauto.
  - destruct keys; [discriminate|]. intros _. simpl. eauto.
  - discriminate.
Qed.

(** After a failure the Federal Register client prints one line and
    returns the empty result. *)
Lemma fetch_federal_register_failure (w : world) (year : option string)
    (doc_types : option (list string)) (limit : Z) (s : state) :
  fr_failure
    (get_federal_register w
       (mkParams (default ["RULE"; "PRORULE"; "NOTICE"] doc_types) limit
          (App.year_condition w year))) = true ->
  exists msg,
    App.fetch_federal_register w year doc_types limit s =
      (Returns ([], JScalar (PInt 0)),
       mkState (stdout s ++ ["Error fetching Federal Register: " ++ msg])
         (outbox s)).
Proof.
  unfold App.fetch_federal_register, fr_failure. unfold_M.
  destruct (get_federal_register w _) as [r|e]; simpl.
  - destruct (bad_status r) eqn:Hbad; simpl.
    + destruct (raise_for_status_bad r Hbad) as (msg & ->). simpl. eauto.
    + rewrite (raise_for_status_good r Hbad). simpl.
      unfold response_json. destruct (content r) as [msg|v]; simpl;
        [eauto | discriminate].
  - intros ->. eauto.
Qed.

(** After a failure a feed client prints one line and returns the empty
    list. *)
Lemma fetch_osha_rss_failure (w : world) (url content_type source_name : string)
    (s : state) :
  rss_failure (get_rss w url) = true ->
  exists msg,
    App.fetch_osha_rss w url content_type source_name s =
      (Returns [],
       mkState (stdout s ++ ["Error fetching " ++ source_name ++ ": " ++ msg])
         (outbox s)).
Proof.
  unfold App.fetch_osha_rss, rss_failure. unfold_M.
  destruct (get_rss w url) as [r|e]; simpl; [|eauto].
  destruct (bad_status r) eqn:Hbad; simpl.
  - destruct (raise_for_status_bad r Hbad) as (msg & ->). simpl. eauto.
  - rewrite (raise_for_status_good r Hbad). simpl.
    unfold ET_fromstring. destruct (content r) as [msg|items]; simpl;
      [eauto | discriminate].
Qed.

Lemma fetch_federal_register_handled (w : world) (year doc_type : string) :
  fr_handled
    (get_federal_register w
       (mkParams [doc_type] 30 (App.year_condition w (Some year)))) = true ->
  returns
    (App.counted
       (App.fetch_federal_register w (Some year) (Some [doc_type]) 30))
    (federal_register_result w year doc_type).
Proof.
  intros H s.
  unfold App.counted, App.fetch_federal_register, federal_register_result,
    fr_handled, fr_failure in *.
  unfold_M. simpl default in *.
  destruct (get_federal_register w _) as [r|e]; simpl in *.
  - destruct (bad_status r) eqn:Hbad; simpl in *.
    + destruct (raise_for_status_bad r Hbad) as (msg & ->). simpl. eauto.
    + rewrite (raise_for_status_good r Hbad). simpl.
      unfold response_json. destruct (content r) as [msg|[results count|]];
        simpl in *; try discriminate; [eauto|].
      destruct (records_of results) as [docs|] eqn:Hdocs; [|discriminate].
      destruct (count_of count) as [n|] eqn:Hn; [|discriminate].
      destruct (py_iter_records results docs Hdocs) as (items & -> & Hitems).
      simpl. rewrite (for_records_map _ items docs Hitems). simpl.
      exists []. rewrite app_nil_r. destruct s.
      destruct count as [[[| | | |]| |]|]; simpl in *; try discriminate;
        by injection Hn as <-.
  - rewrite orb_false_r in H. rewrite H. eauto.
Qed.

Lemma fetch_osha_rss_feed (w : world) (url content_type source_name : string) :
  returns (App.fetch_osha_rss w url content_type source_name)
    (feed_documents w url content_type source_name).
Proof.
  intros s. unfold App.fetch_osha_rss, feed_documents. unfold_M.
  destruct (get_rss w url) as [r|e]; simpl; [|eauto].
  destruct (bad_status r) eqn:Hbad; simpl.
  - destruct (raise_for_status_bad r Hbad) as (msg & ->). simpl. eauto.
  - rewrite (raise_for_status_good r Hbad). simpl.
    unfold ET_fromstring. destruct (content r) as [msg|items]; simpl; [eauto|].
    exists []. by rewrite app_nil_r; destruct s.
Qed.

Lemma fetch_feed_returns (w : world) (year url content_type source_name : string) :
  returns
    (App.fetch_feed w year (App.fetch_osha_rss w url content_type source_name))
    (feed_result w year url content_type source_name).
Proof.
  unfold App.fetch_feed. eapply returns_bind; [apply fetch_osha_rss_feed|].
  apply returns_ret.
Qed.

Lemma fetch_if_returns (selected : bool) (m : M (list document * Z))
    (v : list document * Z) :
  (selected = true -> returns m v) ->
  returns (App.fetch_if selected m) (when selected v).
Proof.
  destruct selected; simpl; intros H; [by apply H | apply returns_ret].
Qed.

Lemma returns_of_outcome {A} (v : A) : returns (of_outcome (Returns v)) v.
Proof. apply returns_ret. Qed.

Lemma process_federal_register_sortable (w : world) (doc : document) :
  sortable (App.process_federal_register w doc) = true.
Proof.
  unfold App.process_federal_register, App.add_publication_date, sortable.
  repeat case_match; simplify_map_eq; done.
Qed.

Lemma process_rss_item_sortable (w : world) (content_type source_name : string)
    (item : rss_item) :
  sortable (App.process_rss_item w content_type source_name item) = true.
Proof.
  unfold App.process_rss_item, sortable.
  repeat case_match; simplify_map_eq; done.
Qed.

Lemma comprehension_Forall {A} (P : A -> Prop) (cond : A -> option bool)
    (l r : list A) :
  App.comprehension cond l = Some r -> Forall P l -> Forall P r.
Proof.
  revert r. induction l as [|x l IH]; simpl; intros r Hr Hl.
  - injection Hr as <-. constructor.
  - inversion Hl as [|? ? Hx Hl']; subst.
    destruct (cond x) as [b|]; [|discriminate].
    destruct (App.comprehension cond l) as [r'|]; [|discriminate].
    injection Hr as <-. specialize (IH r' eq_refl Hl').
    destruct b; [by constructor | exact IH].
Qed.

Lemma filter_by_year_Forall (P : document -> Prop) (w : world) (year : string)
    (docs : list document) :
  Forall P docs -> Forall P (App.filter_by_year w year docs).
Proof.
  intros Hdocs. unfold App.filter_by_year.
  destruct (_ && _); [|exact Hdocs].
  destruct (py_int w year) as [y|]; [|exact Hdocs].
  destruct (App.comprehension (App.year_test y) docs) as [r|] eqn:Hr;
    simpl; [|exact Hdocs].
  by eapply comprehension_Forall.
Qed.

Lemma federal_register_result_sortable (w : world) (year doc_type : string) :
  Forall (fun d => sortable d = true)
    (fst (federal_register_result w year doc_type)).
Proof.
  unfold federal_register_result.
  repeat case_match; simpl; try constructor.
  apply Forall_forall. intros d Hd.
  apply list_elem_of_fmap in Hd as (raw & -> & _).
  apply process_federal_register_sortable.
Qed.

Lemma feed_result_sortable (w : world)
    (year url content_type source_name : string) :
  Forall (fun d => sortable d = true)
    (fst (feed_result w year url content_type source_name)).
Proof.
  unfold feed_result. simpl. apply filter_by_year_Forall.
  unfold feed_documents. repeat case_match; try constructor.
  apply Forall_forall. intros d Hd.
  apply list_elem_of_fmap in Hd as (item & -> & _).
  apply process_rss_item_sortable.
Qed.

Lemma when_sortable (selected : bool) (r : list document * Z) :
  Forall (fun d => sortable d = true) (fst r) ->
  Forall (fun d => sortable d = true) (fst (when selected r)).
Proof. destruct selected; simpl; [done | constructor]. Qed.

Lemma contributions_sortable (w : world) (content_filter year : string) :
  Forall (fun d => sortable d = true)
    (concat (map fst (contributions w content_filter year))).
Proof.
  unfold contributions. simpl. rewrite app_nil_r.
  repeat (apply Forall_app; split);
    apply when_sortable;
    first [apply federal_register_result_sortable | apply feed_result_sortable].
Qed.

(** [index] returns the page of the contributions when the requests it
    makes are handled. *)
Lemma index_returns_selected (w : world) (content_arg year_arg : option string) :
  selected_handled w (default "rules" content_arg)
    (default (pretty (year (now w))) year_arg) ->
  exists sorted,
    App.sort_documents
      (concat (map fst
         (contributions w (default "rules" content_arg)
            (default (pretty (year (now w))) year_arg)))) = Returns sorted /\
    returns (App.index w content_arg year_arg)
      (page_of w content_arg year_arg sorted).
Proof.
  intros Hfr.
  set (cf := default "rules" content_arg) in *.
  set (y := default (pretty (year (now w))) year_arg) in *.
  pose proof (contributions_sortable w cf y) as Hsortable.
  eexists. split; [by apply sort_documents_sortable|].
  unfold App.index, page_of. fold cf y.
  unfold App.fetch_interpretations, App.fetch_directives.
  unfold contributions in *. simpl in Hsortable. simpl total_of. simpl concat.
  eapply returns_bind.
  { apply fetch_if_returns. intros Hsel.
    apply fetch_federal_register_handled, (Hfr "RULE" "rules"); [|exact Hsel].
    repeat constructor. }
  destruct (when _ (federal_register_result w y "RULE")) as [d1 c1].
  eapply returns_bind.
  { apply fetch_if_returns. intros Hsel.
    apply fetch_federal_register_handled, (Hfr "PRORULE" "proposed");
      [|exact Hsel]. repeat constructor. }
  destruct (when _ (federal_register_result w y "PRORULE")) as [d2 c2].
  eapply returns_bind.
  { apply fetch_if_returns. intros Hsel.
    apply fetch_federal_register_handled, (Hfr "NOTICE" "notices");
      [|exact Hsel]. repeat constructor. }
  destruct (when _ (federal_register_result w y "NOTICE")) as [d3 c3].
  eapply returns_bind.
  { apply fetch_if_returns. intros _. apply fetch_feed_returns. }
  destruct (when _ (feed_result w y OSHA_INTERPRETATIONS_RSS _ _)) as [d4 c4].
  eapply returns_bind.
  { apply fetch_if_returns. intros _. apply fetch_feed_returns. }
  destruct (when _ (feed_result w y OSHA_DIRECTIVES_RSS _ _)) as [d5 c5].
  simpl in *. rewrite app_nil_r in *.
  rewrite (sort_documents_sortable _ Hsortable).
  eapply returns_bind; [apply returns_of_outcome | apply returns_ret].
Qed.

Lemma fetch_recent_federal_register_failure (w : world) (days cutoff : Z)
    (s : state) :
  EmailDigest.cutoff_date w days = Returns cutoff ->
  fr_failure
    (get_federal_register w (mkParams ["RULE"; "PRORULE"; "NOTICE"] 50 None))
    = true ->
  exists msg,
    EmailDigest.fetch_recent_federal_register w days s =
      (Returns [],
       mkState (stdout s ++ ["Error fetching Federal Register: " ++ msg])
         (outbox s)).
Proof.
  unfold EmailDigest.fetch_recent_federal_register, fr_failure. unfold_M.
  intros ->. simpl.
  destruct (get_federal_register w _) as [r|e]; simpl; [|eauto].
  destruct (bad_status r) eqn:Hbad; simpl.
  - destruct (raise_for_status_bad r Hbad) as (msg & ->). simpl. eauto.
  - rewrite (raise_for_status_good r Hbad). simpl.
    unfold response_json. destruct (content r) as [msg|v]; simpl;
      [eauto | discriminate].
Qed.

Lemma fetch_recent_rss_failure (w : world) (url content_type : string)
    (days cutoff : Z) (s : state) :
  EmailDigest.cutoff_date w days = Returns cutoff ->
  rss_failure (get_rss w url) = true ->
  exists msg,
    EmailDigest.fetch_recent_rss w url content_type days s =
      (Returns [],
       mkState (stdout s ++ ["Error fetching RSS: " ++ msg]) (outbox s)).
Proof.
  unfold EmailDigest.fetch_recent_rss, rss_failure. unfold_M.
  intros ->. simpl.
  destruct (get_rss w url) as [r|e]; simpl; [|eauto].
  destruct (bad_status r) eqn:Hbad; simpl.
  - destruct (raise_for_status_bad r Hbad) as (msg & ->). simpl. eauto.
  - rewrite (raise_for_status_good r Hbad). simpl.
    unfold ET_fromstring. destruct (content r) as [msg|items]; simpl;
      [eauto | discriminate].
Qed.

(** C5 (as amended).  When the request raises an exception of [requests],
    when the status is a client or server error (400 to 599) or when the
    body does not parse, the Federal Register client prints the error and
    returns the empty list with count 0, and a feed client (for which any
    exception of the request counts) prints the error and returns the empty
    list; neither raises.  The clients of the digest do the same (once
    their cutoff date is computed).  A failed source contributes nothing to
    the page and the other sources are fetched all the same: [index]
    returns the page built from the five contributions.  Any other status
    is no failure: the web clients process the body and print nothing. *)
Theorem sources_fail_soft :
  (forall w year doc_types limit s,
     fr_failure
       (get_federal_register w
          (mkParams (default ["RULE"; "PRORULE"; "NOTICE"] doc_types) limit
             (App.year_condition w year))) = true ->
     exists msg,
       App.fetch_federal_register w year doc_types limit s =
         (Returns ([], JScalar (PInt 0)),
          mkState (stdout s ++ ["Error fetching Federal Register: " ++ msg])
            (outbox s))) /\
  (forall w url content_type source_name s,
     rss_failure (get_rss w url) = true ->
     exists msg,
       App.fetch_osha_rss w url content_type source_name s =
         (Returns [],
          mkState
            (stdout s ++ ["Error fetching " ++ source_name ++ ": " ++ msg])
            (outbox s))) /\
  (forall w days cutoff s,
     EmailDigest.cutoff_date w days = Returns cutoff ->
     fr_failure
       (get_federal_register w
          (mkParams ["RULE"; "PRORULE"; "NOTICE"] 50 None)) = true ->
     exists msg,
       EmailDigest.fetch_recent_federal_register w days s =
         (Returns [],
          mkState (stdout s ++ ["Error fetching Federal Register: " ++ msg])
            (outbox s))) /\
  (forall w url content_type days cutoff s,
     EmailDigest.cutoff_date w days = Returns cutoff ->
     rss_failure (get_rss w url) = true ->
     exists msg,
       EmailDigest.fetch_recent_rss w url content_type days s =
         (Returns [],
          mkState (stdout s ++ ["Error fetching RSS: " ++ msg]) (outbox s))) /\
  (forall w year doc_type,
     fr_failure
       (get_federal_register w
          (mkParams [doc_type] 30 (App.year_condition w (Some year)))) = true ->
     federal_register_result w year doc_type = ([], 0)) /\
  (forall w url content_type source_name,
     rss_failure (get_rss w url) = true ->
     feed_documents w url content_type source_name = []) /\
  (forall w content_arg year_arg,
     selected_handled w (default "rules" content_arg)
       (default (pretty (year (now w))) year_arg) ->
     exists sorted,
       App.sort_documents
         (concat (map fst
            (contributions w (default "rules" content_arg)
               (default (pretty (year (now w))) year_arg)))) = Returns sorted /\
       returns (App.index w content_arg year_arg)
         (page_of w content_arg year_arg sorted)) /\
  (forall w year doc_types limit s r results count docs,
     get_federal_register w (request_of w year doc_types limit) = Returns r ->
     bad_status r = false ->
     content r = ValidJSON (JObject results count) ->
     records_of results = Some docs ->
     App.fetch_federal_register w year doc_types limit s =
       (Returns (map (App.process_federal_register w) docs,
                 default (JScalar (PInt 0)) count), s)) /\
  (forall w url content_type source_name s r items,
     get_rss w url = Returns r ->
     bad_status r = false ->
     content r = XMLRoot items ->
     App.fetch_osha_rss w url content_type source_name s =
       (Returns (map (App.process_rss_item w content_type source_name) items),
        s)).
Proof.
  split; [|split; [|split; [|split; [|split; [|split; [|split; [|split]]]]]]].
  - intros. by apply fetch_federal_register_failure.
  - intros. by apply fetch_osha_rss_failure.
  - intros. by eapply fetch_recent_federal_register_failure.
  - intros. by eapply fetch_recent_rss_failure.
  - intros w year doc_type. unfold fr_failure, federal_register_result.
    destruct (get_federal_register w _) as [r|e]; [|done].
    destruct (bad_status r); [done|]. simpl.
    by destruct (content r).
  - intros w url content_type source_name.
    unfold rss_failure, feed_documents.
    destruct (get_rss w url) as [r|e]; [|done].
    destruct (bad_status r); [done|]. simpl.
    by destruct (content r).
  - intros. by apply index_returns_selected.
  - intros w year doc_types limit s r results count docs
      Hget Hstatus Hbody Hdocs.
    unfold App.fetch_federal_register, request_of in *. unfold_M.
    rewrite Hget. simpl. rewrite (raise_for_status_good r Hstatus). simpl.
    unfold response_json. rewrite Hbody. simpl.
    destruct (py_iter_records results docs Hdocs) as (items & -> & Hitems).
    by rewrite (for_records_map _ items docs Hitems).
  - intros w url content_type source_name s r items Hget Hstatus Hbody.
    unfold App.fetch_osha_rss. unfold_M.
    rewrite Hget. simpl. rewrite (raise_for_status_good r Hstatus). simpl.
    unfold ET_fromstring. by rewrite Hbody.
Qed.

(** With every request timing out, the Federal Register client prints the
    error and returns the empty list and count 0. *)
Lemma sources_fail_soft_witness :
  exists msg,
    App.fetch_federal_register Examples.offline (Some "2024") (Some ["RULE"])
      30 (mkState [] []) =
    (Returns ([], JScalar (PInt 0)),
     mkState ["Error fetching Federal Register: " ++ msg] []).
Proof.
  apply (proj1 sources_fail_soft Examples.offline (Some "2024")
           (Some ["RULE"]) 30 (mkState [] [])).
  reflexivity.
Defined.

(** C5, as stated, fails for a status that is neither a success nor an
    error of the client or the server.  [raise_for_status] raises from 400
    to 599 only: when the Federal Register answers 302 and a feed 304, each
    with a body that parses, the clients print nothing and return the
    documents of the body, two with the count 57 and three. *)
Lemma status_below_400_not_a_failure :
  let w :=
    Scenarios.serving
      (fun _ => Returns (mkResponse 302 "Found" "https://example.org/"
                           Scenarios.two_records))
      (fun _ => Returns (mkResponse 304 "Not Modified" "https://example.org/"
                           Scenarios.letters)) in
  (exists docs,
     App.fetch_federal_register w (Some "2024") (Some ["RULE"]) 30
       (mkState [] []) =
       (Returns (docs, JScalar (PInt 57)), mkState [] []) /\
     length docs = 2%nat) /\
  (exists docs,
     App.fetch_osha_rss w OSHA_INTERPRETATIONS_RSS "Interpretation"
       "OSHA Interpretations" (mkState [] []) =
       (Returns docs, mkState [] []) /\
     length docs = 3%nat).
Proof.
  intros w. split; eexists; (split; [reflexivity|]); reflexivity.
Qed.

(** ** The year filter on the feeds *)

Lemma comprehension_filter {A} (cond : A -> option bool) (p : A -> bool)
    (l : list A) :
  Forall (fun x => cond x = Some (p x)) l ->
  App.comprehension cond l = Some (List.filter p l).
Proof.
  induction 1 as [|x l Hx Hl IH]; simpl; [reflexivity|].
  rewrite Hx, IH. reflexivity.
Qed.

Lemma year_test_sortable (y : Z) (d : document) :
  sortable d = true -> App.year_test y d = Some (year_matches y d).
Proof.
  unfold sortable, App.year_test, year_matches, parsed_pub_date, dict_get.
  destruct (d !! "pub_date") as [[]|]; simpl; congruence.
Qed.

Lemma filter_by_year_sortable (w : world) (year : string)
    (docs : list document) :
  Forall (fun d => sortable d = true) docs ->
  App.filter_by_year w year docs =
    if negb (String.eqb year "") && negb (String.eqb year "all") then
      match py_int w year with
      | Some y => List.filter (year_matches y) docs
      | None => docs
      end
    else docs.
Proof.
  intros Hdocs. unfold App.filter_by_year.
  destruct (_ && _); [|reflexivity].
  destruct (py_int w year) as [y|]; [|reflexivity].
  rewrite (comprehension_filter (App.year_test y) (year_matches y)).
  - reflexivity.
  - eapply Forall_impl; [exact Hdocs|]. intros d. apply year_test_sortable.
Qed.

Lemma year_matches_iff (y : Z) (d : document) :
  year_matches y d = true <->
  exists dt, parsed_pub_date d = Some dt /\ year (dt_naive dt) = y.
Proof.
  unfold year_matches. destruct (parsed_pub_date d) as [dt|].
  - rewrite Z.eqb_eq. split; [eauto|]. by intros (dt' & [= <-] & H).
  - split; [discriminate|]. by intros (dt' & [=] & _).
Qed.

Lemma process_rss_item_source (w : world)
    (content_type source_name : string) (item : rss_item) :
  dict_get (App.process_rss_item w content_type source_name item) "source"
  = PStr source_name.
Proof.
  unfold App.process_rss_item, dict_get.
  repeat case_match; by simplify_map_eq.
Qed.

Lemma process_federal_register_source (w : world) (doc : document) :
  dict_get (App.process_federal_register w doc) "source"
  = PStr "Federal Register".
Proof.
  unfold App.process_federal_register, App.add_publication_date, dict_get.
  repeat case_match; by simplify_map_eq.
Qed.

Lemma feed_documents_fields (w : world) (url content_type source_name : string)
    (d : document) :
  d ∈ feed_documents w url content_type source_name ->
  dict_get d "content_type" = PStr content_type /\
  dict_get d "source" = PStr source_name /\
  sortable d = true.
Proof.
  unfold feed_documents. intros Hd.
  repeat case_match; try by apply elem_of_nil in Hd.
  apply list_elem_of_fmap in Hd as (item & -> & _).
  split; [apply process_rss_item_content_type|].
  split; [apply process_rss_item_source | apply process_rss_item_sortable].
Qed.

Lemma federal_register_result_source (w : world) (year doc_type : string)
    (d : document) :
  d ∈ fst (federal_register_result w year doc_type) ->
  dict_get d "source" = PStr "Federal Register".
Proof.
  unfold federal_register_result. intros Hd.
  repeat case_match; simpl in Hd; try by apply elem_of_nil in Hd.
  apply list_elem_of_fmap in Hd as (raw & -> & _).
  apply process_federal_register_source.
Qed.

Lemma elem_of_when (selected : bool) (r : list document * Z) (d : document) :
  d ∈ fst (when selected r) <-> selected = true /\ d ∈ fst r.
Proof.
  destruct selected; simpl.
  - tauto.
  - rewrite elem_of_nil. split; [tauto|]. by intros [? _].
Qed.

(** Membership in the year-filtered list of documents that [sort_key]
    accepts. *)
Lemma elem_of_filter_by_year (w : world) (year_text : string)
    (docs : list document) (d : document) :
  Forall (fun d => sortable d = true) docs ->
  d ∈ App.filter_by_year w year_text docs <->
  d ∈ docs /\
  (year_text <> "" -> year_text <> "all" ->
   forall y, py_int w year_text = Some y -> year_matches y d = true).
Proof.
  intros Hdocs. rewrite (filter_by_year_sortable w year_text docs Hdocs).
  destruct (String.eqb year_text "") eqn:He; simpl.
  { apply String.eqb_eq in He. split; [|tauto]. intros H. split; [exact H|].
    congruence. }
  destruct (String.eqb year_text "all") eqn:Ha; simpl.
  { apply String.eqb_eq in Ha. split; [|tauto]. intros H. split; [exact H|].
    congruence. }
  apply String.eqb_neq in He, Ha.
  destruct (py_int w year_text) as [y|].
  - rewrite list_elem_of_In, filter_In, <- list_elem_of_In. split.
    + intros [Hd Hm]. split; [exact Hd|]. by intros _ _ y' [= <-].
    + intros [Hd Hm]. split; [exact Hd|]. by apply Hm.
  - split; [|tauto]. intros H. split; [exact H|]. discriminate.
Qed.

(** A document of a feed is shown on the page exactly when the feed is
    selected and the year filter keeps the document. *)
Lemma feed_document_on_page (w : world) (content_filter year_text : string)
    (sorted : list document) (url content_type source_name sel : string)
    (d : document) :
  App.sort_documents
    (concat (map fst (contributions w content_filter year_text)))
    = Returns sorted ->
  (url, content_type, source_name, sel) ∈ feeds ->
  d ∈ feed_documents w url content_type source_name ->
  d ∈ App.of_content_type content_type sorted <->
  App.str_in content_filter ["all"; sel] = true /\
  d ∈ App.filter_by_year w year_text
        (feed_documents w url content_type source_name).
Proof.
  intros Hsort Hfeed Hd.
  destruct (feed_documents_fields w url content_type source_name d Hd)
    as (Hct & Hsrc & _).
  assert (Hperm : sorted ≡ₚ
            concat (map fst (contributions w content_filter year_text))).
  { rewrite (sort_documents_sortable _
               (contributions_sortable w content_filter year_text)) in Hsort.
    injection Hsort as <-. rewrite sort_desc_perm, map_map. simpl.
    by rewrite map_id. }
  rewrite elem_of_of_content_type, Hperm.
  unfold contributions. cbn [map concat]. rewrite app_nil_r.
  rewrite !elem_of_app, !elem_of_when.
  unfold feed_result. cbn [fst].
  assert (Hfr : forall doc_type,
            d ∉ fst (federal_register_result w year_text doc_type)).
  { intros doc_type Hin.
    apply federal_register_result_source in Hin.
    rewrite Hsrc in Hin. injection Hin as ->.
    unfold feeds in Hfeed. rewrite !elem_of_cons, elem_of_nil in Hfeed.
    destruct Hfeed as [[=]|[[=]|[]]]. }
  assert (Hother : forall url' ct' src',
            ct' <> content_type ->
            d ∉ App.filter_by_year w year_text
                  (feed_documents w url' ct' src')).
  { intros url' ct' src' Hne Hin.
    assert (Hall : Forall (fun d => dict_get d "content_type" = PStr ct')
              (App.filter_by_year w year_text
                 (feed_documents w url' ct' src'))).
    { apply filter_by_year_Forall, Forall_forall. intros d' Hd'.
      by apply feed_documents_fields in Hd' as (? & _). }
    rewrite Forall_forall in Hall. specialize (Hall d Hin). congruence. }
  unfold feeds in Hfeed. rewrite !elem_of_cons, elem_of_nil in Hfeed.
  destruct Hfeed as [[= -> -> -> ->]|[[= -> -> -> ->]|[]]].
  - split.
    + intros [[[_ H]|[[_ H]|[[_ H]|[H|[_ H]]]]] _];
        [by apply Hfr in H..| exact H |].
      by apply (Hother _ "Directive") in H.
    + intros H. split; [|exact Hct]. do 3 right. by left.
  - split.
    + intros [[[_ H]|[[_ H]|[[_ H]|[[_ H]|H]]]] _];
        [by apply Hfr in H..| | exact H].
      by apply (Hother _ "Interpretation") in H.
    + intros H. split; [|exact Hct]. do 4 right. exact H.
Qed.

(** A Federal Register request that is not handled makes the counted fetch
    raise, with nothing printed. *)
Lemma fetch_federal_register_unhandled (w : world) (year doc_type : string)
    (s : state) :
  fr_handled
    (get_federal_register w
       (mkParams [doc_type] 30 (App.year_condition w (Some year)))) = false ->
  exists e,
    App.counted
      (App.fetch_federal_register w (Some year) (Some [doc_type]) 30) s
    = (Raises e, s).
Proof.
  intros H.
  unfold App.counted, App.fetch_federal_register, fr_handled, fr_failure in *.
  unfold_M. simpl default in *.
  destruct (get_federal_register w _) as [r|e]; simpl in *.
  - apply orb_false_iff in H as [H Hwf].
    apply orb_false_iff in H as [Hbad Hjson].
    rewrite (raise_for_status_good r Hbad). simpl.
    unfold response_json.
    destruct (content r) as [msg|[results count|]]; simpl in *;
      [discriminate| |eauto].
    destruct (records_of results) as [docs|] eqn:Hdocs.
    + destruct (py_iter_records results docs Hdocs) as (items & -> & Hitems).
      simpl. rewrite (for_records_map _ items docs Hitems). simpl.
      destruct count as [[[| | | |]| |]|]; simpl in *; try discriminate;
        eauto.
    + destruct (py_iter_no_records
                  (fun doc => [App.process_federal_register w doc])
                  results Hdocs) as (e & He & Hcls).
      exists e.
      destruct (py_iter _) as [items|e']; simpl.
      * rewrite He. simpl.
        destruct Hcls as [Hc|Hc]; unfold is_RequestException; by rewrite Hc.
      * injection He as ->. simpl.
        destruct Hcls as [Hc|Hc]; unfold is_RequestException; by rewrite Hc.
  - rewrite orb_false_r in H. rewrite H. eauto.
Qed.

(** [index] returns a page only when the Federal Register requests it
    makes are handled. *)
Lemma index_returns_handled (w : world) (content_arg year_arg : option string)
    (s s' : state) (page : App.page) :
  App.index w content_arg year_arg s = (Returns page, s') ->
  selected_handled w (default "rules" content_arg)
    (default (pretty (year (now w))) year_arg).
Proof.
  intros Hidx doc_type sel Hin Hsel.
  set (cf := default "rules" content_arg) in *.
  set (y := default (pretty (year (now w))) year_arg) in *.
  destruct (fr_handled _) eqn:Hh; [reflexivity|]. exfalso.
  unfold App.index in Hidx. fold cf y in Hidx.
  unfold mbind, M_bind, bind in Hidx.
  destruct (App.fetch_if (App.str_in cf ["all"; "rules"]) _ s)
    as [[[d1 c1]|e1] s1] eqn:E1; [|discriminate].
  destruct (App.fetch_if (App.str_in cf ["all"; "proposed"]) _ s1)
    as [[[d2 c2]|e2] s2] eqn:E2; [|discriminate].
  destruct (App.fetch_if (App.str_in cf ["all"; "notices"]) _ s2)
    as [[[d3 c3]|e3] s3] eqn:E3; [|discriminate].
  rewrite !elem_of_cons, elem_of_nil in Hin.
  destruct Hin as [[= -> ->]|[[= -> ->]|[[= -> ->]|[]]]].
  - rewrite Hsel in E1. unfold App.fetch_if in E1.
    destruct (fetch_federal_register_unhandled w y "RULE" s Hh) as (e & He).
    congruence.
  - rewrite Hsel in E2. unfold App.fetch_if in E2.
    destruct (fetch_federal_register_unhandled w y "PRORULE" s1 Hh) as (e & He).
    congruence.
  - rewrite Hsel in E3. unfold App.fetch_if in E3.
    destruct (fetch_federal_register_unhandled w y "NOTICE" s2 Hh) as (e & He).
    congruence.
Qed.

(** The page [index] returns is the page of the contributions. *)
Lemma index_page (w : world) (content_arg year_arg : option string)
    (s s' : state) (page : App.page) :
  App.index w content_arg year_arg s = (Returns page, s') ->
  exists sorted,
    App.sort_documents
      (concat (map fst
         (contributions w (default "rules" content_arg)
            (default (pretty (year (now w))) year_arg)))) = Returns sorted /\
    page = page_of w content_arg year_arg sorted.
Proof.
  intros Hidx.
  destruct (index_returns_selected w content_arg year_arg
              (index_returns_handled w content_arg year_arg s s' page Hidx))
    as (sorted & Hsort & Hret).
  exists sorted. split; [exact Hsort|].
  destruct (Hret s) as (lines & Hs). congruence.
Qed.

(** C6.  [index] returns a page whenever the Federal Register requests it
    makes are handled, and on every page it returns, for each feed it
    fetched: when the year value is not empty, not ["all"] and numeric, a
    document made from an item of the feed is shown (in the group of its
    content type) if and only if it has a parsed [pub_date] whose year
    equals the number, so a document without a parsed date is not shown;
    when the year value is empty, ["all"] or not numeric every document of
    the feed is shown. *)
Theorem year_filter_on_feed (w : world)
    (content_arg year_arg : option string) :
  let content_filter := default "rules" content_arg in
  let year_text := default (pretty (year (now w))) year_arg in
  (selected_handled w content_filter year_text ->
   exists page, returns (App.index w content_arg year_arg) page) /\
  (forall s s' page,
     App.index w content_arg year_arg s = (Returns page, s') ->
     forall url content_type source_name sel d,
       (url, content_type, source_name, sel) ∈ feeds ->
       App.str_in content_filter ["all"; sel] = true ->
       d ∈ feed_documents w url content_type source_name ->
       (forall y,
          year_text <> "" -> year_text <> "all" ->
          py_int w year_text = Some y ->
          (d ∈ page_group content_type page <->
           exists dt, parsed_pub_date d = Some dt /\ year (dt_naive dt) = y) /\
          (parsed_pub_date d = None -> d ∉ page_group content_type page)) /\
       (year_text = "" \/ year_text = "all" \/ py_int w year_text = None ->
        d ∈ page_group content_type page)).
Proof.
  intros content_filter year_text. split.
  { intros Hfr.
    destruct (index_returns_selected w content_arg year_arg Hfr)
      as (sorted & _ & Hret). eauto. }
  intros s s' page Hidx.
  destruct (index_page w content_arg year_arg s s' page Hidx)
    as (sorted & Hsort & ->).
  fold content_filter year_text in Hsort.
  intros url content_type source_name sel d Hfeed Hsel Hd.
  assert (Hgroup : page_group content_type
                     (page_of w content_arg year_arg sorted)
                   = App.of_content_type content_type sorted).
  { unfold feeds in Hfeed. rewrite !elem_of_cons, elem_of_nil in Hfeed.
    destruct Hfeed as [[= -> -> -> ->]|[[= -> -> -> ->]|[]]]; reflexivity. }
  rewrite Hgroup.
  assert (Hdocs : Forall (fun d => sortable d = true)
                    (feed_documents w url content_type source_name)).
  { apply Forall_forall. intros d' Hd'.
    by apply feed_documents_fields in Hd' as (_ & _ & ?). }
  pose proof (feed_document_on_page w content_filter year_text sorted url
                content_type source_name sel d Hsort Hfeed Hd) as Hpage.
  rewrite (elem_of_filter_by_year w year_text _ d Hdocs) in Hpage.
  split.
  - intros y Hne Hall Hint. rewrite Hpage. split.
    + rewrite <- year_matches_iff. split.
      * intros (_ & _ & Hm). by apply Hm.
      * intros Hm. split; [exact Hsel|]. split; [exact Hd|].
        intros _ _ y' Hy'. congruence.
    + intros Hnone (_ & _ & Hm).
      specialize (Hm Hne Hall y Hint).
      apply year_matches_iff in Hm as (dt & Hdt & _). congruence.
  - intros Hoff. rewrite Hpage. split; [exact Hsel|]. split; [exact Hd|].
    intros Hne Hall y Hy. destruct Hoff as [?|[?|?]]; congruence.
Qed.


(** With the filter "all" and the year 2024, of the three letters of the
    interpretations feed the page shows the one of May 2024 and neither the
    one of 2023 nor the one without a date. *)
Lemma year_filter_on_feed_witness :
  let letter_a :=
    App.process_rss_item Scenarios.online "Interpretation"
      "OSHA Interpretations"
      (mkItem (Some " Letter A ") (Some "https://example.org/a") None
         (Some "2024-05-01")) in
  let letter_b :=
    App.process_rss_item Scenarios.online "Interpretation"
      "OSHA Interpretations"
      (mkItem (Some "Letter B") (Some "https://example.org/b") None
         (Some "2023-01-15")) in
  let letter_c :=
    App.process_rss_item Scenarios.online "Interpretation"
      "OSHA Interpretations"
      (mkItem (Some "Letter C") None None (Some "  ")) in
  exists page,
    returns (App.index Scenarios.online (Some "all") (Some "2024")) page /\
    (letter_a ∈ App.interpretations page) /\
    (letter_b ∉ App.interpretations page) /\
    (letter_c ∉ App.interpretations page).
Proof.
  intros letter_a letter_b letter_c.
  destruct (proj1 (year_filter_on_feed Scenarios.online (Some "all")
                     (Some "2024")))
    as (page & Hret).
  { intros doc_type sel Hin _.
    rewrite !elem_of_cons, elem_of_nil in Hin.
    destruct Hin as [[= -> ->]|[[= -> ->]|[[= -> ->]|[]]]]; reflexivity. }
  exists page. split; [exact Hret|].
  destruct (Hret (mkState [] [])) as (lines & Hidx).
  pose proof (proj2 (year_filter_on_feed Scenarios.online (Some "all")
                       (Some "2024")) _ _ _ Hidx) as H.
  assert (Hfeed : (OSHA_INTERPRETATIONS_RSS, "Interpretation",
                   "OSHA Interpretations", "interpretations") ∈ feeds)
    by apply list_elem_of_here.
  assert (Hin : forall d, d ∈ [letter_a; letter_b; letter_c] ->
            d ∈ feed_documents Scenarios.online OSHA_INTERPRETATIONS_RSS
                  "Interpretation" "OSHA Interpretations")
    by (intros d Hd; exact Hd).
  split; [|split].
  - destruct (H _ _ _ _ letter_a Hfeed eq_refl) as [Ha _].
    { apply Hin. repeat constructor. }
    destruct (Ha 2024) as [Hiff _];
      [discriminate | discriminate | reflexivity |].
    apply Hiff. eexists. split.
    + unfold parsed_pub_date, letter_a, App.process_rss_item. simpl.
      by simplify_map_eq.
    + reflexivity.
  - destruct (H _ _ _ _ letter_b Hfeed eq_refl) as [Hb _].
    { apply Hin. repeat constructor. }
    destruct (Hb 2024) as [Hiff _];
      [discriminate | discriminate | reflexivity |].
    intros Hpage. apply Hiff in Hpage as (dt & Hdt & Hy).
    unfold parsed_pub_date, letter_b, App.process_rss_item in Hdt.
    simpl in Hdt. simplify_map_eq; try discriminate.
  - destruct (H _ _ _ _ letter_c Hfeed eq_refl) as [Hc _].
    { apply Hin. repeat constructor. }
    destruct (Hc 2024) as [_ Hnone];
      [discriminate | discriminate | reflexivity |].
    apply Hnone.
    unfold parsed_pub_date, letter_c, App.process_rss_item. simpl.
    by simplify_map_eq.
Defined.

(** ** The digest *)

Lemma fetch_recent_federal_register_outbox (w : world) (days : Z) (s : state) :
  outbox (snd (EmailDigest.fetch_recent_federal_register w days s)) = outbox s.
Proof.
  unfold EmailDigest.fetch_recent_federal_register. unfold_M.
  destruct (EmailDigest.cutoff_date w days) as [c|e]; simpl; [|reflexivity].
  destruct (get_federal_register w _) as [r|e]; simpl; [|reflexivity].
  destruct (raise_for_status r) as [[]|e]; simpl; [|reflexivity].
  destruct (response_json r) as [[results count|]|e]; try reflexivity.
  simpl. destruct (py_iter _) as [items|e]; [|reflexivity].
  by destruct (for_records _ items).
Qed.

Lemma fetch_recent_rss_outbox (w : world) (url content_type : string)
    (days : Z) (s : state) :
  outbox (snd (EmailDigest.fetch_recent_rss w url content_type days s))
  = outbox s.
Proof.
  unfold EmailDigest.fetch_recent_rss. unfold_M.
  destruct (EmailDigest.cutoff_date w days) as [c|e]; simpl; [|reflexivity].
  destruct (get_rss w url) as [r|e]; simpl; [|reflexivity].
  destruct (raise_for_status r) as [[]|e]; simpl; [|reflexivity].
  destruct (ET_fromstring r) as [items|e]; reflexivity.
Qed.

Lemma get_all_recent_documents_outbox (w : world) (days : Z) (s : state) :
  outbox (snd (EmailDigest.get_all_recent_documents w days s)) = outbox s.
Proof.
  unfold EmailDigest.get_all_recent_documents.
  unfold mbind, M_bind, bind, mret, M_ret, ret.
  pose proof (fetch_recent_federal_register_outbox w days s) as H1.
  destruct (EmailDigest.fetch_recent_federal_register w days s)
    as [[fr|e] s1]; simpl in *; [|exact H1].
  pose proof (fetch_recent_rss_outbox w OSHA_INTERPRETATIONS_RSS
                "Interpretation" days s1) as H2.
  destruct (EmailDigest.fetch_recent_rss w OSHA_INTERPRETATIONS_RSS _ days s1)
    as [[interp|e] s2]; simpl in *; [|congruence].
  pose proof (fetch_recent_rss_outbox w OSHA_DIRECTIVES_RSS
                "Directive" days s2) as H3.
  destruct (EmailDigest.fetch_recent_rss w OSHA_DIRECTIVES_RSS _ days s2)
    as [[direc|e] s3]; simpl in *; congruence.
Qed.

(** C7.  When the lookback fetch yields no document, the digest prints
    that there is nothing to report and returns true, and the e-mail
    transport is not invoked: the outbox is what it was before the run. *)
Theorem send_digest_nothing_new (w : world) (days : Z) (s s1 : state) :
  EmailDigest.key_missing w = false ->
  EmailDigest.get_all_recent_documents w days s = (Returns [], s1) ->
  EmailDigest.send_digest w days s =
    (Returns true,
     mkState (stdout s1 ++ ["No new documents to report"]) (outbox s)) /\
  outbox (snd (EmailDigest.send_digest w days s)) = outbox s.
Proof.
  intros Hkey Hfetch.
  pose proof (get_all_recent_documents_outbox w days s) as Hout.
  rewrite Hfetch in Hout. simpl in Hout.
  assert (Hrun : EmailDigest.send_digest w days s =
            (Returns true,
             mkState (stdout s1 ++ ["No new documents to report"]) (outbox s))).
  { unfold EmailDigest.send_digest. rewrite Hkey.
    unfold mbind, M_bind, bind. rewrite Hfetch. simpl.
    unfold print. simpl. by rewrite Hout. }
  split; [exact Hrun | by rewrite Hrun].
Qed.

(** With every source timing out there is nothing to report: the digest
    returns true and sends nothing. *)
Lemma send_digest_nothing_new_witness :
  EmailDigest.send_digest Examples.offline 1 (mkState [] []) =
    (Returns true,
     mkState
       ["Error fetching Federal Register: timed out";
        "Error fetching RSS: timed out";
        "Error fetching RSS: timed out";
        "No new documents to report"] []).
Proof.
  apply (send_digest_nothing_new Examples.offline 1 (mkState [] [])
           (mkState ["Error fetching Federal Register: timed out";
                     "Error fetching RSS: timed out";
                     "Error fetching RSS: timed out"] []));
    reflexivity.
Defined.

(** ** The bodies of the digest *)

Lemma append_assoc (a b c : string) : (a ++ b) ++ c = a ++ b ++ c.
Proof.
  induction a as [|x a IH]; [reflexivity|].
  change (String x ((a ++ b) ++ c) = String x (a ++ b ++ c)). by f_equal.
Qed.

Lemma append_empty_r (a : string) : a ++ "" = a.
Proof.
  induction a as [|x a IH]; [reflexivity|].
  change (String x (a ++ "") = String x a). by f_equal.
Qed.



Lemma length_append (a b : string) :
  String.length (a ++ b) = (String.length a + String.length b)%nat.
Proof.
  induction a as [|x a IH]; [reflexivity|].
  change (S (String.length (a ++ b))
          = S (String.length a + String.length b)). by f_equal.
Qed.

Lemma render_items_cons (section a : string) (d : EmailDigest.digest_doc)
    (items : list EmailDigest.digest_doc) :
  EmailDigest.d_abstract d = PStr a ->
  EmailDigest.render_items section (d :: items) =
    EmailDigest.render_items
      (section ++ EmailDigest.render_item d (shown_abstract (PStr a))) items.
Proof.
  intros Ha.
  change (EmailDigest.render_items section (d :: items)) with
    (match EmailDigest.truncate_abstract (EmailDigest.d_abstract d) with
     | Returns abstract =>
         EmailDigest.render_items
           (section ++ EmailDigest.render_item d abstract) items
     | Raises e => Raises e
     end).
  rewrite Ha.
  unfold shown_abstract, EmailDigest.truncate_abstract, EmailDigest.py_len.
  cbv beta iota. destruct (Nat.ltb 300 (String.length a)); reflexivity.
Qed.

Lemma render_items_text (section : string)
    (items : list EmailDigest.digest_doc) :
  Forall (fun d => is_text (EmailDigest.d_abstract d) = true) items ->
  EmailDigest.render_items section items =
    Returns
      (section
       ++ concat_str
            (map (fun d =>
                    EmailDigest.render_item d
                      (shown_abstract (EmailDigest.d_abstract d)))
               items)).
Proof.
  intros Hitems. revert section.
  induction Hitems as [|d items Hd Hitems IH]; intros section.
  - cbn [map concat_str foldr EmailDigest.render_items].
    by rewrite append_empty_r.
  - destruct (EmailDigest.d_abstract d) as [| | |a|] eqn:Ha;
      try discriminate.
    rewrite (render_items_cons section a d items Ha), IH.
    cbn [map concat_str foldr]. rewrite Ha, append_assoc. reflexivity.
Qed.

Lemma of_type_text (label : string) (documents : list EmailDigest.digest_doc) :
  Forall (fun d => is_text (EmailDigest.d_abstract d) = true) documents ->
  Forall (fun d => is_text (EmailDigest.d_abstract d) = true)
    (EmailDigest.of_type label documents).
Proof.
  intros H. unfold EmailDigest.of_type.
  rewrite Forall_forall in *. intros d Hd.
  apply list_elem_of_In, filter_In in Hd as [Hd _].
  by apply H, list_elem_of_In.
Qed.

Lemma render_section_text (title doc_type color : string)
    (documents : list EmailDigest.digest_doc) :
  Forall (fun d => is_text (EmailDigest.d_abstract d) = true) documents ->
  EmailDigest.render_section title (EmailDigest.of_type doc_type documents)
    color = Returns (html_section documents (title, doc_type, color)).
Proof.
  intros H. apply (of_type_text doc_type) in H.
  unfold EmailDigest.render_section, html_section.
  destruct (EmailDigest.of_type doc_type documents) as [|d items];
    [reflexivity|].
  by rewrite render_items_text.
Qed.







(** A group of [build_email_html] holds documents of its type only, so it
    is the same group when the documents without a section are left out. *)
Lemma of_type_has_section (label : string)
    (documents : list EmailDigest.digest_doc) :
  label ∈ map (fun sec : string * string * string => snd (fst sec))
            display_order ->
  EmailDigest.of_type label documents =
    EmailDigest.of_type label
      (List.filter (fun d => has_section (EmailDigest.d_type d)) documents).
Proof.
  intros Hlabel. unfold EmailDigest.of_type.
  induction documents as [|d documents IH]; [reflexivity|].
  cbn [List.filter].
  destruct (py_eq_str (EmailDigest.d_type d) label) eqn:Hd.
  - assert (Hs : has_section (EmailDigest.d_type d) = true).
    { unfold has_section. apply existsb_exists.
      apply list_elem_of_fmap in Hlabel as (sec & -> & Hsec).
      exists sec. split; [by apply list_elem_of_In|exact Hd]. }
    rewrite Hs. cbn [List.filter]. by rewrite Hd, IH.
  - destruct (has_section (EmailDigest.d_type d)); [|exact IH].
    cbn [List.filter]. by rewrite Hd.
Qed.

(** The HTML body is built from the documents that have a section; the
    others only count in the header. *)
Lemma build_email_html_shown (w : world)
    (documents : list EmailDigest.digest_doc) :
  let shown :=
    List.filter (fun d => has_section (EmailDigest.d_type d)) documents in
  Forall (fun d => is_text (EmailDigest.d_abstract d) = true) shown ->
  EmailDigest.build_email_html w documents =
    Returns
      (EmailDigest.html_header (strftime_A_B_d_Y (now w)) (length documents)
       ++ concat_str (map (html_section shown) display_order)
       ++ EmailDigest.html_footer).
Proof.
  intros shown Htext.
  unfold EmailDigest.build_email_html.
  rewrite !(fun label H => of_type_has_section label documents H)
    by (unfold display_order; simpl; repeat constructor).
  fold shown.
  rewrite !render_section_text by exact Htext.
  unfold EmailDigest.and_then, display_order.
  cbn [map concat_str foldr].
  rewrite !append_assoc. reflexivity.
Qed.









Lemma text_items_concat (text : string)
    (documents : list EmailDigest.digest_doc) :
  EmailDigest.text_items text documents =
    text ++ concat_str (map EmailDigest.text_item documents).
Proof.
  revert text. induction documents as [|d documents IH]; intros text.
  - cbn [EmailDigest.text_items map concat_str foldr].
    by rewrite append_empty_r.
  - cbn [EmailDigest.text_items map concat_str foldr].
    by rewrite IH, append_assoc.
Qed.

Lemma section_heading_not_empty (title : string) (n : nat) (color rest : string) :
  EmailDigest.section_heading title n color ++ rest <> "".
Proof.
  intros H. apply (f_equal String.length) in H.
  unfold EmailDigest.section_heading in H.
  rewrite !length_append in H. simpl in H. lia.
Qed.

(** C9 (as amended).  For a document list whose abstracts are text, the
    HTML body is the header, then the sections Final Rules, Proposed
    Rules, Letters of Interpretation, Directives and Notices in this order,
    then the footer; a section is empty exactly when its group has no
    document, and otherwise holds the heading with the count and the items
    of the group.  The plain-text body is not grouped: it lists every
    document once, in the order of the input list, each under its type
    label. *)
Theorem digest_bodies (w : world) (documents : list EmailDigest.digest_doc) :
  Forall (fun d => is_text (EmailDigest.d_abstract d) = true) documents ->
  EmailDigest.build_email_html w documents =
    Returns
      (EmailDigest.html_header (strftime_A_B_d_Y (now w)) (length documents)
       ++ concat_str (map (html_section documents) display_order)
       ++ EmailDigest.html_footer) /\
  (forall sec, sec ∈ display_order ->
     html_section documents sec = "" <->
     EmailDigest.of_type (snd (fst sec)) documents = []) /\
  EmailDigest.build_email_text w documents =
    EmailDigest.text_header (strftime_A_B_d_Y (now w)) (length documents)
    ++ concat_str (map EmailDigest.text_item documents)
    ++ EmailDigest.text_footer.
Proof.
  intros Htext. split; [|split].
  - unfold EmailDigest.build_email_html.
    rewrite !render_section_text by exact Htext.
    unfold EmailDigest.and_then, display_order.
    cbn [map concat_str foldr].
    rewrite !append_assoc. reflexivity.
  - intros [[title doc_type] color] _. unfold html_section. simpl.
    destruct (EmailDigest.of_type doc_type documents) as [|d items].
    + split; reflexivity.
    + split; [|discriminate].
      intros H. by apply section_heading_not_empty in H.
  - unfold EmailDigest.build_email_text.
    by rewrite text_items_concat, append_assoc.
Qed.

(** A notice followed by a rule: the text body lists the notice first. *)
Lemma digest_bodies_witness :
  let notice :=
    EmailDigest.mkDoc (PStr "Notice of meeting") (PStr "Notice") (PStr "")
      (PStr "https://example.org/n") (PStr "") (PStr "May 01, 2024")
      (PStr "") (PStr "Federal Register") in
  let rule :=
    EmailDigest.mkDoc (PStr "Final rule on silica") (PStr "Rule")
      (PStr "Amends the standard.") (PStr "https://example.org/r") (PStr "")
      (PStr "May 01, 2024") (PStr "2024-06-01") (PStr "Federal Register") in
  EmailDigest.build_email_text Examples.offline [notice; rule] =
    EmailDigest.text_header "Wednesday, May 01, 2024" 2
    ++ concat_str (map EmailDigest.text_item [notice; rule])
    ++ EmailDigest.text_footer.
Proof.
  intros notice rule.
  apply (digest_bodies Examples.offline [notice; rule]).
  repeat constructor.
Defined.

(** C9, as stated, fails for the plain-text body: for a notice followed by
    a rule the display order puts the rule first, while the text body
    lists the notice first. *)
Lemma text_body_not_in_display_order :
  let notice :=
    EmailDigest.mkDoc (PStr "Notice of meeting") (PStr "Notice") (PStr "")
      (PStr "https://example.org/n") (PStr "") (PStr "May 01, 2024")
      (PStr "") (PStr "Federal Register") in
  let rule :=
    EmailDigest.mkDoc (PStr "Final rule on silica") (PStr "Rule")
      (PStr "Amends the standard.") (PStr "https://example.org/r") (PStr "")
      (PStr "May 01, 2024") (PStr "2024-06-01") (PStr "Federal Register") in
  in_display_order [notice; rule] = [rule; notice] /\
  EmailDigest.build_email_text Examples.offline [notice; rule] =
    EmailDigest.text_header "Wednesday, May 01, 2024" 2
    ++ EmailDigest.text_item notice ++ EmailDigest.text_item rule
    ++ EmailDigest.text_footer /\
  EmailDigest.build_email_text Examples.offline [notice; rule] <>
    EmailDigest.build_email_text Examples.offline
      (in_display_order [notice; rule]).
Proof.
  intros notice rule. split; [reflexivity|]. split.
  - vm_compute. reflexivity.
  - apply String.eqb_neq. vm_compute. reflexivity.
Qed.

(** An abstract that is not text (the Federal Register sends [null] for a
    document without one) has no length: the HTML body is not built and
    the exception leaves [send_digest], which builds the bodies outside
    its handler. *)
Lemma build_email_html_null_abstract :
  let rule :=
    EmailDigest.mkDoc (PStr "Final rule on silica") (PStr "Rule") PNone
      (PStr "https://example.org/r") (PStr "") (PStr "May 01, 2024")
      (PStr "") (PStr "Federal Register") in
  EmailDigest.build_email_html Examples.offline [rule] =
    Raises (mkExn TypeError "object has no len()").
Proof. reflexivity. Qed.

(** ** The publication-date fields of a Federal Register document *)

Lemma process_federal_register_lookup (w : world) (doc : document)
    (k : string) :
  k <> "effective_status" ->
  App.process_federal_register w doc !! k =
  App.add_publication_date w doc
    (<["content_type" := dict_get_default doc "type" (PStr "")]>
     (<["source" := PStr "Federal Register"]>
     (<["pdf_url" := dict_get_default doc "pdf_url" (PStr "")]>
     (<["url" := dict_get_default doc "html_url" (PStr "")]>
     (<["abstract" := dict_get_default doc "abstract" (PStr "")]>
     (<["title" := dict_get_default doc "title" (PStr "")]> ∅)))))) !! k.
Proof.
  intros Hk. unfold App.process_federal_register.
  by rewrite lookup_insert_ne.
Qed.



(** * Further properties of the code *)

Lemma lex_compare_refl (a : list Z) : lex_compare a a = Eq.
Proof. induction a as [|x a IH]; simpl; [done|]. by rewrite Z.compare_refl. Qed.

Lemma naive_gtb_irrefl (a : naive) : naive_gtb a a = false.
Proof. unfold naive_gtb, naive_compare. by rewrite lex_compare_refl. Qed.

Lemma insert_desc_with_key (k : naive) (x : naive * document)
    (l : list (naive * document)) :
  List.filter (fun p => bool_decide (fst p = k)) (App.insert_desc x l) =
  List.filter (fun p => bool_decide (fst p = k)) (x :: l).
Proof.
  induction l as [|y l IH]; [reflexivity|].
  cbn [App.insert_desc]. destruct (naive_gtb (fst y) (fst x)) eqn:Hgt;
    [|reflexivity].
  cbn [List.filter] in *. rewrite IH.
  destruct (bool_decide_reflect (fst x = k)) as [Hx|Hx];
    destruct (bool_decide_reflect (fst y = k)) as [Hy|Hy]; try reflexivity.
  exfalso. rewrite Hx, Hy, naive_gtb_irrefl in Hgt. discriminate.
Qed.

Lemma sort_desc_with_key (k : naive) (l : list (naive * document)) :
  List.filter (fun p => bool_decide (fst p = k)) (App.sort_desc l) =
  List.filter (fun p => bool_decide (fst p = k)) l.
Proof.
  induction l as [|x l IH]; [reflexivity|].
  cbn [App.sort_desc foldr]. fold (App.sort_desc l).
  rewrite insert_desc_with_key. cbn [List.filter]. by rewrite IH.
Qed.

Lemma filter_map_snd_keyed (k : naive) (l : list (naive * document)) :
  Forall (fun p => fst p = key_of (snd p)) l ->
  with_key k (map snd l) =
  map snd (List.filter (fun p => bool_decide (fst p = k)) l).
Proof.
  induction 1 as [|p l Hp Hl IH]; [reflexivity|].
  unfold with_key in *. cbn [map List.filter]. rewrite <- Hp, IH.
  by destruct (bool_decide (fst p = k)).
Qed.

Lemma decorated_keyed (l : list document) :
  Forall (fun p : naive * document => fst p = key_of (snd p))
    (map (fun d => (key_of d, d)) l).
Proof. induction l; constructor; done. Qed.

Lemma sort_desc_keyed (l : list (naive * document)) :
  Forall (fun p => fst p = key_of (snd p)) l ->
  Forall (fun p => fst p = key_of (snd p)) (App.sort_desc l).
Proof. intros H. by rewrite (sort_desc_perm l). Qed.

(** X1.  The sort is stable: for every sort key, the documents with that
    key stand in the sorted list in the order they had in the input (so
    documents of the same date, and dateless documents among themselves,
    keep the order of the fetch). *)
Theorem sort_documents_stable (l : list document) (k : naive) :
  Forall (fun d => sortable d = true) l ->
  exists l', App.sort_documents l = Returns l' /\
             with_key k l' = with_key k l.
Proof.
  intros Hl. eexists. split; [by apply sort_documents_sortable|].
  rewrite filter_map_snd_keyed
    by apply sort_desc_keyed, decorated_keyed.
  rewrite sort_desc_with_key.
  rewrite <- filter_map_snd_keyed by apply decorated_keyed.
  by rewrite map_map, map_id.
Qed.

Lemma sort_desc_sorted_id (l : list (naive * document)) :
  StronglySorted key_ge l -> App.sort_desc l = l.
Proof.
  induction 1 as [|x l Hs IH Hx]; [reflexivity|].
  cbn [App.sort_desc foldr]. fold (App.sort_desc l). rewrite IH.
  destruct l as [|y l']; [reflexivity|].
  inversion Hx as [|? ? Hxy _]; subst. unfold key_ge in Hxy.
  cbn [App.insert_desc]. by rewrite Hxy.
Qed.

Lemma map_keyed (l : list (naive * document)) :
  Forall (fun p => fst p = key_of (snd p)) l ->
  map (fun d => (key_of d, d)) (map snd l) = l.
Proof.
  induction 1 as [|[k d] l Hp Hl IH]; [reflexivity|].
  simpl in *. by rewrite IH, Hp.
Qed.

(** X2.  Sorting is idempotent: sorting a list that [sort_documents]
    returned gives the same list. *)
Theorem sort_documents_idempotent (l l' : list document) :
  Forall (fun d => sortable d = true) l ->
  App.sort_documents l = Returns l' ->
  App.sort_documents l' = Returns l'.
Proof.
  intros Hl Hsort. rewrite (sort_documents_sortable l Hl) in Hsort.
  injection Hsort as <-.
  set (kl := map (fun d => (key_of d, d)) l).
  assert (Hkeyed : Forall (fun p => fst p = key_of (snd p)) (App.sort_desc kl))
    by apply sort_desc_keyed, decorated_keyed.
  rewrite sort_documents_sortable.
  - by rewrite (map_keyed _ Hkeyed), (sort_desc_sorted_id _ (sort_desc_sorted kl)).
  - rewrite (sort_desc_perm kl). unfold kl. by rewrite map_map, map_id.
Qed.

Lemma filter_StronglySorted {A} (R : A -> A -> Prop) (p : A -> bool)
    (l : list A) :
  StronglySorted R l -> StronglySorted R (List.filter p l).
Proof.
  induction 1 as [|x l Hs IH Hx]; simpl; [constructor|].
  destruct (p x); [|exact IH]. constructor; [exact IH|].
  rewrite Forall_forall in *. intros y Hy.
  apply list_elem_of_In, filter_In in Hy as [Hy _].
  by apply Hx, list_elem_of_In.
Qed.

Lemma sorted_newest_first (l : list document) :
  newest_first (map snd (App.sort_desc (map (fun d => (key_of d, d)) l))).
Proof.
  set (kl := map (fun d => (key_of d, d)) l).
  pose proof (sort_desc_sorted kl) as Hs.
  pose proof (sort_desc_keyed kl (decorated_keyed l)) as Hk.
  unfold newest_first. revert Hk.
  induction Hs as [|p ps Hs IH Hp]; intros Hk; simpl; [constructor|].
  inversion Hk as [|? ? Hp1 Hk']; subst.
  constructor; [by apply IH|].
  apply Forall_forall. intros y Hy.
  apply list_elem_of_fmap in Hy as (q & -> & Hq).
  rewrite Forall_forall in Hk', Hp.
  rewrite <- Hp1, <- (Hk' q Hq). apply naive_gtb_geb. by apply Hp.
Qed.

(** X3.  The sorted list is in descending order of the sort keys, and so is
    each of the five groups [index] makes from it. *)
Theorem groups_newest_first (l l' : list document) :
  Forall (fun d => sortable d = true) l ->
  App.sort_documents l = Returns l' ->
  newest_first l' /\ Forall newest_first (groups l').
Proof.
  intros Hl Hsort. rewrite (sort_documents_sortable l Hl) in Hsort.
  injection Hsort as <-.
  pose proof (sorted_newest_first l) as Hs. split; [exact Hs|].
  unfold groups. apply Forall_forall. intros g Hg.
  apply list_elem_of_fmap in Hg as (label & -> & _).
  by apply filter_StronglySorted.
Qed.

(** X4.  A document made from a Federal Register record has the seven keys
    title, abstract, url, pdf_url, source, content_type and
    effective_status, and the three date keys exactly when the raw
    [publication_date] is truthy; its source is "Federal Register", and
    title, abstract, url, pdf_url and content_type are the raw title,
    abstract, html_url, pdf_url and type as they came (the empty string
    where the raw key is missing). *)
Theorem process_federal_register_keys (w : world) (doc : document) :
  dom (App.process_federal_register w doc) =
    (if truthy (dict_get doc "publication_date")
     then base_keys ∪ date_keys else base_keys) /\
  App.process_federal_register w doc !! "source"
    = Some (PStr "Federal Register") /\
  App.process_federal_register w doc !! "title"
    = Some (default (PStr "") (doc !! "title")) /\
  App.process_federal_register w doc !! "abstract"
    = Some (default (PStr "") (doc !! "abstract")) /\
  App.process_federal_register w doc !! "url"
    = Some (default (PStr "") (doc !! "html_url")) /\
  App.process_federal_register w doc !! "pdf_url"
    = Some (default (PStr "") (doc !! "pdf_url")) /\
  App.process_federal_register w doc !! "content_type"
    = Some (default (PStr "") (doc !! "type")).
Proof.
  split.
  - unfold App.process_federal_register, App.add_publication_date.
    destruct (truthy _); [destruct (parse_value _ _)|];
      rewrite !dom_insert_L, dom_empty_L; unfold base_keys, date_keys;
      set_solver.
  - repeat split;
      rewrite process_federal_register_lookup by done;
      unfold App.add_publication_date, dict_get_default;
      repeat case_match; by simplify_map_eq.
Qed.

Lemma lstrip_whitespace (s : string) :
  (forall c, In c (String.list_ascii_of_string s) -> isspace c = true) ->
  lstrip s = "".
Proof.
  induction s as [|c s IH]; [reflexivity|]. intros H. cbn [lstrip].
  rewrite (H c) by (left; reflexivity). apply IH.
  intros c' Hc'. apply H. right. exact Hc'.
Qed.

(** X5.  A document made from a feed item always has all ten keys, with an
    empty pdf_url and effective_status and the source name given.  When
    the stripped [pubDate] is non-empty and parses, the three date fields
    are the parsed date, its long form and its relative label; when it is
    empty or does not parse they are [None] and two empty strings.  A
    [pubDate] of whitespace only is empty after stripping. *)
Theorem process_rss_item_fields (w : world) (content_type source_name : string)
    (item : rss_item) :
  let p := App.process_rss_item w content_type source_name item in
  let pub_date_str := strip (findtext (item_pubDate item)) in
  dom p = base_keys ∪ date_keys /\
  p !! "pdf_url" = Some (PStr "") /\
  p !! "effective_status" = Some (PStr "") /\
  p !! "source" = Some (PStr source_name) /\
  (forall dt, pub_date_str <> "" -> date_parse w pub_date_str = Some dt ->
     p !! "pub_date" = Some (PDate dt) /\
     p !! "pub_date_formatted" = Some (PStr (strftime_B_d_Y (dt_naive dt))) /\
     p !! "time_ago" = Some (PStr (App.format_time_ago (now w) dt))) /\
  (pub_date_str = "" \/ date_parse w pub_date_str = None ->
     p !! "pub_date" = Some PNone /\
     p !! "pub_date_formatted" = Some (PStr "") /\
     p !! "time_ago" = Some (PStr "")) /\
  ((forall c, In c (String.list_ascii_of_string (findtext (item_pubDate item))) ->
      isspace c = true) -> pub_date_str = "").
Proof.
  intros p pub_date_str. unfold p, App.process_rss_item. fold pub_date_str.
  split; [|split; [|split; [|split; [|split; [|split]]]]].
  - repeat case_match; rewrite !dom_insert_L, dom_empty_L;
      unfold base_keys, date_keys; set_solver.
  - repeat case_match; by simplify_map_eq.
  - repeat case_match; by simplify_map_eq.
  - repeat case_match; by simplify_map_eq.
  - intros dt Hne Hparse. apply String.eqb_neq in Hne.
    rewrite Hne, Hparse. simpl. by simplify_map_eq.
  - intros [Hempty|Hparse].
    + rewrite Hempty. simpl. by simplify_map_eq.
    + rewrite Hparse. destruct (negb _); by simplify_map_eq.
  - intros Hws. unfold pub_date_str, strip.
    by rewrite lstrip_whitespace.
Qed.

(** X6.  On a response whose status is no error and whose body is a JSON
    object, the Federal Register client prints nothing.  When [results]
    holds objects only, or is missing, it returns one document per record,
    in order, together with the [count] member as the body has it (0 when
    it is missing), whatever the number of records.  When [results] is
    anything else (null, a number, text, an array with an element that is
    not an object) the [TypeError] or [AttributeError] of the loop is not
    handled and reaches the caller. *)
Theorem fetch_federal_register_success (w : world) (year : option string)
    (doc_types : option (list string)) (limit : Z) (s : state)
    (r : response json_body) (results count : option json_member) :
  get_federal_register w (request_of w year doc_types limit) = Returns r ->
  bad_status r = false ->
  content r = ValidJSON (JObject results count) ->
  (forall docs, records_of results = Some docs ->
     App.fetch_federal_register w year doc_types limit s =
       (Returns (map (App.process_federal_register w) docs,
                 default (JScalar (PInt 0)) count), s)) /\
  (records_of results = None ->
     exists e,
       App.fetch_federal_register w year doc_types limit s = (Raises e, s) /\
       (exn_cls e = TypeError \/ exn_cls e = AttributeError)).
Proof.
  intros Hget Hstatus Hbody.
  unfold App.fetch_federal_register, request_of in *. unfold_M.
  rewrite Hget. simpl. rewrite (raise_for_status_good r Hstatus). simpl.
  unfold response_json. rewrite Hbody. simpl. split.
  - intros docs Hdocs.
    destruct (py_iter_records results docs Hdocs) as (items & -> & Hitems).
    by rewrite (for_records_map _ items docs Hitems).
  - intros Hdocs.
    destruct (py_iter_no_records
                (fun doc => [App.process_federal_register w doc])
                results Hdocs) as (e & He & Hcls).
    exists e. split; [|exact Hcls].
    destruct (py_iter _) as [items|e']; simpl.
    + rewrite He. simpl.
      destruct Hcls as [Hc|Hc]; unfold is_RequestException; by rewrite Hc.
    + injection He as ->. simpl.
      destruct Hcls as [Hc|Hc]; unfold is_RequestException; by rewrite Hc.
Qed.

(** X7.  The handler of the web client covers the exceptions of [requests]
    only: an exception of another class raised by [requests.get], and the
    [AttributeError] of a body that is valid JSON but not an object, leave
    [fetch_federal_register] and reach its caller; nothing is printed. *)
Theorem fetch_federal_register_propagates (w : world) (year : option string)
    (doc_types : option (list string)) (limit : Z) (s : state) :
  (forall e,
     get_federal_register w (request_of w year doc_types limit) = Raises e ->
     is_RequestException e = false ->
     App.fetch_federal_register w year doc_types limit s = (Raises e, s)) /\
  (forall r,
     get_federal_register w (request_of w year doc_types limit) = Returns r ->
     bad_status r = false ->
     content r = ValidJSON JOther ->
     exists e, exn_cls e = AttributeError /\
       App.fetch_federal_register w year doc_types limit s = (Raises e, s)).
Proof.
  split.
  - intros e Hget He. unfold App.fetch_federal_register, request_of in *.
    unfold_M. rewrite Hget. simpl. by rewrite He.
  - intros r Hget Hstatus Hbody.
    unfold App.fetch_federal_register, request_of in *. unfold_M.
    rewrite Hget. simpl. rewrite (raise_for_status_good r Hstatus). simpl.
    unfold response_json. rewrite Hbody. simpl.
    eexists. split; [|reflexivity]. reflexivity.
Qed.

(** The digest clients return what the response holds for the window. *)
Lemma fetch_recent_federal_register_returns (w : world) (days cutoff : Z) :
  EmailDigest.cutoff_date w days = Returns cutoff ->
  returns (EmailDigest.fetch_recent_federal_register w days)
    (recent_of_response w cutoff
       (get_federal_register w
          (mkParams ["RULE"; "PRORULE"; "NOTICE"] 50 None))).
Proof.
  intros Hc s. unfold EmailDigest.fetch_recent_federal_register,
    recent_of_response. unfold_M. rewrite Hc. simpl.
  destruct (get_federal_register w _) as [r|e]; simpl; [|eauto].
  destruct (bad_status r) eqn:Hbad; simpl.
  - destruct (raise_for_status_bad r Hbad) as (msg & ->). simpl. eauto.
  - rewrite (raise_for_status_good r Hbad). simpl.
    unfold response_json. destruct (content r) as [msg|[results count|]];
      simpl; [eauto| |eauto].
    destruct (records_of results) as [docs|] eqn:Hdocs.
    + destruct (py_iter_records results docs Hdocs) as (items & -> & Hitems).
      rewrite (for_records_omap _ items docs Hitems). simpl.
      exists []. by rewrite app_nil_r; destruct s.
    + destruct (py_iter_no_records
                  (fun doc => option_list
                     (EmailDigest.recent_federal_register_doc w cutoff doc))
                  results Hdocs) as (e & He & _).
      destruct (py_iter _) as [items|e']; simpl.
      * rewrite He. simpl. eauto.
      * injection He as ->. simpl. eauto.
Qed.

Lemma fetch_recent_rss_returns (w : world) (url content_type : string)
    (days cutoff : Z) :
  EmailDigest.cutoff_date w days = Returns cutoff ->
  returns (EmailDigest.fetch_recent_rss w url content_type days)
    (recent_of_feed w content_type cutoff (get_rss w url)).
Proof.
  intros Hc s. unfold EmailDigest.fetch_recent_rss, recent_of_feed.
  unfold_M. rewrite Hc. simpl.
  destruct (get_rss w url) as [r|e]; simpl; [|eauto].
  destruct (bad_status r) eqn:Hbad; simpl.
  - destruct (raise_for_status_bad r Hbad) as (msg & ->). simpl. eauto.
  - rewrite (raise_for_status_good r Hbad). simpl.
    unfold ET_fromstring. destruct (content r) as [msg|items]; simpl; [eauto|].
    exists []. by rewrite app_nil_r; destruct s.
Qed.

Lemma get_all_recent_documents_window (w : world) (days cutoff : Z) :
  EmailDigest.cutoff_date w days = Returns cutoff ->
  returns (EmailDigest.get_all_recent_documents w days)
    (recent_documents w cutoff).
Proof.
  intros Hc. unfold EmailDigest.get_all_recent_documents, recent_documents.
  eapply returns_bind; [by apply fetch_recent_federal_register_returns|].
  eapply returns_bind; [by apply fetch_recent_rss_returns|].
  eapply returns_bind; [by apply fetch_recent_rss_returns|].
  apply returns_ret.
Qed.

(** X8.  Once the cutoff date is in range, the fetch of the digest never
    raises, whatever the three sources answer: it returns the documents of
    the window, those of the Federal Register first, then the
    interpretations, then the directives, and sends nothing. *)
Theorem digest_fetch_never_raises (w : world) (days cutoff : Z) (s : state) :
  EmailDigest.cutoff_date w days = Returns cutoff ->
  exists lines,
    EmailDigest.get_all_recent_documents w days s =
      (Returns (recent_documents w cutoff),
       mkState (stdout s ++ lines) (outbox s)).
Proof. intros Hc. by apply get_all_recent_documents_window. Qed.

(** X9.  A lookback that takes the cutoff date out of the range of
    [datetime] is not handled: the [OverflowError] is raised before the
    first handler is entered and leaves [send_digest]; nothing is printed
    or sent. *)
Theorem send_digest_lookback_out_of_range (w : world) (days : Z) (s : state)
    (e : exn) :
  EmailDigest.key_missing w = false ->
  EmailDigest.cutoff_date w days = Raises e ->
  EmailDigest.send_digest w days s = (Raises e, s) /\
  exn_cls e = OverflowError /\
  (days * us_per_day > total_us (now w) - EmailDigest.us_min \/
   days * us_per_day < total_us (now w) - EmailDigest.us_max).
Proof.
  intros Hkey Hc. split; [|split].
  - unfold EmailDigest.send_digest. rewrite Hkey.
    unfold EmailDigest.get_all_recent_documents,
      EmailDigest.fetch_recent_federal_register.
    unfold_M. by rewrite Hc.
  - unfold EmailDigest.cutoff_date in Hc.
    destruct (_ && _); [discriminate|]. by injection Hc as <-.
  - unfold EmailDigest.cutoff_date in Hc.
    destruct (_ && _) eqn:Hr; [discriminate|].
    apply andb_false_iff in Hr as [Hr|Hr];
      [apply Z.leb_gt in Hr | apply Z.leb_gt in Hr]; lia.
Qed.

Lemma omap_sublist {A B} (f g : A -> option B) (l : list A) :
  (forall x y, f x = Some y -> g x = Some y) ->
  sublist (omap f l) (omap g l).
Proof.
  intros Hfg. induction l as [|x l IH]; simpl; [constructor|].
  destruct (f x) as [y|] eqn:Hf.
  - rewrite (Hfg x y Hf). by constructor.
  - destruct (g x); [by constructor | exact IH].
Qed.

Lemma is_recent_mono (c c' : Z) (pub_date : datetime) :
  c' <= c -> EmailDigest.is_recent c pub_date = true ->
  EmailDigest.is_recent c' pub_date = true.
Proof. unfold EmailDigest.is_recent. rewrite !Z.leb_le. lia. Qed.

Lemma recent_of_response_mono (w : world) (c c' : Z)
    (o : outcome (response json_body)) :
  c' <= c ->
  sublist (recent_of_response w c o) (recent_of_response w c' o).
Proof.
  intros Hc. unfold recent_of_response.
  destruct o as [r|e]; [|constructor].
  destruct (bad_status r); [constructor|].
  destruct (content r) as [msg|[results count|]]; try constructor.
  destruct (records_of results) as [docs|]; [|constructor].
  apply omap_sublist. intros raw d.
  unfold EmailDigest.recent_federal_register_doc.
  destruct (truthy _); [|discriminate].
  destruct (parse_value _ _) as [pd|]; [|discriminate].
  destruct (EmailDigest.is_recent c pd) eqn:Hr; [|discriminate].
  by rewrite (is_recent_mono c c' pd Hc Hr).
Qed.

Lemma recent_of_feed_mono (w : world) (content_type : string) (c c' : Z)
    (o : outcome (response xml_body)) :
  c' <= c ->
  sublist (recent_of_feed w content_type c o)
    (recent_of_feed w content_type c' o).
Proof.
  intros Hc. unfold recent_of_feed.
  destruct o as [r|e]; [|constructor].
  destruct (bad_status r); [constructor|].
  destruct (content r) as [msg|items]; [constructor|].
  apply omap_sublist. intros item d.
  unfold EmailDigest.recent_rss_doc.
  destruct (negb _); [|discriminate].
  destruct (date_parse _ _) as [pd|]; [|discriminate].
  destruct (EmailDigest.is_recent c pd) eqn:Hr; [|discriminate].
  by rewrite (is_recent_mono c c' pd Hc Hr).
Qed.

(** X10.  A longer lookback keeps at least the documents of a shorter one,
    in the same order. *)
Theorem lookback_monotone (w : world) (days days' c c' : Z) :
  days <= days' ->
  EmailDigest.cutoff_date w days = Returns c ->
  EmailDigest.cutoff_date w days' = Returns c' ->
  returns (EmailDigest.get_all_recent_documents w days)
    (recent_documents w c) /\
  returns (EmailDigest.get_all_recent_documents w days')
    (recent_documents w c') /\
  sublist (recent_documents w c) (recent_documents w c').
Proof.
  intros Hdays Hc Hc'.
  split; [by apply get_all_recent_documents_window|].
  split; [by apply get_all_recent_documents_window|].
  assert (c' <= c).
  { unfold EmailDigest.cutoff_date in Hc, Hc'.
    destruct (_ && _) in Hc; [|discriminate].
    destruct (_ && _) in Hc'; [|discriminate].
    injection Hc as <-. injection Hc' as <-. unfold us_per_day. nia. }
  unfold recent_documents.
  repeat apply sublist_app;
    first [by apply recent_of_response_mono | by apply recent_of_feed_mono].
Qed.

(** X11.  A run of [send_digest] hands at most one message to the
    transport, and that message goes from the configured sender to the
    configured recipient alone. *)
Theorem send_digest_at_most_one_message (w : world) (days : Z) (s : state) :
  let s' := snd (EmailDigest.send_digest w days s) in
  outbox s' = outbox s \/
  exists m, outbox s' = (outbox s ++ [m])%list /\
            email_from m = FROM_EMAIL w /\
            email_to m = [ALERT_EMAIL w].
Proof.
  unfold EmailDigest.send_digest.
  destruct (EmailDigest.key_missing w); [left; reflexivity|].
  pose proof (get_all_recent_documents_outbox w days s) as Hout.
  unfold mbind, M_bind, bind.
  destruct (EmailDigest.get_all_recent_documents w days s)
    as [[docs|e] s1]; simpl in Hout; [|by left].
  destruct docs as [|d docs]; [left; exact Hout|].
  unfold of_outcome.
  destruct (EmailDigest.build_email_html w (d :: docs)) as [html|e];
    [|by left].
  right. eexists. unfold try_except, EmailDigest.Emails_send.
  unfold mbind, M_bind, bind.
  destruct (resend_send w _) as [resp|e]; simpl; rewrite Hout; eauto.
Qed.

(** X12.  With the key set, a non-empty window and text abstracts, the
    digest hands exactly one message to the transport, with the count in
    the subject and both bodies, and returns true when the transport
    returns and false when it raises; the exception of the transport does
    not leave [send_digest]. *)
Theorem send_digest_outcome (w : world) (days c : Z) (s : state) :
  EmailDigest.key_missing w = false ->
  EmailDigest.cutoff_date w days = Returns c ->
  recent_documents w c <> [] ->
  Forall (fun d => is_text (EmailDigest.d_abstract d) = true)
    (recent_documents w c) ->
  exists html lines,
    EmailDigest.build_email_html w (recent_documents w c) = Returns html /\
    EmailDigest.send_digest w days s =
      (Returns
         (match resend_send w (digest_message w (recent_documents w c) html)
          with Returns _ => true | Raises _ => false end),
       mkState (stdout s ++ lines)
         (outbox s ++ [digest_message w (recent_documents w c) html])).
Proof.
  intros Hkey Hc Hne Htext.
  destruct (get_all_recent_documents_window w days c Hc s) as (l1 & Hfetch).
  set (docs := recent_documents w c) in *.
  assert (Hhtml : exists html,
            EmailDigest.build_email_html w docs = Returns html).
  { unfold EmailDigest.build_email_html.
    rewrite !render_section_text by exact Htext. simpl. eauto. }
  destruct Hhtml as (html & Hhtml). exists html.
  unfold EmailDigest.send_digest. rewrite Hkey.
  unfold mbind, M_bind, bind. rewrite Hfetch.
  destruct docs as [|d docs'] eqn:Hdocs; [done|].
  unfold of_outcome. rewrite Hhtml.
  unfold try_except, EmailDigest.Emails_send, mbind, M_bind, bind.
  fold (digest_message w (d :: docs') html).
  destruct (resend_send w (digest_message w (d :: docs') html)) as [resp|e];
    simpl; eexists; split; try reflexivity;
    unfold print, mret, M_ret, ret; simpl; rewrite <- app_assoc; reflexivity.
Qed.

(** X13.  A content filter that is none of the six known values selects no
    source: [index] makes no request, prints nothing and returns the page
    with five empty groups and a total count of 0. *)
Theorem index_unknown_filter (w : world) (content_filter : string)
    (year_arg : option string) (s : state) :
  content_filter ∉ content_filters ->
  App.index w (Some content_filter) year_arg s =
    (Returns
       (App.mkPage [] [] [] [] [] (strftime_A_B_d_Y (now w))
          (default (pretty (year (now w))) year_arg) (year (now w))
          content_filter 0 false), s).
Proof.
  intros Hcf. unfold content_filters in Hcf.
  rewrite !not_elem_of_cons in Hcf.
  destruct Hcf as (H1 & H2 & H3 & H4 & H5 & H6 & _).
  apply String.eqb_neq in H1, H2, H3, H4, H5, H6.
  unfold App.index, App.str_in. simpl.
  rewrite H1, H2, H3, H4, H5, H6. reflexivity.
Qed.

Lemma sort_documents_perm (l l' : list document) :
  Forall (fun d => sortable d = true) l ->
  App.sort_documents l = Returns l' -> l' ≡ₚ l.
Proof.
  intros Hl Hs. rewrite (sort_documents_sortable l Hl) in Hs.
  injection Hs as <-. rewrite sort_desc_perm, map_map. simpl.
  by rewrite map_id.
Qed.

Lemma of_content_type_all (label : string) (l : list document) :
  Forall (fun d => dict_get d "content_type" = PStr label) l ->
  App.of_content_type label l = l.
Proof.
  induction 1 as [|d l Hd Hl IH]; [reflexivity|].
  unfold App.of_content_type in *. cbn [List.filter].
  rewrite Hd. simpl. by rewrite String.eqb_refl, IH.
Qed.

Lemma of_content_type_none (label label' : string) (l : list document) :
  label <> label' ->
  Forall (fun d => dict_get d "content_type" = PStr label) l ->
  App.of_content_type label' l = [].
Proof.
  intros Hne. induction 1 as [|d l Hd Hl IH]; [reflexivity|].
  unfold App.of_content_type in *. cbn [List.filter].
  rewrite Hd. simpl. apply String.eqb_neq in Hne. by rewrite Hne.
Qed.

Lemma feed_result_content_type (w : world)
    (year url content_type source_name : string) :
  Forall (fun d => dict_get d "content_type" = PStr content_type)
    (fst (feed_result w year url content_type source_name)).
Proof.
  unfold feed_result. simpl. apply filter_by_year_Forall.
  unfold feed_documents. repeat case_match; try constructor.
  apply Forall_forall. intros d Hd.
  apply list_elem_of_fmap in Hd as (item & -> & _).
  apply process_rss_item_content_type.
Qed.

(** X14.  With the filter "interpretations" the page holds the documents
    of the interpretations feed after the year filter and nothing else:
    the other four groups are empty and the total count is the number of
    interpretations shown. *)
Theorem index_interpretations_only (w : world) (year_arg : option string) :
  let year_text := default (pretty (year (now w))) year_arg in
  let docs :=
    fst (feed_result w year_text OSHA_INTERPRETATIONS_RSS "Interpretation"
           "OSHA Interpretations") in
  exists page,
    returns (App.index w (Some "interpretations") year_arg) page /\
    App.interpretations page ≡ₚ docs /\
    App.final_rules page = [] /\
    App.proposed_rules page = [] /\
    App.notices page = [] /\
    App.directives page = [] /\
    App.total_count page = Z.of_nat (length (App.interpretations page)).
Proof.
  intros year_text docs.
  destruct (index_returns_selected w (Some "interpretations") year_arg)
    as (sorted & Hsort & Hret).
  { intros doc_type sel Hin Hsel. exfalso.
    rewrite !elem_of_cons, elem_of_nil in Hin.
    destruct Hin as [[= -> ->]|[[= -> ->]|[[= -> ->]|[]]]]; discriminate. }
  simpl default in Hsort. fold year_text in Hsort.
  assert (Hall : concat (map fst
            (contributions w "interpretations" year_text)) = docs).
  { unfold contributions, docs. simpl. by rewrite !app_nil_r. }
  rewrite Hall in Hsort.
  pose proof (feed_result_content_type w year_text OSHA_INTERPRETATIONS_RSS
                "Interpretation" "OSHA Interpretations") as Hct.
  fold docs in Hct.
  assert (Hperm : sorted ≡ₚ docs).
  { apply sort_documents_perm; [|exact Hsort].
    apply feed_result_sortable. }
  assert (Hct' : Forall (fun d => dict_get d "content_type"
                                  = PStr "Interpretation") sorted)
    by (by rewrite Hperm).
  exists (page_of w (Some "interpretations") year_arg sorted).
  split; [exact Hret|]. unfold page_of. simpl.
  rewrite (of_content_type_all _ _ Hct').
  rewrite !(of_content_type_none "Interpretation") by (done || exact Hct').
  repeat split; try done.
  assert (Hlen : length sorted = length docs) by (by rewrite Hperm).
  rewrite Hlen. fold year_text.
  unfold total_of, contributions, docs, feed_result. simpl. lia.
Qed.

(** With the filter "rules", a body the loop or the addition of the count
    cannot use makes [index] raise: nothing is printed and no page is
    returned. *)
Lemma index_rules_raises (w : world) (content_arg year_arg : option string)
    (r : response json_body) (results count : option json_member) (s : state) :
  default "rules" content_arg = "rules" ->
  get_federal_register w
    (mkParams ["RULE"] 30
       (App.year_condition w
          (Some (default (pretty (year (now w))) year_arg)))) = Returns r ->
  bad_status r = false ->
  content r = ValidJSON (JObject results count) ->
  (records_of results = None \/ count_of count = None) ->
  exists e,
    App.index w content_arg year_arg s = (Raises e, s) /\
    (exn_cls e = TypeError \/ exn_cls e = AttributeError) /\
    (records_of results <> None -> exn_cls e = TypeError).
Proof.
  intros Hcf Hget Hstatus Hbody Hbad.
  unfold App.index. rewrite Hcf.
  change (App.str_in "rules" ["all"; "rules"]) with true.
  unfold App.fetch_if at 1. unfold App.counted, App.fetch_federal_register.
  unfold_M. simpl default. rewrite Hget. simpl.
  rewrite (raise_for_status_good r Hstatus). simpl.
  unfold response_json. rewrite Hbody. simpl.
  destruct (records_of results) as [docs|] eqn:Hdocs.
  - destruct Hbad as [|Hn]; [discriminate|].
    destruct (py_iter_records results docs Hdocs) as (items & -> & Hitems).
    rewrite (for_records_map _ items docs Hitems). simpl.
    destruct count as [[[| | | |]| |]|]; simpl in Hn; try discriminate;
      simpl; eexists; (split; [reflexivity|]); split; auto.
  - destruct (py_iter_no_records
                (fun doc => [App.process_federal_register w doc])
                results Hdocs) as (e & He & Hcls).
    exists e.
    destruct (py_iter _) as [items|e']; simpl.
    + rewrite He. simpl.
      destruct Hcls as [Hc|Hc]; unfold is_RequestException; rewrite Hc;
        simpl; (split; [reflexivity|]); split; auto; done.
    + injection He as ->. simpl.
      destruct Hcls as [Hc|Hc]; unfold is_RequestException; rewrite Hc;
        simpl; (split; [reflexivity|]); split; auto; done.
Qed.

(** X15.  With the filter "rules" (also by default) and a response whose
    status is no error and whose body is a JSON object: when [results]
    holds records and [count] is a number (or missing), the total count of
    the page is that number (0 when missing), not the number of documents
    listed, and the rules listed are at most the records received; when
    [count] is anything else (null, text) the [TypeError] of
    [total_count += fr_count] leaves [index], as does the exception of the
    loop over [results] that are not records, and no page is returned. *)
Theorem index_rules_total_count (w : world) (content_arg year_arg : option string)
    (r : response json_body) (results count : option json_member) :
  default "rules" content_arg = "rules" ->
  get_federal_register w
    (mkParams ["RULE"] 30
       (App.year_condition w
          (Some (default (pretty (year (now w))) year_arg)))) = Returns r ->
  bad_status r = false ->
  content r = ValidJSON (JObject results count) ->
  (forall docs n,
     records_of results = Some docs -> count_of count = Some n ->
     exists page,
       returns (App.index w content_arg year_arg) page /\
       App.total_count page = n /\
       (length (App.final_rules page) <= length docs)%nat) /\
  (records_of results = None \/ count_of count = None ->
   forall s, exists e,
     App.index w content_arg year_arg s = (Raises e, s) /\
     (exn_cls e = TypeError \/ exn_cls e = AttributeError) /\
     (records_of results <> None -> exn_cls e = TypeError)).
Proof.
  intros Hcf Hget Hstatus Hbody. split;
    [|intros Hbad s; by eapply index_rules_raises].
  intros docs n Hdocs Hn.
  set (year_text := default (pretty (year (now w))) year_arg) in *.
  destruct (index_returns_selected w content_arg year_arg)
    as (sorted & Hsort & Hret).
  { rewrite Hcf. fold year_text. intros doc_type sel Hin Hsel.
    rewrite !elem_of_cons, elem_of_nil in Hin.
    destruct Hin as [[= -> ->]|[[= -> ->]|[[= -> ->]|[]]]]; try discriminate.
    unfold fr_handled, fr_failure, well_formed.
    rewrite Hget, Hstatus, Hbody, Hdocs, Hn. reflexivity. }
  rewrite Hcf in Hsort. fold year_text in Hsort.
  assert (Hres : federal_register_result w year_text "RULE" =
            (map (App.process_federal_register w) docs, n)).
  { unfold federal_register_result.
    by rewrite Hget, Hstatus, Hbody, Hdocs, Hn. }
  assert (Hall : concat (map fst (contributions w "rules" year_text))
                 = map (App.process_federal_register w) docs).
  { unfold contributions. simpl. rewrite Hres. simpl. by rewrite !app_nil_r. }
  rewrite Hall in Hsort.
  assert (Hperm : sorted ≡ₚ map (App.process_federal_register w) docs).
  { apply sort_documents_perm; [|exact Hsort].
    apply Forall_forall. intros d Hd.
    apply list_elem_of_fmap in Hd as (raw & -> & _).
    apply process_federal_register_sortable. }
  exists (page_of w content_arg year_arg sorted).
  split; [exact Hret|]. unfold page_of. rewrite Hcf. fold year_text. simpl.
  split.
  - unfold total_of, contributions. simpl. rewrite Hres. simpl. lia.
  - etransitivity; [apply sublist_length, filter_sublist|].
    by rewrite Hperm, length_map.
Qed.

(** X16.  [format_type_label] is idempotent, and it returns a value that
    is not one of the five types, or not text at all, as it is. *)
Theorem format_type_label_idempotent (v : pyval) :
  EmailDigest.format_type_label (EmailDigest.format_type_label v) =
    EmailDigest.format_type_label v /\
  (has_section v = false -> EmailDigest.format_type_label v = v) /\
  (is_text v = false -> EmailDigest.format_type_label v = v).
Proof.
  destruct v as [| | |s|]; try (repeat split; reflexivity).
  unfold EmailDigest.format_type_label, has_section, display_order. simpl.
  destruct (String.eqb_spec s "Rule") as [->|H1]; [repeat split; done|].
  destruct (String.eqb_spec s "Proposed Rule") as [->|H2];
    [repeat split; done|].
  destruct (String.eqb_spec s "Notice") as [->|H3]; [repeat split; done|].
  destruct (String.eqb_spec s "Interpretation") as [->|H4];
    [repeat split; done|].
  destruct (String.eqb_spec s "Directive") as [->|H5]; [repeat split; done|].
  simpl. apply String.eqb_neq in H1, H2, H3, H4, H5.
  rewrite H1, H2, H3, H4, H5. repeat split; done.
Qed.

(** X17.  The documents whose type is none of the five, wherever they are
    in the list, are counted in the header of the HTML body but are in no
    group and so rendered in no section (their abstracts need not be text):
    the sections are those of the list without them.  The text body lists
    them like any other document. *)
Theorem build_email_html_skips_unknown_type (w : world)
    (documents : list EmailDigest.digest_doc) :
  let shown :=
    List.filter (fun d => has_section (EmailDigest.d_type d)) documents in
  Forall (fun d => is_text (EmailDigest.d_abstract d) = true) shown ->
  EmailDigest.build_email_html w documents =
    Returns
      (EmailDigest.html_header (strftime_A_B_d_Y (now w)) (length documents)
       ++ concat_str (map (html_section shown) display_order)
       ++ EmailDigest.html_footer) /\
  (forall d sec,
     d ∈ documents -> has_section (EmailDigest.d_type d) = false ->
     sec ∈ display_order ->
     d ∉ EmailDigest.of_type (snd (fst sec)) documents) /\
  EmailDigest.build_email_text w documents =
    EmailDigest.text_header (strftime_A_B_d_Y (now w)) (length documents)
    ++ concat_str (map EmailDigest.text_item documents)
    ++ EmailDigest.text_footer.
Proof.
  intros shown Htext. split; [|split].
  - by apply build_email_html_shown.
  - intros d sec _ Hd Hsec Hin.
    unfold EmailDigest.of_type in Hin.
    apply list_elem_of_In, filter_In in Hin as [_ Hin].
    assert (Hs : has_section (EmailDigest.d_type d) = true); [|congruence].
    unfold has_section. apply existsb_exists.
    exists sec. split; [by apply list_elem_of_In|exact Hin].
  - unfold EmailDigest.build_email_text.
    by rewrite text_items_concat, append_assoc.
Qed.

Lemma filter_filter_same {A} (p : A -> bool) (l : list A) :
  List.filter p (List.filter p l) = List.filter p l.
Proof.
  induction l as [|x l IH]; [reflexivity|]. simpl.
  destruct (p x) eqn:Hp; simpl; [by rewrite Hp, IH | exact IH].
Qed.

(** X18.  The year filter only removes documents, keeping the order of the
    rest, and filtering twice is filtering once. *)
Theorem filter_by_year_idempotent (w : world) (year_arg : string)
    (docs : list document) :
  Forall (fun d => sortable d = true) docs ->
  sublist (App.filter_by_year w year_arg docs) docs /\
  App.filter_by_year w year_arg (App.filter_by_year w year_arg docs) =
    App.filter_by_year w year_arg docs.
Proof.
  intros Hdocs.
  assert (Hf : Forall (fun d => sortable d = true)
                 (App.filter_by_year w year_arg docs))
    by (by apply filter_by_year_Forall).
  rewrite (filter_by_year_sortable w year_arg _ Hf).
  rewrite (filter_by_year_sortable w year_arg docs Hdocs).
  destruct (_ && _); [|done].
  destruct (py_int w year_arg) as [y|]; [|done].
  split; [apply filter_sublist | apply filter_filter_same].
Qed.

Lemma total_us_split (d : naive) :
  total_us d = toordinal d * us_per_day + time_of_day_us d.
Proof. unfold total_us, time_of_day_us, us_per_day. lia. Qed.

Lemma time_of_day_us_bound (d : naive) :
  valid_naive d = true -> 0 <= time_of_day_us d < us_per_day.
Proof.
  unfold valid_naive, time_of_day_us, us_per_day.
  rewrite !andb_true_iff, !Z.leb_le. lia.
Qed.

(** For a date without a time that lies [k] days after today's date, the
    day difference to the current instant is [k - 1]. *)
Lemma sub_days_date_only (e now : naive) (k : Z) :
  valid_naive now = true ->
  time_of_day_us e = 0 -> 0 < time_of_day_us now ->
  toordinal e - toordinal now = k ->
  sub_days e now = k - 1.
Proof.
  intros Hv He Hnow Hk. pose proof (time_of_day_us_bound now Hv) as Hb.
  unfold sub_days. rewrite !total_us_split, He.
  assert (Hd : 0 < us_per_day) by (unfold us_per_day; lia).
  pose proof (div_in_range
    (toordinal e * us_per_day + 0
     - (toordinal now * us_per_day + time_of_day_us now))
    us_per_day (k - 1) (k - 1) Hd).
  nia.
Qed.

(** X19.  For an effective date without a time of day that lies [k >= 1]
    calendar days after today's date, with [now] after midnight, the day
    difference the code computes is [k - 1]: the label is "Effective
    today" for [k = 1], "Effective tomorrow" for [k = 2], "Effective in
    k-1 days" for [3 <= k <= 30] and the date from [k = 31] on. *)
Theorem effective_status_date_only (w : world) (doc : document) (s : string)
    (e : naive) (k : Z) :
  valid_naive (now w) = true ->
  doc !! "effective_on" = Some (PStr s) -> s <> "" ->
  date_parse w s = Some (mkDatetime e None) ->
  time_of_day_us e = 0 -> 0 < time_of_day_us (now w) ->
  naive_gtb e (now w) = true ->
  toordinal e - toordinal (now w) = k -> 1 <= k ->
  sub_days e (now w) = k - 1 /\
  App.effective_status w doc =
    if k =? 1 then "Effective today"
    else if k =? 2 then "Effective tomorrow"
    else if k <=? 30 then "Effective in " ++ pretty (k - 1) ++ " days"
    else "Effective " ++ strftime_b_d_Y e.
Proof.
  intros Hv Hdoc Hs Hparse He Hnow Hgt Hk Hk1.
  pose proof (sub_days_date_only e (now w) k Hv He Hnow Hk) as Hd.
  split; [exact Hd|].
  rewrite (effective_status_unfold w doc s e Hdoc Hs Hparse), Hgt.
  cbv zeta. rewrite Hd. zcases; try lia; reflexivity.
Qed.

(** X21.  On a successful response whose body is XML, a feed client prints
    nothing and returns one document per item, in document order. *)
Theorem fetch_osha_rss_success (w : world)
    (url content_type source_name : string) (s : state)
    (r : response xml_body) (items : list rss_item) :
  get_rss w url = Returns r ->
  bad_status r = false ->
  content r = XMLRoot items ->
  App.fetch_osha_rss w url content_type source_name s =
    (Returns (map (App.process_rss_item w content_type source_name) items),
     s) /\
  length (map (App.process_rss_item w content_type source_name) items)
    = length items.
Proof.
  intros Hget Hstatus Hbody. split; [|apply length_map].
  unfold App.fetch_osha_rss. unfold_M.
  rewrite Hget. simpl. rewrite (raise_for_status_good r Hstatus). simpl.
  unfold ET_fromstring. rewrite Hbody. reflexivity.
Qed.

(** X22.  Every digest document made from a feed item has a text title
    and abstract, the type of its feed, the source "OSHA.gov" and an
    empty effective date and pdf_url; so the HTML body of feed documents
    is always built. *)
Theorem recent_feed_documents_fields (w : world) (content_type : string)
    (cutoff : Z) (o : outcome (response xml_body)) :
  Forall (fun d =>
            is_text (EmailDigest.d_abstract d) = true /\
            is_text (EmailDigest.d_title d) = true /\
            EmailDigest.d_type d = PStr content_type /\
            EmailDigest.d_source d = PStr "OSHA.gov" /\
            EmailDigest.d_effective_on d = PStr "" /\
            EmailDigest.d_pdf_url d = PStr "")
    (recent_of_feed w content_type cutoff o) /\
  exists html,
    EmailDigest.build_email_html w (recent_of_feed w content_type cutoff o)
      = Returns html.
Proof.
  assert (H : Forall (fun d =>
            is_text (EmailDigest.d_abstract d) = true /\
            is_text (EmailDigest.d_title d) = true /\
            EmailDigest.d_type d = PStr content_type /\
            EmailDigest.d_source d = PStr "OSHA.gov" /\
            EmailDigest.d_effective_on d = PStr "" /\
            EmailDigest.d_pdf_url d = PStr "")
    (recent_of_feed w content_type cutoff o)).
  { unfold recent_of_feed. repeat case_match; try constructor.
    apply Forall_forall. intros d Hd.
    apply list_elem_of_omap in Hd as (item & _ & Hd).
    unfold EmailDigest.recent_rss_doc in Hd.
    repeat case_match; try discriminate. injection Hd as <-. done. }
  split; [exact H|].
  unfold EmailDigest.build_email_html.
  rewrite !render_section_text
    by (eapply Forall_impl; [exact H|]; by intros d (Ha & _)).
  simpl. eauto.
Qed.

(** ** The further properties on concrete inputs *)

Lemma sort_documents_stable_witness :
  let first : document := {[ "title" := PStr "first" ]} in
  let dated : document :=
    {[ "pub_date" := PDate (mkDatetime (mkNaive 2024 4 1 0 0 0 0) None) ]} in
  let second : document := {[ "title" := PStr "second" ]} in
  exists l',
    App.sort_documents [first; dated; second] = Returns l' /\
    with_key datetime_min l' = with_key datetime_min [first; dated; second].
Proof.
  intros first dated second.
  apply (sort_documents_stable [first; dated; second] datetime_min).
  repeat constructor.
Defined.

Lemma sort_documents_idempotent_witness :
  let undated : document := {[ "title" := PStr "undated" ]} in
  let dated : document :=
    {[ "pub_date" := PDate (mkDatetime (mkNaive 2024 4 1 0 0 0 0) None) ]} in
  App.sort_documents [dated; undated] = Returns [dated; undated].
Proof.
  intros undated dated.
  apply (sort_documents_idempotent [undated; dated] [dated; undated]).
  - repeat constructor.
  - vm_compute. reflexivity.
Defined.

Lemma groups_newest_first_witness :
  let undated : document := {[ "title" := PStr "undated" ]} in
  let dated : document :=
    {[ "pub_date" := PDate (mkDatetime (mkNaive 2024 4 1 0 0 0 0) None) ]} in
  newest_first [dated; undated] /\
  Forall newest_first (groups [dated; undated]).
Proof.
  intros undated dated.
  apply (groups_newest_first [undated; dated] [dated; undated]).
  - repeat constructor.
  - vm_compute. reflexivity.
Defined.

Lemma process_rss_item_fields_witness :
  App.process_rss_item Scenarios.online "Interpretation" "OSHA Interpretations"
    (mkItem (Some "Letter C") None None (Some "  ")) !! "pub_date"
  = Some PNone.
Proof.
  destruct (process_rss_item_fields Scenarios.online "Interpretation"
              "OSHA Interpretations"
              (mkItem (Some "Letter C") None None (Some "  ")))
    as (_ & _ & _ & _ & _ & H & _).
  apply H. left. reflexivity.
Defined.

Lemma fetch_federal_register_success_witness :
  App.fetch_federal_register Scenarios.online (Some "2024") (Some ["RULE"]) 30
    (mkState [] []) =
  (Returns
     (map (App.process_federal_register Scenarios.online)
        [Scenarios.raw_notice; Scenarios.raw_rule], JScalar (PInt 57)),
   mkState [] []) /\
  exists e,
    App.fetch_federal_register (Scenarios.answering Scenarios.null_results)
      (Some "2024") (Some ["RULE"]) 30 (mkState [] []) =
      (Raises e, mkState [] []) /\
    (exn_cls e = TypeError \/ exn_cls e = AttributeError).
Proof.
  split.
  - apply (proj1 (fetch_federal_register_success Scenarios.online
             (Some "2024") (Some ["RULE"]) 30 (mkState [] [])
             (mkResponse 200 "OK" "https://example.org/" Scenarios.two_records)
             (Some (JArray [JRecord Scenarios.raw_notice;
                            JRecord Scenarios.raw_rule]))
             (Some (JScalar (PInt 57))) eq_refl eq_refl eq_refl));
      reflexivity.
  - apply (proj2 (fetch_federal_register_success
             (Scenarios.answering Scenarios.null_results)
             (Some "2024") (Some ["RULE"]) 30 (mkState [] [])
             (mkResponse 200 "OK" "https://example.org/"
                Scenarios.null_results)
             (Some (JScalar PNone)) (Some (JScalar (PInt 3)))
             eq_refl eq_refl eq_refl));
      reflexivity.
Defined.

Lemma fetch_federal_register_propagates_witness :
  exists e, exn_cls e = AttributeError /\
    App.fetch_federal_register Scenarios.odd_json (Some "2024")
      (Some ["RULE"]) 30 (mkState [] []) = (Raises e, mkState [] []).
Proof.
  apply (proj2 (fetch_federal_register_propagates Scenarios.odd_json
                  (Some "2024") (Some ["RULE"]) 30 (mkState [] []))
           (mkResponse 200 "OK" "https://example.org/" (ValidJSON JOther)));
    reflexivity.
Defined.

Lemma digest_fetch_never_raises_witness :
  exists lines,
    EmailDigest.get_all_recent_documents Examples.offline 1 (mkState [] []) =
      (Returns
         (recent_documents Examples.offline
            (total_us (now Examples.offline) - 1 * us_per_day)),
       mkState lines []).
Proof.
  apply (digest_fetch_never_raises Examples.offline 1
           (total_us (now Examples.offline) - 1 * us_per_day) (mkState [] [])).
  reflexivity.
Defined.

Lemma send_digest_lookback_out_of_range_witness :
  EmailDigest.send_digest Examples.offline 10000000 (mkState [] []) =
    (Raises (mkExn OverflowError "date value out of range"), mkState [] []).
Proof.
  apply (send_digest_lookback_out_of_range Examples.offline 10000000
           (mkState [] []));
    reflexivity.
Defined.

Lemma lookback_monotone_witness :
  sublist
    (recent_documents Scenarios.online
       (total_us (now Scenarios.online) - 1 * us_per_day))
    (recent_documents Scenarios.online
       (total_us (now Scenarios.online) - 30 * us_per_day)).
Proof.
  apply (lookback_monotone Scenarios.online 1 30); [lia | reflexivity..].
Defined.

Lemma send_digest_outcome_witness :
  exists html lines,
    EmailDigest.build_email_html Scenarios.online
      (recent_documents Scenarios.online
         (total_us (now Scenarios.online) - 1 * us_per_day)) = Returns html /\
    EmailDigest.send_digest Scenarios.online 1 (mkState [] []) =
      (Returns true,
       mkState lines
         [digest_message Scenarios.online
            (recent_documents Scenarios.online
               (total_us (now Scenarios.online) - 1 * us_per_day)) html]).
Proof.
  apply (send_digest_outcome Scenarios.online 1
           (total_us (now Scenarios.online) - 1 * us_per_day) (mkState [] [])).
  - reflexivity.
  - reflexivity.
  - vm_compute. discriminate.
  - vm_compute. repeat constructor.
Defined.

Lemma index_unknown_filter_witness :
  App.index Scenarios.online (Some "everything") (Some "2024") (mkState [] [])
  = (Returns
       (App.mkPage [] [] [] [] [] "Wednesday, May 01, 2024" "2024" 2024
          "everything" 0 false), mkState [] []).
Proof.
  apply (index_unknown_filter Scenarios.online "everything" (Some "2024")
           (mkState [] [])).
  unfold content_filters. rewrite !not_elem_of_cons.
  repeat split; try discriminate. apply not_elem_of_nil.
Defined.

Lemma index_rules_total_count_witness :
  (exists page,
     returns (App.index Scenarios.online None None) page /\
     App.total_count page = 57 /\
     (length (App.final_rules page) <= 2)%nat) /\
  exists e,
    App.index (Scenarios.answering Scenarios.null_count) None None
      (mkState [] []) = (Raises e, mkState [] []) /\
    exn_cls e = TypeError.
Proof.
  split.
  - apply (proj1 (index_rules_total_count Scenarios.online None None
             (mkResponse 200 "OK" "https://example.org/" Scenarios.two_records)
             (Some (JArray [JRecord Scenarios.raw_notice;
                            JRecord Scenarios.raw_rule]))
             (Some (JScalar (PInt 57))) eq_refl eq_refl eq_refl eq_refl)
             [Scenarios.raw_notice; Scenarios.raw_rule] 57);
      reflexivity.
  - destruct (proj2 (index_rules_total_count
                (Scenarios.answering Scenarios.null_count) None None
                (mkResponse 200 "OK" "https://example.org/"
                   Scenarios.null_count)
                (Some (JArray [JRecord Scenarios.raw_rule]))
                (Some (JScalar PNone)) eq_refl eq_refl eq_refl eq_refl)
                (or_intror eq_refl) (mkState [] []))
      as (e & He & _ & Hcls).
    exists e. split; [exact He|]. apply Hcls. discriminate.
Defined.

Lemma format_type_label_idempotent_witness :
  EmailDigest.format_type_label (PStr "Presidential Document")
  = PStr "Presidential Document".
Proof.
  apply (proj1 (proj2 (format_type_label_idempotent
                         (PStr "Presidential Document")))).
  reflexivity.
Defined.

Lemma build_email_html_skips_unknown_type_witness :
  let rule :=
    EmailDigest.mkDoc (PStr "Final rule on silica") (PStr "Rule")
      (PStr "Amends the standard.") (PStr "https://example.org/r") (PStr "")
      (PStr "May 01, 2024") (PStr "2024-06-01") (PStr "Federal Register") in
  let d :=
    EmailDigest.mkDoc (PStr "Proclamation") (PStr "Presidential Document")
      PNone (PStr "https://example.org/p") (PStr "") (PStr "May 01, 2024")
      (PStr "") (PStr "Federal Register") in
  EmailDigest.build_email_html Examples.offline [rule; d; rule] =
    Returns
      (EmailDigest.html_header "Wednesday, May 01, 2024" 3
       ++ concat_str (map (html_section [rule; rule]) display_order)
       ++ EmailDigest.html_footer).
Proof.
  intros rule d.
  apply (build_email_html_skips_unknown_type Examples.offline [rule; d; rule]).
  repeat constructor.
Defined.

Lemma filter_by_year_idempotent_witness :
  let docs :=
    map (App.process_rss_item Scenarios.online "Interpretation"
           "OSHA Interpretations")
      [ mkItem (Some "Letter A") None None (Some "2024-05-01");
        mkItem (Some "Letter B") None None (Some "2023-01-15") ] in
  App.filter_by_year Scenarios.online "2024"
    (App.filter_by_year Scenarios.online "2024" docs) =
  App.filter_by_year Scenarios.online "2024" docs.
Proof.
  intros docs.
  apply (filter_by_year_idempotent Scenarios.online "2024" docs).
  repeat constructor; apply process_rss_item_sortable.
Defined.

Lemma effective_status_date_only_witness :
  App.effective_status Scenarios.online
    {[ "effective_on" := PStr "2024-05-02" ]} = "Effective today".
Proof.
  destruct (effective_status_date_only Scenarios.online
              {[ "effective_on" := PStr "2024-05-02" ]} "2024-05-02"
              (mkNaive 2024 5 2 0 0 0 0) 1) as [_ H];
    [first [reflexivity | discriminate | lia].. | exact H].
Defined.

Lemma fetch_osha_rss_success_witness :
  App.fetch_osha_rss Scenarios.online OSHA_DIRECTIVES_RSS "Directive"
    "OSHA Directives" (mkState [] []) =
  (Returns
     (map (App.process_rss_item Scenarios.online "Directive" "OSHA Directives")
        [ mkItem (Some " Letter A ") (Some "https://example.org/a") None
            (Some "2024-05-01");
          mkItem (Some "Letter B") (Some "https://example.org/b") None
            (Some "2023-01-15");
          mkItem (Some "Letter C") None None (Some "  ") ]),
   mkState [] []).
Proof.
  apply (fetch_osha_rss_success Scenarios.online OSHA_DIRECTIVES_RSS
           "Directive" "OSHA Directives" (mkState [] [])
           (mkResponse 200 "OK" "https://example.org/" Scenarios.letters));
    reflexivity.
Defined.
